(** * HR-Resume-Management: the record flattener, the duration engine,
      the aggregation step and the persistence layer

    A shallow embedding of [resume_processor.py], [main_v2.py] and
    [database.py], and the properties of them that the specification
    states.

    Conventions of the embedding.
    - A Python [str] is a [string]: the bytes of its UTF-8 encoding, as in
      the source files.  The en-dash of [process_duration_column] is the
      three-byte string ["–"].  Searching, splitting and [strip(' -')] on
      the bytes are what Python does on the characters.  [strip()] removes
      every character of which [str.isspace] holds, ASCII or not.  Letters
      and digits are classified on the ASCII range: [lower], [isdigit] and
      the classes [\d], [\w] and [\s] of the regular expressions are those
      of Python on texts of ASCII characters, and the statements that depend
      on them beyond that range say so.
    - A value read by [json.loads] is a [json]; a JSON object is an
      association list read by [lookup], the first binding of a key being
      the one that counts.  JSON numbers are the integers.
    - An exception is a value: a function that can raise returns the
      exception next to the state it leaves behind.
    - [datetime.now()] is an argument [now] of the functions that read the
      clock. *)

From Stdlib Require Import ZArith List String Ascii Bool Lia DecimalString.
Import ListNotations.

Open Scope string_scope.
Open Scope list_scope.

(** ** Python strings *)

Module PyStr.

(** The white space of the ASCII range: tab to carriage return, the four
    separators 28..31 and the space (what [\s] matches in a text of ASCII
    characters). *)
Definition is_space (c : ascii) : bool :=
  let n := nat_of_ascii c in
  ((9 <=? n) && (n <=? 13) || (28 <=? n) && (n <=? 32))%nat.

(** The digits of the ASCII range: [str.isdigit] and [\d] on a text of
    ASCII characters. *)
Definition is_digit (c : ascii) : bool :=
  let n := nat_of_ascii c in ((48 <=? n) && (n <=? 57))%nat.

Definition is_upper (c : ascii) : bool :=
  let n := nat_of_ascii c in ((65 <=? n) && (n <=? 90))%nat.

Definition is_lower (c : ascii) : bool :=
  let n := nat_of_ascii c in ((97 <=? n) && (n <=? 122))%nat.

(** [\w] of the [re] module on a text of ASCII characters. *)
Definition is_word (c : ascii) : bool :=
  is_digit c || is_upper c || is_lower c || Ascii.eqb c "_".

Definition lower_char (c : ascii) : ascii :=
  if is_upper c then ascii_of_nat (nat_of_ascii c + 32) else c.

(** [s.lower()] *)
Fixpoint lower (s : string) : string :=
  match s with
  | EmptyString => EmptyString
  | String c s' => String (lower_char c) (lower s')
  end.

(** [c in chars] for a one-character [c]. *)
Fixpoint mem_char (c : ascii) (chars : string) : bool :=
  match chars with
  | EmptyString => false
  | String d chars' => Ascii.eqb c d || mem_char c chars'
  end.

Fixpoint lstrip_by (p : ascii -> bool) (s : string) : string :=
  match s with
  | EmptyString => EmptyString
  | String c s' => if p c then lstrip_by p s' else s
  end.

Fixpoint rstrip_by (p : ascii -> bool) (s : string) : string :=
  match s with
  | EmptyString => EmptyString
  | String c s' =>
      match rstrip_by p s' with
      | EmptyString => if p c then EmptyString else String c EmptyString
      | r => String c r
      end
  end.

Definition strip_by (p : ascii -> bool) (s : string) : string :=
  rstrip_by p (lstrip_by p s).

(** [s.strip(chars)] *)
Definition strip_chars (chars s : string) : string :=
  strip_by (fun c => mem_char c chars) s.

(** [''.join(filter(p, s))] *)
Fixpoint filter (p : ascii -> bool) (s : string) : string :=
  match s with
  | EmptyString => EmptyString
  | String c s' => if p c then String c (filter p s') else filter p s'
  end.

Fixpoint drop (n : nat) (s : string) : string :=
  match n, s with
  | O, _ => s
  | S n', String _ s' => drop n' s'
  | S _, EmptyString => EmptyString
  end.

(** The text of the bytes [l]. *)
Fixpoint bytes (l : list nat) : string :=
  match l with
  | [] => EmptyString
  | n :: l' => String (ascii_of_nat n) (bytes l')
  end.

(** The characters of which [str.isspace] holds, each as the bytes of its
    UTF-8 encoding: U+0009 to U+000D, U+001C to U+0020, U+0085, U+00A0,
    U+1680, U+2000 to U+200A, U+2028, U+2029, U+202F, U+205F and U+3000.
    None of these encodings begins another, and the byte that begins one is
    never a later byte of a character, so that in the encoding of a text a
    white-space character is found by its bytes. *)
Definition whitespace : list string :=
  map bytes
    [[9]; [10]; [11]; [12]; [13]; [28]; [29]; [30]; [31]; [32];
     [194; 133]; [194; 160]; [225; 154; 128];
     [226; 128; 128]; [226; 128; 129]; [226; 128; 130]; [226; 128; 131];
     [226; 128; 132]; [226; 128; 133]; [226; 128; 134]; [226; 128; 135];
     [226; 128; 136]; [226; 128; 137]; [226; 128; 138];
     [226; 128; 168]; [226; 128; 169]; [226; 128; 175]; [226; 129; 159];
     [227; 128; 128]].

(** The number of bytes of the white-space character that [s] begins
    with, 0 when it begins with none. *)
Definition space_len (s : string) : nat :=
  match find (fun w => prefix w s) whitespace with
  | Some w => length w
  | None => O
  end.

(** [s.lstrip()]: [skip] counts the bytes of a white-space character that
    are still to be passed over. *)
Fixpoint lstrip_from (skip : nat) (s : string) : string :=
  match s with
  | EmptyString => EmptyString
  | String _ s' =>
      match skip with
      | S k => lstrip_from k s'
      | O => match space_len s with
             | O => s
             | S k => lstrip_from k s'
             end
      end
  end.

Definition lstrip (s : string) : string := lstrip_from O s.

(** [s] is made of white-space characters only (as [s.isspace()], and
    true of the empty text). *)
Fixpoint blank_from (skip : nat) (s : string) : bool :=
  match s with
  | EmptyString => true
  | String _ s' =>
      match skip with
      | S k => blank_from k s'
      | O => match space_len s with
             | O => false
             | S k => blank_from k s'
             end
      end
  end.

Definition blank (s : string) : bool := blank_from O s.

(** [s.rstrip()]: the text up to the white-space characters it ends with. *)
Fixpoint rstrip (s : string) : string :=
  match s with
  | EmptyString => EmptyString
  | String c s' => if blank s then EmptyString else String c (rstrip s')
  end.

(** [s.strip()] *)
Definition strip (s : string) : string := rstrip (lstrip s).

(** [sep in s] *)
Fixpoint contains (sep s : string) : bool :=
  prefix sep s ||
  match s with
  | EmptyString => false
  | String _ s' => contains sep s'
  end.

(** [s.split(sep)] for a non-empty [sep]: the text is scanned from the
    left; at an occurrence of [sep] the segment read so far is closed and
    the scan goes on behind the occurrence.  [skip] counts the characters
    of an occurrence that are still to be passed over, [cur] is the open
    segment. *)
Fixpoint split_scan (sep : string) (skip : nat) (cur s : string)
  : list string :=
  match s with
  | EmptyString => [cur]
  | String c s' =>
      match skip with
      | S k => split_scan sep k cur s'
      | O =>
          if prefix sep s
          then cur :: split_scan sep (length sep - 1) EmptyString s'
          else split_scan sep O (cur ++ String c EmptyString)%string s'
      end
  end.

Definition split (sep s : string) : list string :=
  split_scan sep O EmptyString s.

(** [l[0]] and [l[-1]] of a list that [split] returns (never empty). *)
Definition first (l : list string) : string := hd EmptyString l.
Definition last (l : list string) : string := List.last l EmptyString.

End PyStr.

(** ** JSON values *)

Set Warnings "-register-all".

Inductive json : Type :=
| JNull
| JBool (b : bool)
| JInt (z : Z)
| JStr (s : string)
| JList (l : list json)
| JDict (d : list (string * json)).

Definition dict : Type := list (string * json).

Fixpoint lookup (k : string) (d : dict) : option json :=
  match d with
  | [] => None
  | (k', v) :: d' => if String.eqb k k' then Some v else lookup k d'
  end.

(** [d.get(k, default)] *)
Definition get (d : dict) (k : string) (default : json) : json :=
  match lookup k d with
  | Some v => v
  | None => default
  end.

(** [bool(v)] *)
Definition truthy (v : json) : bool :=
  match v with
  | JNull => false
  | JBool b => b
  | JInt z => negb (z =? 0)%Z
  | JStr s => negb (String.eqb s "")
  | JList l => match l with [] => false | _ => true end
  | JDict d => match d with [] => false | _ => true end
  end.

(** [a or b] *)
Definition py_or (a b : json) : json := if truthy a then a else b.

(** [type(v).__name__] *)
Definition type_name (v : json) : string :=
  match v with
  | JNull => "NoneType"
  | JBool _ => "bool"
  | JInt _ => "int"
  | JStr _ => "str"
  | JList _ => "list"
  | JDict _ => "dict"
  end.

Definition is_dict (v : json) : bool :=
  match v with JDict _ => true | _ => false end.

(** The exceptions the flattener can meet, each with its message. *)
Inductive exn : Type :=
| AttributeError (msg : string)
| TypeError (msg : string).

Definition exn_name (e : exn) : string :=
  match e with
  | AttributeError _ => "AttributeError"
  | TypeError _ => "TypeError"
  end.

Definition exn_message (e : exn) : string :=
  match e with
  | AttributeError m => m
  | TypeError m => m
  end.

(** [iter(v)]: a list gives its items, a str its characters, a dict its
    keys; nothing else is iterable. *)
Definition py_iter (v : json) : exn + list json :=
  match v with
  | JList l => inr l
  | JStr s => inr (map (fun c => JStr (String c "")) (list_ascii_of_string s))
  | JDict d => inr (map (fun kv => JStr (fst kv)) d)
  | _ => inl (TypeError ("'" ++ type_name v ++ "' object is not iterable")%string)
  end.

(** ** resume_processor.py: the record flattener *)

Module ResumeProcessor.

(** One dict of [all_resumes]: the cells keep the JSON value found in the
    record, [Graduation] is the formatted text. *)
Record resume_row : Type := {
  Name : json;
  Mobile : json;
  Email : json;
  Graduation : string;
  Company : json;
  Role : json;
  Duration : json
}.

(** One dict of [error_log] (the traceback text is left out). *)
Record error_entry : Type := {
  filename : string;
  error_type : string;
  error_message : string
}.

Section Flattener.

(** [str(v)] for a value that is not text, as an f-string formats it:
    Python's own, taken as given. *)
Variable py_format : json -> string.

(** [json.loads]: the decoded value, or the message of the
    [JSONDecodeError]. *)
Variable json_loads : string -> string + json.

Definition py_str (v : json) : string :=
  match v with
  | JStr s => s
  | _ => py_format v
  end.

(** Lines 122-125. *)
Definition graduation_info (resume_data : dict) : json :=
  py_or (get resume_data "Graduation" (JDict [])) (JDict []).

Definition graduation_degree (resume_data : dict) : json :=
  match graduation_info resume_data with
  | JDict g => get g "Degree" (JStr "")
  | _ => JStr ""
  end.

Definition graduation_institution (resume_data : dict) : json :=
  match graduation_info resume_data with
  | JDict g => get g "Institution" (JStr "")
  | _ => JStr ""
  end.

Definition graduation_str (resume_data : dict) : string :=
  PyStr.strip_chars " -"
    (py_str (graduation_degree resume_data) ++ " - " ++
     py_str (graduation_institution resume_data))%string.

(** [experience.get]: only a dict has the method. *)
Definition no_get (v : json) : exn :=
  AttributeError ("'" ++ type_name v ++ "' object has no attribute 'get'")%string.

(** Lines 128-138: the loop over the work experiences.  Each row is
    appended to [all_resumes] as soon as it is built, so the rows of the
    entries before a failing one stay in the list. *)
Fixpoint experience_loop (resume_data : dict) (experiences : list json)
  (all_resumes : list resume_row) : list resume_row * option exn :=
  match experiences with
  | [] => (all_resumes, None)
  | experience :: rest =>
      match experience with
      | JDict e =>
          let resume_row :=
            {| Name := get resume_data "Name" (JStr "");
               Mobile := get resume_data "Mobile" (JStr "");
               Email := get resume_data "Email" (JStr "");
               Graduation := graduation_str resume_data;
               Company := get e "Company" (JStr "");
               Role := get e "Role" (JStr "");
               Duration := get e "Duration" (JStr "") |} in
          experience_loop resume_data rest (all_resumes ++ [resume_row])
      | _ => (all_resumes, Some (no_get experience))
      end
  end.

(** Lines 122-149: one decoded record. *)
Definition flatten (resume_data : dict) (all_resumes : list resume_row)
  : list resume_row * option exn :=
  if truthy (get resume_data "Work Experiences" JNull)
  then
    match py_iter (get resume_data "Work Experiences" JNull) with
    | inl e => (all_resumes, Some e)
    | inr experiences => experience_loop resume_data experiences all_resumes
    end
  else
    let resume_row :=
      {| Name := get resume_data "Name" (JStr "");
         Mobile := get resume_data "Mobile" (JStr "");
         Email := get resume_data "Email" (JStr "");
         Graduation := graduation_str resume_data;
         Company := JStr "";
         Role := JStr "";
         Duration := JStr "" |} in
    (all_resumes ++ [resume_row], None).

(** [s.endswith(suffix)] *)
Definition endswith (s suffix : string) : bool :=
  String.eqb (PyStr.drop (length s - length suffix) s) suffix
  && (length suffix <=? length s)%nat.

(** Lines 96-169: the body of the loop for one directory entry, given
    the text of the file. *)
Definition process_file (st : list resume_row * list error_entry)
  (file : string * string) : list resume_row * list error_entry :=
  let '(all_resumes, error_log) := st in
  let '(fname, text) := file in
  if endswith (PyStr.lower fname) ".json" || endswith (PyStr.lower fname) ".jsonl"
  then
    let file_content := PyStr.strip text in
    if String.eqb file_content ""
    then (all_resumes,
          error_log ++ [ {| filename := fname;
                            error_type := "Empty File";
                            error_message := "JSON file is empty" |} ])
    else
      match json_loads file_content with
      | inl msg =>
          (all_resumes,
           error_log ++ [ {| filename := fname;
                             error_type := "JSON Decode Error";
                             error_message := msg |} ])
      | inr (JDict resume_data) =>
          match flatten resume_data all_resumes with
          | (all_resumes', None) => (all_resumes', error_log)
          | (all_resumes', Some e) =>
              (all_resumes',
               error_log ++ [ {| filename := fname;
                                 error_type := exn_name e;
                                 error_message := exn_message e |} ])
          end
      | inr _ =>
          (all_resumes,
           error_log ++ [ {| filename := fname;
                             error_type := "Invalid JSON";
                             error_message := "JSON does not represent a dictionary" |} ])
      end
  else st.

(** [process_resume_json_files]: the rows of the data frame and the
    error log. *)
Definition process_resume_json_files (folder : list (string * string))
  : list resume_row * list error_entry :=
  fold_left process_file folder ([], []).

End Flattener.

End ResumeProcessor.

(** ** resume_processor.py: the duration engine *)

(** A [datetime]: the calendar fields (no code here reads the time of
    day). *)
Record datetime : Type := {
  year : Z;
  month : Z;
  day : Z
}.

(** *** [datetime.strptime] for the directives of [date_formats] *)

Module Strptime.

(** The pieces of the regular expression a format is compiled to: a run of
    white space in the format is [\s+], a directive is its group, any other
    character is itself. *)
Inductive item : Type :=
| I_b | I_B | I_Y | I_m | I_d
| I_space
| I_lit (c : ascii)
| I_bad.

Inductive mode : Type := Plain | AfterPercent | InSpace.

Definition directive (c : ascii) : item :=
  if Ascii.eqb c "b" then I_b
  else if Ascii.eqb c "B" then I_B
  else if Ascii.eqb c "Y" then I_Y
  else if Ascii.eqb c "m" then I_m
  else if Ascii.eqb c "d" then I_d
  else I_bad.

Fixpoint compile_from (md : mode) (format : string) : list item :=
  match format with
  | EmptyString => match md with AfterPercent => [I_bad] | _ => [] end
  | String c f =>
      match md with
      | AfterPercent => directive c :: compile_from Plain f
      | _ =>
          if Ascii.eqb c "%" then compile_from AfterPercent f
          else if PyStr.is_space c
          then match md with
               | InSpace => compile_from InSpace f
               | _ => I_space :: compile_from InSpace f
               end
          else I_lit c :: compile_from Plain f
      end
  end.

Definition compile (format : string) : list item := compile_from Plain format.

(** The fields found so far; [strptime] starts from 1900-01-01. *)
Definition fields : Type := (Z * Z * Z)%type.
Definition start_fields : fields := (1900, 1, 1)%Z.
Definition set_year (f : fields) (y : Z) : fields := let '(_, m, d) := f in (y, m, d).
Definition set_month (f : fields) (m : Z) : fields := let '(y, _, d) := f in (y, m, d).
Definition set_day (f : fields) (d : Z) : fields := let '(y, m, _) := f in (y, m, d).

Definition digit_value (c : ascii) : Z := Z.of_nat (nat_of_ascii c - 48).

(** [int(s)] for a text of decimal digits. *)
Fixpoint int_acc (acc : Z) (s : string) : Z :=
  match s with
  | EmptyString => acc
  | String c s' => int_acc (10 * acc + digit_value c)%Z s'
  end.
Definition int_of (s : string) : Z := int_acc 0 s.

Definition in_range (lo hi : ascii) (c : ascii) : bool :=
  ((nat_of_ascii lo <=? nat_of_ascii c) && (nat_of_ascii c <=? nat_of_ascii hi))%nat.

(** An alternative made of two character classes, or of one. *)
Definition two (p q : ascii -> bool) (s : string) : list (Z * string) :=
  match s with
  | String a (String b r) =>
      if p a && q b then [(int_of (String a (String b "")), r)] else []
  | _ => []
  end.
Definition one (p : ascii -> bool) (s : string) : list (Z * string) :=
  match s with
  | String a r => if p a then [(digit_value a, r)] else []
  | _ => []
  end.

(** [1[0-2]|0[1-9]|[1-9]] *)
Definition month_number (s : string) : list (Z * string) :=
  two (Ascii.eqb "1") (in_range "0" "2") s ++
  two (Ascii.eqb "0") (in_range "1" "9") s ++
  one (in_range "1" "9") s.

(** [3[0-1]|[1-2]\d|0[1-9]|[1-9]| [1-9]] *)
Definition day_number (s : string) : list (Z * string) :=
  two (Ascii.eqb "3") (in_range "0" "1") s ++
  two (in_range "1" "2") PyStr.is_digit s ++
  two (Ascii.eqb "0") (in_range "1" "9") s ++
  one (in_range "1" "9") s ++
  match s with
  | String " " r => one (in_range "1" "9") r
  | _ => []
  end.

(** [\d\d\d\d] *)
Definition year_number (s : string) : list (Z * string) :=
  match s with
  | String a (String b (String c (String d r))) =>
      if PyStr.is_digit a && PyStr.is_digit b && PyStr.is_digit c && PyStr.is_digit d
      then [(int_of (String a (String b (String c (String d "")))), r)]
      else []
  | _ => []
  end.

Definition month_abbr : list string :=
  ["jan"; "feb"; "mar"; "apr"; "may"; "jun";
   "jul"; "aug"; "sep"; "oct"; "nov"; "dec"].

Definition month_full : list string :=
  ["january"; "february"; "march"; "april"; "may"; "june";
   "july"; "august"; "september"; "october"; "november"; "december"].

(** The names are matched without regard to case; no name is the start of
    another one of its list, so at most one alternative matches. *)
Fixpoint month_name (names : list string) (k : Z) (s : string)
  : list (Z * string) :=
  match names with
  | [] => []
  | n :: names' =>
      (if prefix n (PyStr.lower s) then [(k, PyStr.drop (length n) s)] else [])
      ++ month_name names' (k + 1)%Z s
  end.

(** [\s+], the longest run first. *)
Fixpoint spaces (s : string) : list string :=
  match s with
  | String c r => if PyStr.is_space c then spaces r ++ [r] else []
  | EmptyString => []
  end.

(** What an item can match at the head of [s], in the order in which the
    regular expression tries it. *)
Definition candidates (it : item) (f : fields) (s : string)
  : list (fields * string) :=
  match it with
  | I_b => map (fun '(k, r) => (set_month f k, r)) (month_name month_abbr 1 s)
  | I_B => map (fun '(k, r) => (set_month f k, r)) (month_name month_full 1 s)
  | I_Y => map (fun '(k, r) => (set_year f k, r)) (year_number s)
  | I_m => map (fun '(k, r) => (set_month f k, r)) (month_number s)
  | I_d => map (fun '(k, r) => (set_day f k, r)) (day_number s)
  | I_space => map (fun r => (f, r)) (spaces s)
  | I_lit c =>
      match s with
      | String a r =>
          if Ascii.eqb (PyStr.lower_char a) (PyStr.lower_char c) then [(f, r)] else []
      | EmptyString => []
      end
  | I_bad => []
  end.

Fixpoint first_some {A B : Type} (k : A -> option B) (l : list A) : option B :=
  match l with
  | [] => None
  | a :: l' => match k a with Some b => Some b | None => first_some k l' end
  end.

(** [format_regex.match(data_string)]: the first way, in the order of the
    alternatives, in which the whole expression matches at the start. *)
Fixpoint match_items (items : list item) (f : fields) (s : string)
  : option (fields * string) :=
  match items with
  | [] => Some (f, s)
  | it :: items' =>
      first_some (fun '(f', s') => match_items items' f' s') (candidates it f s)
  end.

Definition is_leap (y : Z) : bool :=
  ((y mod 4 =? 0) && (negb (y mod 100 =? 0) || (y mod 400 =? 0)))%Z.

Definition days_in_month (y m : Z) : Z :=
  if (m =? 2)%Z then (if is_leap y then 29 else 28)%Z
  else if ((m =? 4) || (m =? 6) || (m =? 9) || (m =? 11))%Z then 30%Z
  else 31%Z.

(** [datetime(y, m, d)]: [None] is the [ValueError] of a date that does
    not exist. *)
Definition make_datetime (y m d : Z) : option datetime :=
  if ((1 <=? y) && (y <=? 9999) && (1 <=? m) && (m <=? 12)
      && (1 <=? d) && (d <=? days_in_month y m))%Z
  then Some {| year := y; month := m; day := d |}
  else None.

(** [datetime.strptime(data_string, format)]; [None] is its
    [ValueError]: no match, text left over behind the match, or a date that
    does not exist. *)
Definition strptime (data_string format : string) : option datetime :=
  match match_items (compile format) start_fields data_string with
  | Some ((y, m, d), EmptyString) => make_datetime y m d
  | _ => None
  end.

End Strptime.

(** *** [re.search(r'(\w+)\s*(\d{4})', date_str, re.IGNORECASE)] *)

Module Fallback.

(** The non-empty prefixes of the longest run of [p] at the head of [s],
    each with the text behind it, the longest first. *)
Fixpoint runs (p : ascii -> bool) (s : string) : list (string * string) :=
  match s with
  | String c r =>
      if p c
      then map (fun '(w, r') => (String c w, r')) (runs p r) ++ [(String c "", r)]
      else []
  | EmptyString => []
  end.

(** The expression tried at the head of [s]: [\w+] gives back characters
    before [\s*] does. *)
Definition match_here (s : string) : option (string * string) :=
  Strptime.first_some
    (fun '(word, r) =>
       Strptime.first_some
         (fun '(_, r') =>
            match r' with
            | String a (String b (String c (String d _))) =>
                if PyStr.is_digit a && PyStr.is_digit b
                   && PyStr.is_digit c && PyStr.is_digit d
                then Some (word, String a (String b (String c (String d ""))))
                else None
            | _ => None
            end)
         (runs PyStr.is_space r ++ [("", r)]))
    (runs PyStr.is_word s).

(** The leftmost match and its two groups. *)
Fixpoint search (s : string) : option (string * string) :=
  match match_here s with
  | Some g => Some g
  | None =>
      match s with
      | String _ s' => search s'
      | EmptyString => None
      end
  end.

End Fallback.

(** *** [process_duration_column] *)

Module Duration.

Definition date_formats : list string :=
  ["%b %Y"; "%B %Y"; "%Y-%m"; "%m-%Y"; "%b. %Y"; "%B. %Y";
   "%d %b %Y"; "%d %B %Y"; "%b %d, %Y"; "%B %d, %Y";
   "%Y"; "%m/%Y"; "%Y/%m"].

Definition months : list (string * Z) :=
  [("jan", 1); ("january", 1); ("feb", 2); ("february", 2);
   ("mar", 3); ("march", 3); ("apr", 4); ("april", 4);
   ("may", 5); ("jun", 6); ("june", 6); ("jul", 7); ("july", 7);
   ("aug", 8); ("august", 8); ("sep", 9); ("september", 9);
   ("oct", 10); ("october", 10); ("nov", 11); ("november", 11);
   ("dec", 12); ("december", 12)]%Z.

(** [months.get(k, default)] *)
Fixpoint months_get (k : string) (table : list (string * Z)) (default : Z) : Z :=
  match table with
  | [] => default
  | (k', v) :: table' => if String.eqb k k' then v else months_get k table' default
  end.

Fixpoint mem_string (s : string) (l : list string) : bool :=
  match l with
  | [] => false
  | t :: l' => String.eqb s t || mem_string s l'
  end.

(** The loop over [date_formats]: the first format that parses wins. *)
Fixpoint try_formats (date_str : string) (formats : list string)
  : option datetime :=
  match formats with
  | [] => None
  | fmt :: formats' =>
      match Strptime.strptime date_str fmt with
      | Some d => Some d
      | None => try_formats date_str formats'
      end
  end.

(** Lines 220-229. *)
Definition regex_fallback (date_str : string) : option datetime :=
  match Fallback.search date_str with
  | Some (month_str, year_str) =>
      let month_num := months_get (substring 0 3 (PyStr.lower month_str)) months 1%Z in
      Strptime.make_datetime (Strptime.int_of year_str) month_num 1%Z
  | None => None
  end.

(** [parse_date]: [None] as argument is a missing value ([pd.isna]), [None]
    as result is an unresolved date. *)
Definition parse_date (now : datetime) (date_str : option string)
  : option datetime :=
  match date_str with
  | None => None
  | Some s =>
      if String.eqb s "" then None
      else
        let date_str := PyStr.lower (PyStr.strip s) in
        if mem_string date_str ["present"; "running"; "current"]
        then Some now
        else
          match try_formats date_str date_formats with
          | Some d => Some d
          | None => regex_fallback date_str
          end
  end.

(** [calculate_duration_in_months] on the values that [parse_date]
    returns, a [datetime] or [None].  The values that reach the function
    from the columns of a data frame are those of
    [Frame.calculate_duration_in_months] below. *)
Definition calculate_duration_in_months (now : datetime)
  (start end_ : option datetime) : Z :=
  match start with
  | None => 0%Z
  | Some start =>
      let end_ := match end_ with None => now | Some e => e end in
      ((year end_ - year start) * 12 + (month end_ - month start))%Z
  end.

(** The argument of [parse_date] in line 242-243, for a text cell [x]. *)
Definition start_token (x : string) : string :=
  if PyStr.contains "–" x then PyStr.strip (PyStr.first (PyStr.split "–" x))
  else if PyStr.contains "-" x then PyStr.strip (PyStr.first (PyStr.split "-" x))
  else x.

(** The argument of [parse_date] in line 246-247. *)
Definition end_token (x : string) : option string :=
  if PyStr.contains "–" x then Some (PyStr.strip (PyStr.last (PyStr.split "–" x)))
  else if PyStr.contains "-" x then Some (PyStr.strip (PyStr.last (PyStr.split "-" x)))
  else None.

(** What the lambda of lines 241-244 returns for a text cell [x]. *)
Definition Start_Date (now : datetime) (x : string) : option datetime :=
  parse_date now (Some (start_token x)).

(** What the lambda of lines 245-248 returns for a text cell [x]. *)
Definition End_Date (now : datetime) (x : string) : option datetime :=
  parse_date now (end_token x).

(** The month count of a row whose two dates reach
    [calculate_duration_in_months] as [parse_date] returned them: the
    value of the row in a frame of this row alone. *)
Definition Calculated_Duration (now : datetime) (x : string) : Z :=
  calculate_duration_in_months now (Start_Date now x) (End_Date now x).

End Duration.

(** *** The columns of the data frame *)

Module Frame.

(** A cell of a date column.  A column of Python objects holds [None] and
    dates; a column of dtype [datetime64[ns]] holds [NaT] and dates. *)
Inductive cell : Type :=
| CNone
| NaT
| Date (d : datetime).

(** The value of an arithmetic expression of
    [calculate_duration_in_months]: an integer or [nan]. *)
Inductive number : Type :=
| Int (z : Z)
| NaN.

(** [a <= b] for two days. *)
Definition day_leb (a b : datetime) : bool :=
  ((year a <? year b)
   || ((year a =? year b)
       && ((month a <? month b)
           || ((month a =? month b) && (day a <=? day b)))))%Z.

(** The days whose midnight a column of dtype [datetime64[ns]] can hold:
    1677-09-22 to 2262-04-11. *)
Definition in_bounds (d : datetime) : bool :=
  day_leb {| year := 1677; month := 9; day := 22 |} d
  && day_leb d {| year := 2262; month := 4; day := 11 |}.

(** The dtype that pandas infers for the values that [Series.apply]
    collected: [datetime64[ns]] when at least one is a date and every date
    is within the bounds, Python objects otherwise. *)
Definition is_datetime64 (results : list (option datetime)) : bool :=
  existsb (fun r => match r with Some _ => true | None => false end) results
  && forallb (fun r => match r with Some d => in_bounds d | None => true end)
       results.

(** The column that [df[...] = df['Duration'].apply(...)] stores: in a
    column of dtype [datetime64[ns]] a [None] has become [NaT]. *)
Definition to_column (results : list (option datetime)) : list cell :=
  let missing := if is_datetime64 results then NaT else CNone in
  map (fun r => match r with Some d => Date d | None => missing end) results.

(** [v.year] and [v.month]: [nan] for [NaT].  ([None] has no such
    attribute; the function never reads it of [None].) *)
Definition year_of (v : cell) : number :=
  match v with
  | Date d => Int (year d)
  | _ => NaN
  end.

Definition month_of (v : cell) : number :=
  match v with
  | Date d => Int (month d)
  | _ => NaN
  end.

Definition arith (op : Z -> Z -> Z) (a b : number) : number :=
  match a, b with
  | Int x, Int y => Int (op x y)
  | _, _ => NaN
  end.

(** [calculate_duration_in_months], lines 231-239, on the cells of a row:
    [is None] holds of [None] only. *)
Definition calculate_duration_in_months (now : datetime) (start end_ : cell)
  : number :=
  match start with
  | CNone => Int 0
  | _ =>
      let end_ := match end_ with CNone => Date now | _ => end_ end in
      arith Z.add
        (arith Z.mul (arith Z.sub (year_of end_) (year_of start)) (Int 12))
        (arith Z.sub (month_of end_) (month_of start))
  end.

(** Line 254: [df.loc[df['Calculated_Duration'].isna(), ...] = 0]. *)
Definition fillna (v : number) : Z :=
  match v with
  | Int z => z
  | NaN => 0%Z
  end.

(** [process_duration_column], lines 241-256, for a [Duration] column of
    text cells: the columns [Start_Date], [End_Date] and
    [Calculated_Duration], row by row. *)
Definition process_duration_column (now : datetime) (durations : list string)
  : list (cell * cell * Z) :=
  let Start_Date := to_column (map (Duration.Start_Date now) durations) in
  let End_Date := to_column (map (Duration.End_Date now) durations) in
  map (fun row => (fst row, snd row,
                   fillna (calculate_duration_in_months now (fst row) (snd row))))
      (combine Start_Date End_Date).

End Frame.

(** ** main_v2.py: the aggregation step of [upload_resumes] *)

Module Main.

(** A row of the data frame after line 58. *)
Record row : Type := {
  Name : json;
  Mobile : json;
  Email : json;
  Graduation : string;
  Company : json;
  Role : json;
  Calculated_Duration : Z
}.

Definition set_Mobile (r : row) (m : json) : row :=
  {| Name := Name r; Mobile := m; Email := Email r;
     Graduation := Graduation r; Company := Company r; Role := Role r;
     Calculated_Duration := Calculated_Duration r |}.

(** A row of the data frame after the merge of line 81. *)
Record merged_row : Type := {
  stint : row;
  Total_Experience : Z
}.

Section Aggregation.

(** [str(v)] for a value that is not text. *)
Variable py_format : json -> string.

(** Lines 60-67. *)
Definition flatten_mobile (mobile : json) : json :=
  match mobile with
  | JList l =>
      match l with
      | m0 :: _ =>
          JStr (PyStr.filter PyStr.is_digit (ResumeProcessor.py_str py_format m0))
      | [] => JNull
      end
  | JStr s => JStr (PyStr.filter PyStr.is_digit s)
  | _ => mobile
  end.

Definition is_na (v : json) : bool :=
  match v with JNull => true | _ => false end.

(** [df.dropna(subset=['Mobile'])] *)
Definition dropna (df : list row) : list row :=
  List.filter (fun r => negb (is_na (Mobile r))) df.

(** Equality of two group keys.  A key is text, or the number or truth
    value that [flatten_mobile] passed through. *)
Definition key_eqb (a b : json) : bool :=
  match a, b with
  | JStr s, JStr t => String.eqb s t
  | JInt x, JInt y => (x =? y)%Z
  | JBool x, JBool y => Bool.eqb x y
  | JInt x, JBool y => (x =? (if y then 1 else 0))%Z
  | JBool x, JInt y => ((if x then 1 else 0) =? y)%Z
  | _, _ => false
  end.

Fixpoint add_to_group (k : json) (v : Z) (groups : list (json * Z))
  : list (json * Z) :=
  match groups with
  | [] => [(k, v)]
  | (k', total) :: groups' =>
      if key_eqb k k' then (k', (total + v)%Z) :: groups'
      else (k', total) :: add_to_group k v groups'
  end.

(** A dict cannot be a group key: pandas raises on it. *)
Definition unhashable (v : json) : bool :=
  match v with JDict _ | JList _ => true | _ => false end.

(** [df.groupby(['Mobile'])['Calculated_Duration'].sum().reset_index()]:
    one entry per key with the sum of its rows.  The entries stand in
    the order in which the keys first appear; pandas sorts them, which
    the merge does not observe. *)
Definition groupby_sum (df : list row) : exn + list (json * Z) :=
  if existsb (fun r => unhashable (Mobile r)) df
  then inl (TypeError "unhashable type: 'dict'")
  else inr (fold_left
              (fun groups r =>
                 add_to_group (Mobile r) (Calculated_Duration r) groups)
              df []).

(** [df.merge(overall_exp, on='Mobile')]: the inner join. *)
Definition merge (df : list row) (overall_exp : list (json * Z))
  : list merged_row :=
  flat_map
    (fun r =>
       map (fun kt => {| stint := r; Total_Experience := snd kt |})
           (List.filter (fun kt => key_eqb (Mobile r) (fst kt)) overall_exp))
    df.

(** Lines 70-73: the frame that is grouped. *)
Definition clean_mobile (df : list row) : list row :=
  dropna (map (fun r => set_Mobile r (flatten_mobile (Mobile r))) df).

(** Lines 70-80: [overall_exp]. *)
Definition overall_exp (df : list row) : exn + list (json * Z) :=
  groupby_sum (clean_mobile df).

(** Lines 70-81: the frame the page shows and saves. *)
Definition aggregate (df : list row) : exn + list merged_row :=
  match overall_exp df with
  | inl e => inl e
  | inr groups => inr (merge (clean_mobile df) groups)
  end.

End Aggregation.

End Main.

(** ** database.py *)

Module Database.

(** A value bound to a statement or stored in a column: [None], an [int]
    that SQLite can hold (64 bits) or a [str]. *)
Inductive value : Type :=
| VNull
| VInt (z : Z)
| VText (s : string).

(** The text that SQLite writes for an integer. *)
Definition decimal (n : Z) : string := NilZero.string_of_int (Z.to_int n).

(** The TEXT affinity of the columns [name], [mobile], [email],
    [graduation], [company] and [role]: an integer that is stored in such
    a column, or compared with it, is turned into its decimal text. *)
Definition text_affinity (v : value) : value :=
  match v with
  | VInt n => VText (decimal n)
  | _ => v
  end.

(** A [pandas.Series]: the cells by label. *)
Definition series : Type := list (string * value).

Inductive error : Type :=
| KeyError (label : string)
| IntegrityError (msg : string)
| ProgrammingError (msg : string)
| OperationalError (msg : string).

(** [isinstance(e, sqlite3.Error)] *)
Definition is_sqlite_error (e : error) : bool :=
  match e with
  | KeyError _ => false
  | _ => true
  end.

Inductive result (A : Type) : Type :=
| Ok (a : A)
| Raise (e : error).
Arguments Ok {A} a.
Arguments Raise {A} e.

(** A row of the table [resumes] of [create_table]; [mobile] is the
    primary key.  The two columns of INTEGER affinity hold the values as
    they were bound: no statement of the module reads them.  A text in
    [created_at] is not the text of a number (the NUMERIC affinity of the
    column stores such a text as the number). *)
Record resume : Type := {
  name : value;
  mobile : value;
  email : value;
  graduation : value;
  company : value;
  role : value;
  calculated_duration : value;
  total_experience : value;
  created_at : value
}.

(** The database behind a connection: [None] until the table exists. *)
Definition db : Type := option (list resume).

(** [mobile = ?]: the comparison of a key of the table with a bound value.
    The column has TEXT affinity, so both sides are compared as text; it is
    never true of a NULL. *)
Definition sql_eq (a b : value) : bool :=
  match text_affinity a, text_affinity b with
  | VText s, VText t => String.eqb s t
  | _, _ => false
  end.

(** [created_at < ?]: never true of a NULL; an integer is below any text;
    text is compared byte by byte.  The bound value is the date stamp of
    [insert_resume_data], a text that the NUMERIC affinity of the column
    leaves as it is. *)
Definition sql_lt (a b : value) : bool :=
  match a, b with
  | VInt x, VInt y => (x <? y)%Z
  | VInt _, VText _ => true
  | VText s, VText t => String.ltb s t
  | _, _ => false
  end.

Inductive statement : Type :=
| CreateTable
| SelectOlder
| InsertResume
| UpdateResume
| DeleteResume.

(** The text of the statements, as the source has it. *)
Definition sql (s : statement) : string :=
  match s with
  | CreateTable => "
            CREATE TABLE IF NOT EXISTS resumes (
                name TEXT,
                mobile TEXT PRIMARY KEY,
                email TEXT,
                graduation TEXT,
                company TEXT,
                role TEXT,
                calculated_duration INTEGER,
                total_experience INTEGER,
                created_at TIMESTAMP DEFAULT CURRENT_TIMESTAMP
            )
        "
  | SelectOlder => "
            SELECT COUNT(*) 
            FROM resumes 
            WHERE mobile = ? AND created_at < ?
        "
  | InsertResume => "
                INSERT INTO resumes 
                (name, mobile, email, graduation, company, role, calculated_duration, total_experience, created_at)
                VALUES (?, ?, ?, ?, ?, ?, ?, ?, ?)
            "
  | UpdateResume => "
            UPDATE resumes 
            SET name = ?, email = ?, graduation = ?, company = ?, role = ?, 
                calculated_duration = ?, total_experience = ?
            WHERE mobile = ?
        "
  | DeleteResume => "DELETE FROM resumes WHERE mobile = ?"
  end.

(** The number of [?] in a statement. *)
Fixpoint placeholders (text : string) : nat :=
  match text with
  | EmptyString => O
  | String c text' =>
      if Ascii.eqb c "?" then S (placeholders text') else placeholders text'
  end.

(** What a statement does to the table once its values are bound, and the
    row it returns to [fetchone]. *)
Definition run (s : statement) (params : list value) (table : list resume)
  : result (list resume * list value) :=
  match s, params with
  | CreateTable, [] => Ok (table, [])
  | SelectOlder, [m; d] =>
      let n := List.length
                 (List.filter
                    (fun r => sql_eq (mobile r) m && sql_lt (created_at r) d)
                    table) in
      Ok (table, [VInt (Z.of_nat n)])
  | InsertResume, [n; m; e; g; c; r; cd; te; ca] =>
      if existsb (fun old => sql_eq (mobile old) m) table
      then Raise (IntegrityError "UNIQUE constraint failed: resumes.mobile")
      else Ok (table ++ [ {| name := text_affinity n;
                             mobile := text_affinity m;
                             email := text_affinity e;
                             graduation := text_affinity g;
                             company := text_affinity c;
                             role := text_affinity r;
                             calculated_duration := cd;
                             total_experience := te;
                             created_at := ca |} ], [])
  | UpdateResume, [n; e; g; c; r; cd; te; m] =>
      Ok (map (fun old =>
                 if sql_eq (mobile old) m
                 then {| name := text_affinity n; mobile := mobile old;
                         email := text_affinity e;
                         graduation := text_affinity g;
                         company := text_affinity c;
                         role := text_affinity r;
                         calculated_duration := cd;
                         total_experience := te;
                         created_at := created_at old |}
                 else old) table, [])
  | DeleteResume, [m] =>
      Ok (List.filter (fun old => negb (sql_eq (mobile old) m)) table, [])
  | _, _ => Raise (ProgrammingError "Incorrect number of bindings supplied.")
  end.


(** What the functions print, one constructor per message. *)
Inductive message : Type :=
| ErrorCreatingTable (e : error)
| SkippingInsertion (mobile : value)
| ErrorProcessingData (e : error)
| ErrorUpdatingResume (e : error)
| ErrorDeletingResume (e : error).

(** The world a function of this module acts on: the database behind an
    open connection (one that [create_connection] returned) and the lines
    printed so far. *)
Record world : Type := {
  conn : db;
  stdout : list message
}.

(** A computation: the world it leaves and the value it returns or the
    exception it raises. *)
Definition M (A : Type) : Type := world -> world * result A.

Definition ret {A : Type} (a : A) : M A := fun w => (w, Ok a).

Definition raise {A : Type} (e : error) : M A := fun w => (w, Raise e).

Definition bind {A B : Type} (m : M A) (k : A -> M B) : M B :=
  fun w =>
    match m w with
    | (w', Ok a) => k a w'
    | (w', Raise e) => (w', Raise e)
    end.

Notation "x <- m ;; k" := (bind m (fun x => k))
  (at level 61, m at next level, right associativity).

Definition print (line : message) : M unit :=
  fun w => ({| conn := conn w; stdout := stdout w ++ [line] |}, Ok tt).

(** [try: body except sqlite3.Error as e: handler e]: an error of the
    database is caught, any other exception leaves the function. *)
Definition try_except_sqlite {A : Type} (body : M A) (handler : error -> M A)
  : M A :=
  fun w =>
    match body w with
    | (w', Raise e) =>
        if is_sqlite_error e then handler e w' else (w', Raise e)
    | done => done
    end.

Fixpoint lookup_label (row : series) (label : string) : option value :=
  match row with
  | [] => None
  | (l, v) :: row' => if String.eqb label l then Some v else lookup_label row' label
  end.

(** [row[label]] *)
Definition item (row : series) (label : string) : M value :=
  match lookup_label row label with
  | Some v => ret v
  | None => raise (KeyError label)
  end.

(** [cursor.execute(sql, params)], with the [conn.commit()] that follows
    it in the source: the statement is prepared against the schema, then
    the number of values is checked against the number of [?] of its text,
    then the values are bound and it runs.  The result is the row that
    [fetchone] reads.  (An [int] outside 64 bits is no [value]: binding
    one raises [OverflowError].) *)
Definition execute (s : statement) (params : list value) : M (list value) :=
  fun w =>
    match s, conn w with
    | CreateTable, None => ({| conn := Some []; stdout := stdout w |}, Ok [])
    | _, None => (w, Raise (OperationalError "no such table: resumes"))
    | _, Some table =>
        if Nat.eqb (List.length params) (placeholders (sql s))
        then
          match run s params table with
          | Ok (table', fetched) =>
              ({| conn := Some table'; stdout := stdout w |}, Ok fetched)
          | Raise e => (w, Raise e)
          end
        else (w, Raise (ProgrammingError "Incorrect number of bindings supplied."))
    end.

(** [create_table] *)
Definition create_table : M unit :=
  try_except_sqlite
    (_ <- execute CreateTable [] ;; ret tt)
    (fun e => print (ErrorCreatingTable e)).

Definition digit (n : Z) : ascii := ascii_of_nat (48 + Z.to_nat (n mod 10)).

(** [now.strftime('%Y-%m-%d')] for a year of four digits. *)
Definition strftime_ymd (now : datetime) : string :=
  String (digit (year now / 1000)) (String (digit (year now / 100))
    (String (digit (year now / 10)) (String (digit (year now))
    (String "-" (String (digit (month now / 10)) (String (digit (month now))
    (String "-" (String (digit (day now / 10)) (String (digit (day now))
    EmptyString))))))))).

(** [fetchone()[0] == 0] *)
Definition count_is_zero (fetched : list value) : bool :=
  match fetched with
  | VInt n :: _ => (n =? 0)%Z
  | _ => false
  end.

(** [insert_resume_data] *)
Definition insert_resume_data (now : datetime) (row : series) : M bool :=
  try_except_sqlite
    (let current_date := VText (strftime_ymd now) in
     m <- item row "Mobile" ;;
     fetched <- execute SelectOlder [m; current_date] ;;
     if count_is_zero fetched
     then
       n <- item row "Name" ;;
       m <- item row "Mobile" ;;
       e <- item row "Email" ;;
       g <- item row "Graduation" ;;
       c <- item row "Company" ;;
       r <- item row "Role" ;;
       cd <- item row "Calculated_Duration" ;;
       te <- item row "Total_Experience" ;;
       _ <- execute InsertResume [n; m; e; g; c; r; cd; te; current_date] ;;
       ret true
     else
       m <- item row "Mobile" ;;
       _ <- print (SkippingInsertion m) ;;
       ret false)
    (fun e => _ <- print (ErrorProcessingData e) ;; ret false).

(** [update_resume] *)
Definition update_resume (row : series) : M unit :=
  try_except_sqlite
    (n <- item row "Name" ;;
     e <- item row "Email" ;;
     g <- item row "Graduation" ;;
     c <- item row "Company" ;;
     r <- item row "Role" ;;
     cd <- item row "Calculated_Duration" ;;
     te <- item row "Total_Experience" ;;
     m <- item row "Mobile" ;;
     ca <- item row "created_at" ;;
     _ <- execute UpdateResume [n; e; g; c; r; cd; te; m; ca] ;;
     ret tt)
    (fun e => print (ErrorUpdatingResume e)).

(** [delete_resume] *)
Definition delete_resume (m : value) : M unit :=
  try_except_sqlite
    (_ <- execute DeleteResume [m] ;; ret tt)
    (fun e => print (ErrorDeletingResume e)).

End Database.

(** ** resume_processor.py: [clean_json_files] *)

Module CleanJson.

(** The line feed.  The text of a file is the text as Python reads it in
    text mode: every line ends with a line feed, the last one possibly with
    none. *)
Definition LF : ascii := ascii_of_nat 10.

(** [file.readlines()]: the lines, each with its line feed. *)
Fixpoint readlines_from (cur s : string) : list string :=
  match s with
  | EmptyString => if String.eqb cur "" then [] else [cur]
  | String c s' =>
      if Ascii.eqb c LF
      then (cur ++ String c "")%string :: readlines_from "" s'
      else readlines_from (cur ++ String c "")%string s'
  end.

Definition readlines (text : string) : list string := readlines_from "" text.

(** [file.writelines(lines)] on an emptied file. *)
Fixpoint writelines (lines : list string) : string :=
  match lines with
  | [] => EmptyString
  | l :: lines' => (l ++ writelines lines')%string
  end.

(** [lines[1:-1]] *)
Definition inner_lines (lines : list string) : list string :=
  removelast (tl lines).

(** Lines 77-87: what the file holds afterwards. *)
Definition clean_text (text : string) : string :=
  let lines := readlines text in
  if (2 <? List.length lines)%nat
  then writelines (inner_lines lines)
  else text.

(** [clean_json_files]: the folder afterwards, as names and texts. *)
Definition clean_json_files (folder : list (string * string))
  : list (string * string) :=
  map (fun file =>
         if ResumeProcessor.endswith (fst file) ".json"
         then (fst file, clean_text (snd file))
         else file)
      folder.

End CleanJson.

(** ** main_v2.py: the button [Save to Database] *)

Module Upload.

Import Database.



End Upload.

(** * Notions of the specification *)

(** ** The Graduation text *)

(** The characters that [strip(' -')] removes. *)
Definition separator_char (c : ascii) : bool := PyStr.mem_char c " -".

(** A text that neither begins nor ends with a space or a hyphen. *)
Definition clean (s : string) : Prop :=
  PyStr.lstrip_by separator_char s = s /\ PyStr.rstrip_by separator_char s = s.

(** The display string in the words of the specification: the non-empty
    parts joined by [" - "]. *)
Definition join_nonempty (degree institution : string) : string :=
  if String.eqb degree "" then institution
  else if String.eqb institution "" then degree
  else (degree ++ " - " ++ institution)%string.

(** ** Records as the specification describes them *)

(** The entries of [Work Experiences]; none when the field is absent or
    null. *)
Definition work_experiences (resume_data : dict) : list json :=
  match lookup "Work Experiences" resume_data with
  | Some (JList l) => l
  | _ => []
  end.

(** A well-formed record: [Work Experiences] is absent, null, or a list
    of objects. *)
Definition well_formed (resume_data : dict) : Prop :=
  match lookup "Work Experiences" resume_data with
  | None => True
  | Some JNull => True
  | Some (JList l) => Forall (fun e => is_dict e = true) l
  | Some _ => False
  end.

(** A row that carries the identity fields of its record. *)
Definition carries_identity (py_format : json -> string) (resume_data : dict)
  (r : ResumeProcessor.resume_row) : Prop :=
  ResumeProcessor.Name r = get resume_data "Name" (JStr "") /\
  ResumeProcessor.Mobile r = get resume_data "Mobile" (JStr "") /\
  ResumeProcessor.Email r = get resume_data "Email" (JStr "") /\
  ResumeProcessor.Graduation r = ResumeProcessor.graduation_str py_format resume_data.

(** The values of [Work Experiences] on which the flattener does not
    raise: a false value, or an iterable of objects. *)
Definition rows_without_error (v : json) : bool :=
  negb (truthy v) ||
  match py_iter v with
  | inr l => forallb is_dict l
  | inl _ => false
  end.

(** ** Trimmed texts *)

(** A text made of white-space characters only. *)
Inductive white : string -> Prop :=
| white_nil : white EmptyString
| white_cons (w s : string) :
    In w PyStr.whitespace -> white s -> white (w ++ s).

(** A text that neither begins nor ends with a white-space character. *)
Definition tight (t : string) : Prop :=
  forall w u, In w PyStr.whitespace -> t <> (w ++ u)%string /\ t <> (u ++ w)%string.

(** A text of characters of the ASCII range. *)
Fixpoint ascii_text (s : string) : bool :=
  match s with
  | EmptyString => true
  | String c s' => (nat_of_ascii c <? 128)%nat && ascii_text s'
  end.

(** A visible character of the ASCII range. *)
Definition visible (c : ascii) : bool :=
  let n := nat_of_ascii c in ((33 <=? n) && (n <=? 126))%nat.

(** [t] is [a] without the white space at its two ends. *)
Definition trimmed (a t : string) : Prop :=
  exists l r, a = (l ++ t ++ r)%string /\ white l /\ white r /\ tight t.

(** ** Range tokens as the specification describes them *)

(** The text before the first occurrence of [sep]. *)
Fixpoint text_before_first (sep s : string) : string :=
  if prefix sep s then EmptyString
  else match s with
       | EmptyString => EmptyString
       | String c s' => String c (text_before_first sep s')
       end.

(** The text after the last occurrence of [sep] (all of [s] when there is
    none). *)
Fixpoint text_after_last (sep s : string) : string :=
  match s with
  | EmptyString => EmptyString
  | String c s' =>
      if PyStr.contains sep s' then text_after_last sep s'
      else if prefix sep s then PyStr.drop (length sep) s
      else s
  end.

(** ** The insert policy as the specification describes it *)

(** A record for the key [m] that was created before [today]. *)
Definition older_record (today m : Database.value) (table : list Database.resume)
  : bool :=
  existsb (fun old => Database.sql_eq (Database.mobile old) m
                      && Database.sql_lt (Database.created_at old) today)
          table.

(** A record for the key [m]. *)
Definition same_mobile (m : Database.value) (table : list Database.resume)
  : bool :=
  existsb (fun old => Database.sql_eq (Database.mobile old) m) table.

(** ** Sample data *)

Definition sample_now : datetime := {| year := 2026; month := 11; day := 4 |}.

(** A row as the upload page saves it. *)
Definition sample_row : Database.series :=
  [("Name", Database.VText "Asha Rao");
   ("Mobile", Database.VText "9876543210");
   ("Email", Database.VText "asha@example.org");
   ("Graduation", Database.VText "B.Tech - IIT Delhi");
   ("Company", Database.VText "Acme");
   ("Role", Database.VText "Engineer");
   ("Calculated_Duration", Database.VInt 12);
   ("Total_Experience", Database.VInt 42)].

(** The record of an earlier upload of the same candidate. *)
Definition sample_record (created : string) : Database.resume :=
  {| Database.name := Database.VText "Asha Rao";
     Database.mobile := Database.VText "9876543210";
     Database.email := Database.VText "asha@example.org";
     Database.graduation := Database.VText "B.Tech";
     Database.company := Database.VText "Initech";
     Database.role := Database.VText "Intern";
     Database.calculated_duration := Database.VInt 6;
     Database.total_experience := Database.VInt 6;
     Database.created_at := Database.VText created |}.

(** A frame of three stints of two candidates, one mobile written in two
    ways. *)
Definition sample_frame : list Main.row :=
  [ {| Main.Name := JStr "Asha Rao"; Main.Mobile := JStr "987-654-3210";
       Main.Email := JStr "asha@example.org"; Main.Graduation := "B.Tech - IIT Delhi";
       Main.Company := JStr "Acme"; Main.Role := JStr "Engineer";
       Main.Calculated_Duration := 30 |};
    {| Main.Name := JStr "Bo Li"; Main.Mobile := JList [JStr "+1 555 0100"];
       Main.Email := JStr "bo@example.org"; Main.Graduation := "";
       Main.Company := JStr "Globex"; Main.Role := JStr "Analyst";
       Main.Calculated_Duration := 7 |};
    {| Main.Name := JStr "Asha Rao"; Main.Mobile := JStr "9876543210";
       Main.Email := JStr "asha@example.org"; Main.Graduation := "B.Tech - IIT Delhi";
       Main.Company := JStr "Initech"; Main.Role := JStr "Intern";
       Main.Calculated_Duration := 12 |} ].

(** A row of the frame without a mobile. *)
Definition sample_stray : Main.row :=
  {| Main.Name := JStr "Cy"; Main.Mobile := JNull;
     Main.Email := JStr ""; Main.Graduation := "";
     Main.Company := JStr ""; Main.Role := JStr "";
     Main.Calculated_Duration := 5 |}.


(** The answer of the parser as the extraction step stores it: a fence
    line, the object, a fence line. *)
Definition sample_text : string :=
  ("```json" ++ String CleanJson.LF "{}" ++ String CleanJson.LF "```"
   ++ String CleanJson.LF "")%string.

(** ** Notions for the properties beyond the claims *)

(** A date of the calendar. *)
Definition valid_date (d : datetime) : Prop :=
  (1 <= year d <= 9999 /\ 1 <= month d <= 12
   /\ 1 <= day d <= Strptime.days_in_month (year d) (month d))%Z.


Fixpoint has_digit (s : string) : bool :=
  match s with
  | EmptyString => false
  | String c s' => PyStr.is_digit c || has_digit s'
  end.

(** What two group keys are compared by: the text, or the number (a truth
    value counts as 0 or 1). *)
Definition key_class (v : json) : option (string + Z) :=
  match v with
  | JStr s => Some (inl s)
  | JInt z => Some (inr z)
  | JBool b => Some (inr (if b then 1 else 0)%Z)
  | _ => None
  end.

(** The months of the rows of [df] whose key is [k]. *)
Fixpoint sum_for (k : json) (df : list Main.row) : Z :=
  match df with
  | [] => 0%Z
  | r :: df' =>
      ((if Main.key_eqb (Main.Mobile r) k then Main.Calculated_Duration r else 0)
       + sum_for k df')%Z
  end.

Fixpoint sum_months (df : list Main.row) : Z :=
  match df with
  | [] => 0%Z
  | r :: df' => (Main.Calculated_Duration r + sum_months df')%Z
  end.

Fixpoint sum_totals (groups : list (json * Z)) : Z :=
  match groups with
  | [] => 0%Z
  | kt :: groups' => (snd kt + sum_totals groups')%Z
  end.

(** No two records of the table have the same key. *)
Fixpoint keys_unique (table : list Database.resume) : Prop :=
  match table with
  | [] => True
  | r :: table' =>
      same_mobile (Database.mobile r) table' = false /\ keys_unique table'
  end.

(** The record that [insert_resume_data] stores for a row: the values of
    the six text columns as text. *)
Definition stored_record (today : string) (n m e g c r cd te : Database.value)
  : Database.resume :=
  {| Database.name := Database.text_affinity n;
     Database.mobile := Database.text_affinity m;
     Database.email := Database.text_affinity e;
     Database.graduation := Database.text_affinity g;
     Database.company := Database.text_affinity c;
     Database.role := Database.text_affinity r;
     Database.calculated_duration := cd; Database.total_experience := te;
     Database.created_at := Database.VText today |}.

(** A row has the eight labels that [insert_resume_data] reads. *)
Definition insertable (row : Database.series) (n m e g c r cd te : Database.value)
  : Prop :=
  Database.lookup_label row "Name" = Some n
  /\ Database.lookup_label row "Mobile" = Some m
  /\ Database.lookup_label row "Email" = Some e
  /\ Database.lookup_label row "Graduation" = Some g
  /\ Database.lookup_label row "Company" = Some c
  /\ Database.lookup_label row "Role" = Some r
  /\ Database.lookup_label row "Calculated_Duration" = Some cd
  /\ Database.lookup_label row "Total_Experience" = Some te.

(** A line with its line feed: no line feed before the last character. *)
Definition complete (l : string) : Prop :=
  exists b, l = (b ++ String CleanJson.LF "")%string
            /\ PyStr.mem_char CleanJson.LF b = false.

(** A text of four characters, for the four digits of a year. *)
Definition year_text (a b c d : ascii) : string :=
  String a (String b (String c (String d EmptyString))).

(** A text with neither a hyphen nor the first byte of an en-dash. *)
Fixpoint dash_free (s : string) : bool :=
  match s with
  | EmptyString => true
  | String c s' =>
      negb (Ascii.eqb c "-") && negb (Ascii.eqb c "226") && dash_free s'
  end.

(** The total that the groups hold for the key [k]. *)
Definition held (k : json) (groups : list (json * Z)) : Z :=
  sum_totals (List.filter (fun kt => Main.key_eqb k (fst kt)) groups).

(** The records a world holds (none when the table does not exist). *)
Definition stored (w : Database.world) : list Database.resume :=
  match Database.conn w with
  | Some table => table
  | None => []
  end.


(** * Properties *)

(** ** Python strings: stripping *)

Lemma lstrip_by_length (p : ascii -> bool) (s : string) :
  length (PyStr.lstrip_by p s) <= length s.
Proof.
  induction s as [|c s IH]; simpl; [lia|].
  destruct (p c); simpl; lia.
Qed.

Lemma lstrip_by_fixed_head (p : ascii -> bool) (c : ascii) (s : string) :
  PyStr.lstrip_by p (String c s) = String c s -> p c = false.
Proof.
  simpl. destruct (p c); [|reflexivity].
  intro H. pose proof (lstrip_by_length p s) as L.
  rewrite H in L. simpl in L. lia.
Qed.

Lemma lstrip_by_app (p : ascii -> bool) (a b : string) :
  a <> EmptyString -> PyStr.lstrip_by p a = a ->
  PyStr.lstrip_by p (a ++ b) = (a ++ b)%string.
Proof.
  destruct a as [|c a]; [congruence|].
  intros _ H. apply lstrip_by_fixed_head in H.
  simpl. now rewrite H.
Qed.

Lemma append_empty (a b : string) :
  (a ++ b)%string = EmptyString -> a = EmptyString /\ b = EmptyString.
Proof. destruct a; simpl; [auto | discriminate]. Qed.

Lemma rstrip_by_app_keep (p : ascii -> bool) (a b : string) :
  PyStr.rstrip_by p b <> EmptyString ->
  PyStr.rstrip_by p (a ++ b) = (a ++ PyStr.rstrip_by p b)%string.
Proof.
  intro H. induction a as [|c a IH]; simpl; [reflexivity|].
  rewrite IH.
  destruct (a ++ PyStr.rstrip_by p b)%string eqn:E; [|reflexivity].
  apply append_empty in E. tauto.
Qed.

Lemma rstrip_by_app_drop (p : ascii -> bool) (a b : string) :
  PyStr.rstrip_by p b = EmptyString ->
  PyStr.rstrip_by p (a ++ b) = PyStr.rstrip_by p a.
Proof.
  intro H. induction a as [|c a IH]; simpl; [assumption|].
  now rewrite IH.
Qed.

Lemma append_nil_r (a : string) : (a ++ "")%string = a.
Proof. induction a; simpl; congruence. Qed.

Lemma append_assoc (a b c : string) :
  ((a ++ b) ++ c)%string = (a ++ (b ++ c))%string.
Proof. induction a; simpl; congruence. Qed.

Lemma strip_separator_join (d i : string) :
  clean d -> clean i ->
  PyStr.strip_chars " -" (d ++ " - " ++ i) = join_nonempty d i.
Proof.
  intros [Ld Rd] [Li Ri].
  unfold PyStr.strip_chars, PyStr.strip_by, join_nonempty.
  fold separator_char.
  destruct (String.eqb_spec d "") as [->|Hd].
  - change ("" ++ " - " ++ i)%string with (" - " ++ i)%string.
    change (PyStr.lstrip_by separator_char (" - " ++ i))
      with (PyStr.lstrip_by separator_char i).
    now rewrite Li, Ri.
  - rewrite lstrip_by_app by assumption.
    destruct (String.eqb_spec i "") as [->|Hi].
    + rewrite rstrip_by_app_drop by reflexivity. exact Rd.
    + rewrite <- append_assoc.
      rewrite rstrip_by_app_keep by (rewrite Ri; exact Hi).
      rewrite Ri. reflexivity.
Qed.

Section FlattenerFacts.

Import ResumeProcessor.

Variable py_format : json -> string.
Variable json_loads : string -> string + json.

Lemma graduation_not_object (resume_data : dict) :
  match lookup "Graduation" resume_data with
  | Some (JDict _) => False
  | _ => True
  end ->
  graduation_degree resume_data = JStr "" /\
  graduation_institution resume_data = JStr "".
Proof.
  unfold graduation_degree, graduation_institution, graduation_info, get, py_or.
  destruct (lookup "Graduation" resume_data) as [v|]; [|now split].
  destruct v as [| b | z | s | l | d]; try contradiction; intros _; simpl.
  - now split.
  - destruct b; now split.
  - destruct (negb (z =? 0)%Z); now split.
  - destruct (negb (String.eqb s "")); now split.
  - destruct l; now split.
Qed.

(** C5, as amended.  The Graduation text is [Degree - Institution] with the
    spaces and hyphens at both ends removed.  When neither part begins or
    ends with a space or a hyphen, it is the non-empty parts joined by
    [" - "]: no separator at either end when one part is empty, the empty
    text when both are.  When Graduation is absent or not an object, both
    parts are the empty text and so is the result. *)
Theorem graduation_str_clean_parts (resume_data : dict) :
  let d := py_str py_format (graduation_degree resume_data) in
  let i := py_str py_format (graduation_institution resume_data) in
  graduation_str py_format resume_data = PyStr.strip_chars " -" (d ++ " - " ++ i)
  /\ (clean d -> clean i ->
      graduation_str py_format resume_data = join_nonempty d i)
  /\ (match lookup "Graduation" resume_data with
      | Some (JDict _) => False
      | _ => True
      end ->
      d = "" /\ i = "" /\ graduation_str py_format resume_data = "").
Proof.
  intros d i. split; [reflexivity|]. split.
  - intros Hd Hi. unfold graduation_str. fold d i.
    now apply strip_separator_join.
  - intro H. destruct (graduation_not_object resume_data H) as [Ed Ei].
    unfold graduation_str. subst d i. rewrite Ed, Ei. simpl.
    repeat split; reflexivity.
Qed.

End FlattenerFacts.

Section FlattenFacts.

Import ResumeProcessor.

Variable py_format : json -> string.
Variable json_loads : string -> string + json.

Lemma experience_loop_rows (resume_data : dict) (experiences : list json) :
  forall all_resumes,
  exists rows,
    fst (experience_loop py_format resume_data experiences all_resumes)
      = all_resumes ++ rows
    /\ Forall (carries_identity py_format resume_data) rows
    /\ (forallb is_dict experiences = true ->
        snd (experience_loop py_format resume_data experiences all_resumes) = None
        /\ List.length rows = List.length experiences)
    /\ (forallb is_dict experiences = false ->
        snd (experience_loop py_format resume_data experiences all_resumes) <> None).
Proof.
  induction experiences as [|experience rest IH]; intro all_resumes.
  - exists []. simpl. rewrite app_nil_r.
    repeat split; try constructor; discriminate.
  - destruct experience as [| b | z | s | l | e];
      try (exists []; simpl; rewrite app_nil_r;
           repeat split; try constructor; discriminate).
    simpl.
    match goal with
    | |- context [experience_loop _ _ rest (all_resumes ++ [?r])] =>
        destruct (IH (all_resumes ++ [r])) as (rows & E & F & Hok & Hbad);
        exists (r :: rows)
    end.
    rewrite E, <- app_assoc. split; [reflexivity|]. split.
    + constructor; [|exact F]. repeat split.
    + split.
      * intro H. destruct (Hok H) as [H1 H2]. split; [exact H1|]. simpl. lia.
      * exact Hbad.
Qed.

Lemma work_experiences_flatten (resume_data : dict) (all_resumes : list resume_row) :
  well_formed resume_data ->
  work_experiences resume_data <> [] ->
  flatten py_format resume_data all_resumes
  = experience_loop py_format resume_data (work_experiences resume_data) all_resumes
  /\ forallb is_dict (work_experiences resume_data) = true.
Proof.
  unfold well_formed, work_experiences, flatten, get.
  destruct (lookup "Work Experiences" resume_data) as [v|]; [|congruence].
  destruct v as [| b | z | s | l | d]; try contradiction; try congruence.
  intros W N. destruct l as [|x l]; [congruence|].
  split; [reflexivity|].
  apply forallb_forall. intros y Hy.
  rewrite Forall_forall in W. now apply W.
Qed.

(** C1.  A well-formed record with N >= 1 work experiences is flattened
    into exactly N rows, appended to the rows collected so far, each with
    the Name, Mobile, Email and Graduation of the record; a record whose
    work experiences are absent or empty is flattened into exactly one row,
    with empty Company, Role and Duration.  No error is raised. *)
Theorem flatten_row_count (resume_data : dict) (all_resumes : list resume_row) :
  well_formed resume_data ->
  exists rows,
    flatten py_format resume_data all_resumes = (all_resumes ++ rows, None)
    /\ Forall (carries_identity py_format resume_data) rows
    /\ (work_experiences resume_data <> [] ->
        List.length rows = List.length (work_experiences resume_data))
    /\ (work_experiences resume_data = [] ->
        exists r, rows = [r]
                  /\ Company r = JStr "" /\ Role r = JStr "" /\ Duration r = JStr "").
Proof.
  intro W.
  destruct (work_experiences resume_data) as [|x l] eqn:E.
  - eexists. split; [|split; [|split]].
    + revert W E. unfold well_formed, work_experiences, flatten, get.
      destruct (lookup "Work Experiences" resume_data) as [v|]; [|reflexivity].
      destruct v as [| b | z | s | l | d]; try contradiction; try reflexivity.
      intros _ ->. reflexivity.
    + constructor; [|constructor]. repeat split.
    + congruence.
    + intros _. eexists. repeat split.
  - assert (N : work_experiences resume_data <> []) by (rewrite E; discriminate).
    destruct (work_experiences_flatten resume_data all_resumes W N) as [F D].
    destruct (experience_loop_rows resume_data (work_experiences resume_data) all_resumes)
      as (rows & Efst & Id & Hok & _).
    destruct (Hok D) as [Esnd Len].
    exists rows. split; [|split; [|split]].
    + rewrite F. rewrite (surjective_pairing (experience_loop _ _ _ _)).
      now rewrite Efst, Esnd.
    + exact Id.
    + intros _. now rewrite <- E.
    + discriminate.
Qed.

(** C2, as amended.  Flattening a record keeps the rows collected so far;
    the rows it adds carry the Name, Mobile and Email of the record, the
    empty text standing for an absent one.  It raises exactly when
    [Work Experiences] is a true value that is not an iterable of objects.
    The exception does not leave the batch: the loop over the files goes on
    behind every file, and the handler of the file appends one entry with
    the name and the message of the exception to the error log. *)
Theorem flatten_raises_unless_objects (resume_data : dict)
  (all_resumes : list resume_row) :
  let v := get resume_data "Work Experiences" JNull in
  let out := flatten py_format resume_data all_resumes in
  (exists rows, fst out = all_resumes ++ rows
                /\ Forall (carries_identity py_format resume_data) rows)
  /\ (snd out = None <-> rows_without_error v = true)
  /\ (forall folder file rest,
        process_resume_json_files py_format json_loads (folder ++ file :: rest)
        = fold_left (process_file py_format json_loads) rest
            (process_file py_format json_loads
               (process_resume_json_files py_format json_loads folder) file))
  /\ (forall fname text error_log,
        endswith (PyStr.lower fname) ".json"
          || endswith (PyStr.lower fname) ".jsonl" = true ->
        PyStr.strip text <> "" ->
        json_loads (PyStr.strip text) = inr (JDict resume_data) ->
        process_file py_format json_loads (all_resumes, error_log) (fname, text)
        = (fst out,
           match snd out with
           | None => error_log
           | Some e => error_log ++ [ {| filename := fname;
                                         error_type := exn_name e;
                                         error_message := exn_message e |} ]
           end)).
Proof.
  intros v out. split; [|split; [|split]].
  - subst out. unfold flatten. fold v.
    destruct (truthy v).
    + destruct (py_iter v) as [e|experiences].
      * exists []. simpl. rewrite app_nil_r. now split.
      * destruct (experience_loop_rows resume_data experiences all_resumes)
          as (rows & E & F & _). now exists rows.
    + eexists. split; [reflexivity|].
      constructor; [|constructor]. repeat split.
  - subst out. unfold flatten, rows_without_error. fold v.
    destruct (truthy v); simpl.
    + destruct (py_iter v) as [e|experiences]; simpl.
      * split; discriminate.
      * destruct (experience_loop_rows resume_data experiences all_resumes)
          as (rows & _ & _ & Hok & Hbad).
        destruct (forallb is_dict experiences).
        -- split; [reflexivity|]. intros _. now apply Hok.
        -- split; [|discriminate]. intro H. now apply Hbad in H.
    + split; reflexivity.
  - intros folder file rest. unfold process_resume_json_files.
    now rewrite fold_left_app.
  - intros fname text error_log Hname Hnonempty Hloads.
    unfold process_file. rewrite Hname.
    destruct (String.eqb_spec (PyStr.strip text) ""); [contradiction|].
    rewrite Hloads. fold out.
    destruct out as [rows [e|]]; reflexivity.
Qed.

End FlattenFacts.

(** ** Python strings: occurrences and [split] *)

Lemma prefix_split (sep s : string) :
  prefix sep s = true -> s = (sep ++ PyStr.drop (length sep) s)%string.
Proof.
  revert s. induction sep as [|a sep IH]; intros s H; [reflexivity|].
  destruct s as [|b s]; [discriminate|].
  simpl in H. destruct (ascii_dec a b) as [->|]; [|discriminate].
  simpl. f_equal. now apply IH.
Qed.

Lemma prefix_cons_cons (a : ascii) (sep : string) (b : ascii) (s : string) :
  prefix (String a sep) (String b s) = Ascii.eqb a b && prefix sep s.
Proof.
  cbn [prefix]. destruct (ascii_dec a b) as [->|N].
  - now rewrite Ascii.eqb_refl.
  - apply Ascii.eqb_neq in N. now rewrite N.
Qed.

Lemma prefix_app (sep b : string) : prefix sep (sep ++ b) = true.
Proof.
  induction sep as [|a sep IH]; simpl; [now destruct b|].
  destruct (ascii_dec a a); [assumption|congruence].
Qed.

Lemma prefix_longer (sep t u : string) :
  prefix sep t = true -> prefix sep (t ++ u) = true.
Proof.
  revert t. induction sep as [|a sep IH]; intros t H.
  - now destruct (t ++ u)%string.
  - destruct t as [|b t]; [discriminate|].
    simpl in *. destruct (ascii_dec a b); [now apply IH|discriminate].
Qed.

Lemma contains_cons (sep : string) (c : ascii) (s : string) :
  PyStr.contains sep (String c s) = prefix sep (String c s) || PyStr.contains sep s.
Proof. reflexivity. Qed.

Lemma contains_app_r (sep a b : string) :
  PyStr.contains sep b = true -> PyStr.contains sep (a ++ b) = true.
Proof.
  intro H. induction a as [|c a IH]; [assumption|].
  change (String c a ++ b)%string with (String c (a ++ b)).
  rewrite contains_cons, IH. apply orb_true_r.
Qed.


Lemma contains_drop (sep : string) (n : nat) (s : string) :
  PyStr.contains sep (PyStr.drop n s) = true -> PyStr.contains sep s = true.
Proof.
  revert s. induction n as [|n IH]; intros s H; [assumption|].
  destruct s as [|c s]; [assumption|].
  rewrite contains_cons. simpl in H. rewrite (IH s H). apply orb_true_r.
Qed.

Lemma rstrip_by_prefix (p : ascii -> bool) (s : string) :
  exists t, s = (PyStr.rstrip_by p s ++ t)%string.
Proof.
  induction s as [|c s [t IH]]; [now exists EmptyString|].
  simpl. destruct (PyStr.rstrip_by p s) eqn:E.
  - destruct (p c).
    + now exists (String c s).
    + exists t. simpl. f_equal. exact IH.
  - exists t. simpl. f_equal. exact IH.
Qed.

(** ** White space at the ends of a text *)

Lemma length_append (a b : string) :
  length (a ++ b) = (length a + length b)%nat.
Proof. induction a as [|c a IH]; [reflexivity|]. cbn. now rewrite IH. Qed.

(** Two prefixes of one text: one is a prefix of the other. *)
Lemma prefix_chain (a b s : string) :
  prefix a s = true -> prefix b s = true ->
  prefix a b = true \/ prefix b a = true.
Proof.
  revert b s. induction a as [|x a IH]; intros b s Ha Hb.
  - left. now destruct b.
  - destruct b as [|y b]; [right; reflexivity|].
    destruct s as [|z s]; [discriminate|].
    rewrite prefix_cons_cons in Ha, Hb.
    apply andb_true_iff in Ha. destruct Ha as [E1 Ha].
    apply andb_true_iff in Hb. destruct Hb as [E2 Hb].
    apply Ascii.eqb_eq in E1, E2. subst x y.
    rewrite !prefix_cons_cons, Ascii.eqb_refl. cbn [andb]. eauto.
Qed.

(** No white-space character is the beginning of another. *)
Lemma whitespace_prefix_free (w w' : string) :
  In w PyStr.whitespace -> In w' PyStr.whitespace ->
  prefix w w' = true -> w = w'.
Proof.
  intros Hw Hw' P.
  assert (B : forallb (fun a => forallb (fun b => implb (prefix a b) (String.eqb a b))
                                  PyStr.whitespace) PyStr.whitespace = true)
    by (vm_compute; reflexivity).
  rewrite forallb_forall in B. specialize (B w Hw).
  rewrite forallb_forall in B. specialize (B w' Hw').
  rewrite P in B. cbn in B. now apply String.eqb_eq.
Qed.

Lemma whitespace_not_empty (w : string) :
  In w PyStr.whitespace -> exists c w', w = String c w'.
Proof.
  intro H.
  assert (B : forallb (fun a => negb (String.eqb a "")) PyStr.whitespace = true)
    by (vm_compute; reflexivity).
  rewrite forallb_forall in B. specialize (B w H).
  destruct w as [|c w']; [discriminate|eauto].
Qed.

Lemma space_len_found (s : string) (k : nat) :
  PyStr.space_len s = S k ->
  exists w, In w PyStr.whitespace /\ length w = S k /\ prefix w s = true.
Proof.
  unfold PyStr.space_len. destruct (find _ _) as [w|] eqn:F; [|discriminate].
  apply find_some in F. intro L. exists w. tauto.
Qed.

Lemma space_len_none (s : string) :
  PyStr.space_len s = O ->
  forall w, In w PyStr.whitespace -> prefix w s = false.
Proof.
  unfold PyStr.space_len. destruct (find _ _) as [w|] eqn:F.
  - apply find_some in F. destruct F as [H _].
    destruct (whitespace_not_empty w H) as (c & w' & ->). discriminate.
  - intros _ w H. exact (find_none _ _ F w H).
Qed.

Lemma space_len_prefix (w s : string) :
  In w PyStr.whitespace -> prefix w s = true -> PyStr.space_len s = length w.
Proof.
  intros H P. unfold PyStr.space_len.
  destruct (find _ _) as [w'|] eqn:F.
  - apply find_some in F. destruct F as [H' P'].
    destruct (prefix_chain _ _ _ P P') as [Q|Q].
    + now rewrite (whitespace_prefix_free _ _ H H' Q).
    + now rewrite (whitespace_prefix_free _ _ H' H Q).
  - now rewrite (find_none _ _ F w H) in P.
Qed.

Lemma space_len_app (w s : string) :
  In w PyStr.whitespace -> PyStr.space_len (w ++ s) = length w.
Proof. intro H. apply space_len_prefix; [exact H|apply prefix_app]. Qed.

(** ** [lstrip] *)

Lemma lstrip_from_skip (w s : string) (c : ascii) :
  PyStr.lstrip_from (length w) (w ++ s) = PyStr.lstrip_from O s.
Proof.
  induction w as [|x w IH]; [reflexivity|]. exact IH.
Qed.

Lemma lstrip_space (w s : string) :
  In w PyStr.whitespace -> PyStr.lstrip (w ++ s) = PyStr.lstrip s.
Proof.
  intro H. destruct (whitespace_not_empty w H) as (c & w' & E).
  unfold PyStr.lstrip. pose proof (space_len_app w s H) as L.
  subst w. cbn [append PyStr.lstrip_from length] in *.
  rewrite L. apply (lstrip_from_skip w' s c).
Qed.

Lemma lstrip_tight (s : string) :
  PyStr.space_len s = O -> PyStr.lstrip s = s.
Proof.
  intro H. unfold PyStr.lstrip. destruct s as [|c s]; [reflexivity|].
  cbn [PyStr.lstrip_from]. now rewrite H.
Qed.

Lemma lstrip_white (l t : string) :
  white l -> PyStr.space_len t = O -> PyStr.lstrip (l ++ t) = t.
Proof.
  intros W T. induction W as [|w s H W IH]; [now apply lstrip_tight|].
  rewrite append_assoc, lstrip_space by exact H. exact IH.
Qed.

(** What [lstrip] removes is white space, and what it leaves does not
    begin with white space. *)
Lemma lstrip_spec (s : string) :
  exists l, s = (l ++ PyStr.lstrip s)%string /\ white l
            /\ PyStr.space_len (PyStr.lstrip s) = O.
Proof.
  remember (length s) as n eqn:L. revert s L.
  induction n as [n IH] using lt_wf_ind. intros s L.
  destruct (PyStr.space_len s) as [|k] eqn:E.
  - exists EmptyString. rewrite (lstrip_tight s E). repeat split; [constructor|exact E].
  - destruct (space_len_found s k E) as (w & H & Lw & P).
    pose proof (prefix_split w s P) as D.
    set (r := PyStr.drop (length w) s) in *. clearbody r. subst s.
    destruct (IH (length r)) with (s := r) as (l & El & Wl & Tl); [|reflexivity|].
    + subst n. rewrite length_append. lia.
    + exists (w ++ l)%string. rewrite (lstrip_space w _ H). split; [|split].
      * rewrite append_assoc. now rewrite <- El.
      * now constructor.
      * exact Tl.
Qed.

(** ** [blank] *)

Lemma blank_from_skip (w s : string) :
  PyStr.blank_from (length w) (w ++ s) = PyStr.blank_from O s.
Proof. induction w as [|x w IH]; [reflexivity|exact IH]. Qed.

Lemma blank_space (w s : string) :
  In w PyStr.whitespace -> PyStr.blank (w ++ s) = PyStr.blank s.
Proof.
  intro H. destruct (whitespace_not_empty w H) as (c & w' & E).
  unfold PyStr.blank. pose proof (space_len_app w s H) as L.
  subst w. cbn [append PyStr.blank_from length] in *.
  rewrite L. apply (blank_from_skip w' s).
Qed.

Lemma blank_white (s : string) : PyStr.blank s = true <-> white s.
Proof.
  split.
  - remember (length s) as n eqn:L. revert s L.
    induction n as [n IH] using lt_wf_ind. intros s L B.
    destruct s as [|c s']; [constructor|].
    destruct (PyStr.space_len (String c s')) as [|k] eqn:E.
    + unfold PyStr.blank in B. cbn [PyStr.blank_from] in B. now rewrite E in B.
    + destruct (space_len_found _ k E) as (w & H & Lw & P).
      pose proof (prefix_split w _ P) as D.
      set (r := PyStr.drop (length w) (String c s')) in *. clearbody r.
      rewrite D in *. clear D.
      constructor; [exact H|].
      apply (IH (length r)); [|reflexivity|].
      * subst n. rewrite length_append. lia.
      * now rewrite (blank_space w _ H) in B.
  - induction 1 as [|w s H W IH]; [reflexivity|]. now rewrite blank_space.
Qed.

Lemma white_app (a b : string) : white a -> white b -> white (a ++ b).
Proof.
  induction 1 as [|w s H W IH]; intro B; [exact B|].
  rewrite append_assoc. constructor; auto.
Qed.

(** ** [rstrip] *)

Lemma rstrip_cons (c : ascii) (s : string) :
  PyStr.rstrip (String c s)
  = if PyStr.blank (String c s) then EmptyString else String c (PyStr.rstrip s).
Proof. reflexivity. Qed.

(** What [rstrip] removes is white space, and what it leaves does not end
    with white space. *)
Lemma rstrip_spec (s : string) :
  exists r, s = (PyStr.rstrip s ++ r)%string /\ white r
            /\ forall w u, In w PyStr.whitespace -> PyStr.rstrip s <> (u ++ w)%string.
Proof.
  induction s as [|c s (r & E & W & T)].
  - exists EmptyString. repeat split; [constructor|].
    intros w u H. destruct (whitespace_not_empty w H) as (x & w' & ->).
    now destruct u.
  - rewrite rstrip_cons. destruct (PyStr.blank (String c s)) eqn:B.
    + exists (String c s). repeat split; [now apply blank_white|].
      intros w u H. destruct (whitespace_not_empty w H) as (x & w' & ->).
      now destruct u.
    + exists r. split; [cbn; now rewrite <- E|]. split; [exact W|].
      intros w u H Q. destruct u as [|y u].
      * cbn [append] in Q.
        assert (B' : PyStr.blank (String c s) = true).
        { apply blank_white. rewrite E.
          change (String c (PyStr.rstrip s ++ r)) with (String c (PyStr.rstrip s) ++ r)%string.
          rewrite Q. constructor; assumption. }
        congruence.
      * cbn [append] in Q. injection Q as _ Q. exact (T w u H Q).
Qed.

Lemma append_eq_append (a b c d : string) :
  (a ++ b)%string = (c ++ d)%string ->
  exists e, (a = (c ++ e)%string /\ d = (e ++ b)%string)
            \/ (c = (a ++ e)%string /\ b = (e ++ d)%string).
Proof.
  revert c. induction a as [|x a IH]; intros c E.
  - exists c. right. now split.
  - destruct c as [|y c].
    + exists (String x a). left. now split.
    + cbn [append] in E. injection E as -> E.
      destruct (IH c E) as (e & [[-> ->]|[-> ->]]); exists e; [left|right]; now split.
Qed.

Lemma white_inv (s : string) :
  white s ->
  s = EmptyString
  \/ exists w s', In w PyStr.whitespace /\ white s' /\ s = (w ++ s')%string.
Proof. destruct 1 as [|w s' H W]; [now left|right; eauto]. Qed.

(** A byte that begins a white-space character is not a later byte of
    one. *)
Lemma whitespace_no_overlap (w w' t y z : string) (b : ascii) :
  In w PyStr.whitespace -> In w' PyStr.whitespace ->
  t <> EmptyString ->
  w = (t ++ String b y)%string -> w' = String b z -> False.
Proof.
  intros H H' N E E'.
  assert (B : forallb (fun a => forallb (fun a' =>
                match a, a' with
                | String _ tl, String x _ => negb (existsb (Ascii.eqb x) (list_ascii_of_string tl))
                | _, _ => true
                end) PyStr.whitespace) PyStr.whitespace = true)
    by (vm_compute; reflexivity).
  rewrite forallb_forall in B. specialize (B w H).
  rewrite forallb_forall in B. specialize (B w' H').
  destruct t as [|x t]; [congruence|]. subst w w'. cbn [append] in B.
  apply negb_true_iff in B.
  assert (C : existsb (Ascii.eqb b) (list_ascii_of_string (t ++ String b y)) = true).
  { clear. induction t as [|c t IH]; cbn.
    - now rewrite Ascii.eqb_refl.
    - rewrite IH. apply orb_true_r. }
  congruence.
Qed.

(** Before white space, a text that is white with it is white. *)
Lemma white_app_inv (t r : string) : white (t ++ r) -> white r -> white t.
Proof.
  remember (length t) as n eqn:L. revert t L.
  induction n as [n IH] using lt_wf_ind. intros t L W R.
  destruct t as [|c t']; [constructor|].
  destruct (white_inv _ W) as [E|(w & s' & H & W' & E)]; [discriminate|].
  destruct (append_eq_append _ _ _ _ E) as (e & [[E1 E2]|[E1 E2]]).
  - rewrite E1. constructor; [exact H|].
    apply (IH (length e)); [|reflexivity| |exact R].
    + subst n. rewrite E1, length_append.
      destruct (whitespace_not_empty w H) as (x & w' & ->). cbn. lia.
    + now rewrite <- E2.
  - destruct e as [|b y].
    + rewrite append_nil_r in E1. rewrite <- E1.
      rewrite <- (append_nil_r w). constructor; [exact H|constructor].
    + exfalso. destruct (white_inv _ R) as [E3|(w' & s'' & H' & _ & E3)].
      * rewrite E3 in E2. discriminate.
      * destruct (whitespace_not_empty w' H') as (x & z & Ew').
        rewrite E3, Ew' in E2. cbn [append] in E2. injection E2 as -> _.
        exact (whitespace_no_overlap w w' (String c t') y z b H H'
                 ltac:(discriminate) E1 Ew').
Qed.

Lemma white_ends (s : string) :
  white s -> s <> EmptyString ->
  exists u w, In w PyStr.whitespace /\ s = (u ++ w)%string.
Proof.
  induction 1 as [|w s H W IH]; [congruence|]. intros _.
  destruct s as [|c s'].
  - exists EmptyString, w. split; [exact H|now rewrite append_nil_r].
  - destruct IH as (u & w' & H' & E); [discriminate|].
    exists (w ++ u)%string, w'. split; [exact H'|]. now rewrite E, append_assoc.
Qed.

Lemma rstrip_white (t r : string) :
  white r -> (forall w u, In w PyStr.whitespace -> t <> (u ++ w)%string) ->
  PyStr.rstrip (t ++ r) = t.
Proof.
  intros W T. induction t as [|c t IH].
  - cbn [append]. destruct r as [|x r]; [reflexivity|].
    rewrite rstrip_cons. now rewrite (proj2 (blank_white _) W).
  - change (String c t ++ r)%string with (String c (t ++ r)).
    rewrite rstrip_cons.
    destruct (PyStr.blank (String c (t ++ r))) eqn:B.
    + exfalso. apply blank_white in B.
      pose proof (white_app_inv (String c t) r B W) as B'.
      destruct (white_ends _ B') as (u & w & H & E); [discriminate|].
      exact (T w u H E).
    + f_equal. apply IH. intros w u H Q. apply (T w (String c u) H).
      cbn. now rewrite Q.
Qed.

Lemma lstrip_all_white (s : string) : white s -> PyStr.lstrip s = EmptyString.
Proof.
  intro W. rewrite <- (append_nil_r s). now apply lstrip_white.
Qed.

Lemma space_len_zero (s : string) :
  (forall w, In w PyStr.whitespace -> prefix w s = false) -> PyStr.space_len s = O.
Proof.
  intro H. destruct (PyStr.space_len s) as [|k] eqn:E; [reflexivity|].
  destruct (space_len_found s k E) as (w & Hw & _ & P). now rewrite (H w Hw) in P.
Qed.

Lemma tight_empty : tight EmptyString.
Proof.
  intros w u H. destruct (whitespace_not_empty w H) as (c & w' & ->).
  split; [discriminate|now destruct u].
Qed.

(** ** [strip] *)

(** [strip] trims: it removes white space at the two ends and leaves a
    text that neither begins nor ends with white space. *)
Lemma strip_trims (s : string) : trimmed s (PyStr.strip s).
Proof.
  unfold PyStr.strip.
  destruct (lstrip_spec s) as (l & El & Wl & Tl).
  destruct (rstrip_spec (PyStr.lstrip s)) as (r & Er & Wr & Tr).
  exists l, r. split; [now rewrite <- Er|]. split; [exact Wl|]. split; [exact Wr|].
  intros w u H. split; [|now apply Tr].
  intro Q. pose proof (space_len_none _ Tl w H) as P.
  rewrite Er, Q, append_assoc, prefix_app in P. discriminate.
Qed.

(** The trimmed text is the only one. *)
Lemma trimmed_strip (a t : string) : trimmed a t -> PyStr.strip a = t.
Proof.
  intros (l & r & -> & Wl & Wr & T). unfold PyStr.strip.
  destruct t as [|c t'].
  - cbn [append]. now rewrite (lstrip_all_white _ (white_app _ _ Wl Wr)).
  - rewrite lstrip_white; [apply rstrip_white; [exact Wr|intros w u H; apply T, H]
                          |exact Wl|].
    apply space_len_zero. intros w H.
    destruct (prefix w (String c t' ++ r)) eqn:P; [|reflexivity].
    exfalso. apply prefix_split in P.
    destruct (append_eq_append _ _ _ _ P) as (e & [[E1 E2]|[E1 E2]]).
    + exact (proj1 (T w e H) E1).
    + destruct e as [|b y].
      * rewrite append_nil_r in E1. exact (proj1 (T w EmptyString H)
                                             ltac:(now rewrite append_nil_r)).
      * destruct (white_inv _ Wr) as [E3|(w' & s'' & H' & _ & E3)].
        -- rewrite E3 in E2. discriminate.
        -- destruct (whitespace_not_empty w' H') as (x & z & Ew').
           rewrite E3, Ew' in E2. cbn [append] in E2. injection E2 as <- _.
           exact (whitespace_no_overlap w w' (String c t') y z x H H'
                    ltac:(discriminate) E1 Ew').
Qed.

Lemma strip_idempotent (s : string) : PyStr.strip (PyStr.strip s) = PyStr.strip s.
Proof.
  destruct (strip_trims s) as (l & r & _ & _ & _ & T).
  apply trimmed_strip. exists EmptyString, EmptyString.
  rewrite append_nil_r. split; [reflexivity|].
  split; [apply white_nil|]. split; [apply white_nil|exact T].
Qed.

Lemma strip_tight (t : string) : tight t -> PyStr.strip t = t.
Proof.
  intro T. apply trimmed_strip. exists EmptyString, EmptyString.
  rewrite append_nil_r. split; [reflexivity|].
  split; [apply white_nil|]. split; [apply white_nil|exact T].
Qed.

Lemma strip_padded (l t r : string) :
  white l -> white r -> tight t -> PyStr.strip (l ++ t ++ r) = t.
Proof. intros Wl Wr T. apply trimmed_strip. now exists l, r. Qed.

Lemma white_space : white " ".
Proof.
  change " " with (" " ++ "")%string. constructor; [|constructor].
  vm_compute. tauto.
Qed.

(** No byte of a white-space character is a visible character. *)
Lemma whitespace_not_visible (w u v : string) (c : ascii) :
  In w PyStr.whitespace -> visible c = true -> w = (u ++ String c v)%string -> False.
Proof.
  intros H V E.
  assert (B : forallb (fun w => forallb (fun c => negb (visible c))
                                  (list_ascii_of_string w)) PyStr.whitespace = true)
    by (vm_compute; reflexivity).
  rewrite forallb_forall in B. specialize (B w H). subst w.
  assert (C : forall u, forallb (fun c => negb (visible c))
                          (list_ascii_of_string (u ++ String c v)) = false).
  { clear - V. induction u as [|x u IH]; cbn.
    - now rewrite V.
    - rewrite IH. apply andb_false_r. }
  now rewrite C in B.
Qed.

(** A text that begins and ends with a visible character is as [strip]
    leaves it. *)
Lemma tight_visible_ends (t m v : string) (x c : ascii) :
  t = String x m -> t = (v ++ String c "")%string ->
  visible x = true -> visible c = true -> tight t.
Proof.
  intros E1 E2 Vx Vc w u H. split; intro Q.
  - rewrite Q in E1. destruct (whitespace_not_empty w H) as (y & w' & Ew).
    rewrite Ew in E1. cbn [append] in E1. injection E1 as -> _.
    exact (whitespace_not_visible w EmptyString w' x H Vx Ew).
  - rewrite Q in E2. destruct (append_eq_append _ _ _ _ E2) as (e & [[_ E]|[_ E]]).
    + destruct (whitespace_not_empty w H) as (y & w' & Ew).
      destruct e as [|z e]; [|rewrite Ew in E; destruct e; discriminate].
      cbn [append] in E. symmetry in E.
      exact (whitespace_not_visible w EmptyString EmptyString c H Vc E).
    + exact (whitespace_not_visible w e EmptyString c H Vc E).
Qed.


Section SplitFacts.

Variable sep : string.
Hypothesis sep_nonempty : sep <> EmptyString.

Lemma prefix_nil : prefix sep EmptyString = false.
Proof. destruct sep; [congruence|reflexivity]. Qed.

Lemma contains_nil : PyStr.contains sep EmptyString = false.
Proof. cbn [PyStr.contains]. now rewrite prefix_nil. Qed.

Lemma drop_nil (n : nat) : PyStr.drop n EmptyString = EmptyString.
Proof. now destruct n. Qed.

Lemma split_scan_not_nil (s : string) :
  forall skip cur, PyStr.split_scan sep skip cur s <> [].
Proof.
  induction s as [|c s IH]; intros skip cur; cbn [PyStr.split_scan].
  - discriminate.
  - destruct skip; [|apply IH].
    destruct (prefix sep (String c s)); [discriminate|apply IH].
Qed.

Lemma first_split_scan (s : string) :
  forall cur,
    PyStr.first (PyStr.split_scan sep 0 cur s)
    = (cur ++ text_before_first sep s)%string.
Proof.
  induction s as [|c s IH]; intro cur.
  - cbn [PyStr.split_scan text_before_first PyStr.first hd].
    rewrite prefix_nil. now rewrite append_nil_r.
  - cbn [PyStr.split_scan text_before_first].
    destruct (prefix sep (String c s)).
    + cbn [PyStr.first hd]. now rewrite append_nil_r.
    + rewrite IH, append_assoc. reflexivity.
Qed.

Lemma before_first_decomposes (s : string) :
  PyStr.contains sep s = true ->
  exists b, s = (text_before_first sep s ++ sep ++ b)%string.
Proof.
  induction s as [|c s IH]; intro H.
  - now rewrite contains_nil in H.
  - cbn [text_before_first]. rewrite contains_cons in H.
    destruct (prefix sep (String c s)) eqn:P.
    + exists (PyStr.drop (length sep) (String c s)). now apply prefix_split.
    + destruct (IH H) as [b E]. exists b.
      change (String c s = String c (text_before_first sep s ++ sep ++ b)).
      now f_equal.
Qed.

Lemma before_first_free (s : string) :
  PyStr.contains sep (text_before_first sep s) = false.
Proof.
  induction s as [|c s IH].
  - cbn [text_before_first]. rewrite prefix_nil. apply contains_nil.
  - cbn [text_before_first].
    destruct (prefix sep (String c s)) eqn:P; [apply contains_nil|].
    rewrite contains_cons, IH, orb_false_r.
    destruct (prefix sep (String c (text_before_first sep s))) eqn:Q; [|reflexivity].
    destruct (PyStr.contains sep s) eqn:C.
    + destruct (before_first_decomposes s C) as [b E].
      apply (prefix_longer _ _ (sep ++ b)) in Q.
      change (String c (text_before_first sep s) ++ sep ++ b)%string
        with (String c (text_before_first sep s ++ sep ++ b)) in Q.
      rewrite <- E in Q. congruence.
    + assert (E : text_before_first sep s = s).
      { clear - C sep_nonempty. induction s as [|d s IH]; cbn [text_before_first].
        - now rewrite prefix_nil.
        - rewrite contains_cons in C. apply orb_false_iff in C.
          destruct C as [-> C]. f_equal. now apply IH. }
      rewrite E in Q. congruence.
Qed.

Lemma after_last_decomposes (s : string) :
  PyStr.contains sep s = true ->
  exists a, s = (a ++ sep ++ text_after_last sep s)%string.
Proof.
  induction s as [|c s IH]; intro H.
  - now rewrite contains_nil in H.
  - cbn [text_after_last]. rewrite contains_cons in H.
    destruct (PyStr.contains sep s) eqn:C.
    + destruct (IH eq_refl) as [a E]. exists (String c a).
      change (String c s = String c (a ++ sep ++ text_after_last sep s)).
      now f_equal.
    + rewrite orb_false_r in H. rewrite H.
      exists EmptyString. now apply prefix_split.
Qed.

Lemma after_last_free (s : string) :
  PyStr.contains sep s = true ->
  PyStr.contains sep (text_after_last sep s) = false.
Proof.
  induction s as [|c s IH]; intro H.
  - now rewrite contains_nil in H.
  - cbn [text_after_last]. rewrite contains_cons in H.
    destruct (PyStr.contains sep s) eqn:C; [now apply IH|].
    rewrite orb_false_r in H. rewrite H.
    destruct sep as [|a sep'] eqn:Es; [congruence|].
    cbn [length PyStr.drop].
    destruct (PyStr.contains (String a sep') (PyStr.drop (length sep') s)) eqn:D;
      [|reflexivity].
    apply contains_drop in D. congruence.
Qed.

(** An occurrence of [sep] does not overlap the next one: behind an
    occurrence at the head, the last occurrence is looked for in the rest. *)
Hypothesis sep_border_free :
  forall s, prefix sep s = true ->
    text_after_last sep s
    = (let r := PyStr.drop (length sep) s in
       if PyStr.contains sep r then text_after_last sep r else r).

Lemma last_cons_not_nil (x : string) (l : list string) :
  l <> [] -> PyStr.last (x :: l) = PyStr.last l.
Proof. destruct l; [congruence|reflexivity]. Qed.

Lemma last_split_scan (s : string) :
  forall skip cur,
    PyStr.last (PyStr.split_scan sep skip cur s)
    = (let r := PyStr.drop skip s in
       if PyStr.contains sep r then text_after_last sep r else (cur ++ r)%string).
Proof.
  induction s as [|c s IH]; intros skip cur.
  - cbn [PyStr.split_scan]. rewrite drop_nil. cbv zeta. rewrite contains_nil.
    unfold PyStr.last. simpl. now rewrite append_nil_r.
  - destruct skip as [|skip].
    + cbn [PyStr.split_scan PyStr.drop]. cbv zeta.
      destruct (prefix sep (String c s)) eqn:P.
      * rewrite last_cons_not_nil by apply split_scan_not_nil.
        rewrite IH. cbv zeta.
        rewrite contains_cons, P. cbn [orb].
        rewrite (sep_border_free _ P). cbv zeta.
        destruct sep as [|a sep']; [congruence|].
        cbn [length PyStr.drop].
        replace (S (length sep') - 1) with (length sep') by lia. reflexivity.
      * rewrite IH. cbn [PyStr.drop]. cbv zeta.
        rewrite contains_cons, P. cbn [orb text_after_last].
        destruct (PyStr.contains sep s); [reflexivity|].
        rewrite append_assoc. reflexivity.
    + cbn [PyStr.split_scan PyStr.drop]. apply IH.
Qed.

End SplitFacts.

Lemma hyphen_border_free (s : string) :
  prefix "-" s = true ->
  text_after_last "-" s
  = (let r := PyStr.drop (length "-") s in
     if PyStr.contains "-" r then text_after_last "-" r else r).
Proof.
  destruct s as [|c s]; [discriminate|]. intro P.
  cbn [text_after_last]. rewrite P. reflexivity.
Qed.

Lemma en_dash_border_free (s : string) :
  prefix "–" s = true ->
  text_after_last "–" s
  = (let r := PyStr.drop (length "–") s in
     if PyStr.contains "–" r then text_after_last "–" r else r).
Proof.
  destruct s as [|c1 [|c2 [|c3 r]]]; try discriminate;
    rewrite ?prefix_cons_cons; try (now rewrite ?andb_false_r).
  intro P. apply andb_true_iff in P. destruct P as [P1 P].
  apply andb_true_iff in P. destruct P as [P2 P].
  apply andb_true_iff in P. destruct P as [P3 _].
  apply Ascii.eqb_eq in P1, P2, P3. subst c1 c2 c3.
  assert (E2 : PyStr.contains "–" (String "147" r) = PyStr.contains "–" r)
    by reflexivity.
  assert (E1 : PyStr.contains "–" (String "128" (String "147" r)) = PyStr.contains "–" r)
    by reflexivity.
  cbn [text_after_last]. rewrite E1, E2.
  change (PyStr.drop (length "–") (String "226" (String "128" (String "147" r))))
    with r.
  cbv zeta. destruct (PyStr.contains "–" r); [reflexivity|].
  rewrite !prefix_cons_cons, !Ascii.eqb_refl. now destruct r.
Qed.

Lemma hyphen_nonempty : "-" <> EmptyString.
Proof. discriminate. Qed.

Lemma en_dash_nonempty : "–" <> EmptyString.
Proof. discriminate. Qed.

(** The first and the last segment of a split, for a separator that
    occurs. *)
Lemma split_first_last (sep x : string) :
  sep <> EmptyString ->
  (forall s, prefix sep s = true ->
     text_after_last sep s
     = (let r := PyStr.drop (length sep) s in
        if PyStr.contains sep r then text_after_last sep r else r)) ->
  PyStr.contains sep x = true ->
  PyStr.first (PyStr.split sep x) = text_before_first sep x
  /\ PyStr.last (PyStr.split sep x) = text_after_last sep x.
Proof.
  intros N B C. unfold PyStr.split. split.
  - now rewrite first_split_scan.
  - rewrite last_split_scan by assumption. cbn [PyStr.drop]. cbv zeta.
    now rewrite C.
Qed.

(** The tokens of a range written with [sep]: the text before the first
    [sep] and the text behind the last one, both free of [sep]. *)
Lemma range_tokens (sep x : string) :
  sep <> EmptyString ->
  (forall s, prefix sep s = true ->
     text_after_last sep s
     = (let r := PyStr.drop (length sep) s in
        if PyStr.contains sep r then text_after_last sep r else r)) ->
  PyStr.contains sep x = true ->
  exists a b a' b',
    x = (a ++ sep ++ b)%string /\ PyStr.contains sep a = false
    /\ x = (a' ++ sep ++ b')%string /\ PyStr.contains sep b' = false
    /\ PyStr.first (PyStr.split sep x) = a
    /\ PyStr.last (PyStr.split sep x) = b'.
Proof.
  intros N B C.
  destruct (split_first_last sep x N B C) as [F L].
  destruct (before_first_decomposes sep N x C) as [b Eb].
  destruct (after_last_decomposes sep N x C) as [a' Ea].
  exists (text_before_first sep x), b, a', (text_after_last sep x).
  repeat split; try assumption.
  - now apply before_first_free.
  - now apply after_last_free.
Qed.

(** C6.  A duration text that contains an en-dash gives as start token the
    text before its first en-dash and as end token the text after its last
    en-dash, both trimmed: what is removed from either is white space at
    its two ends, and the token neither begins nor ends with a white-space
    character.  Otherwise, if it contains a hyphen, the same holds for the
    hyphen; otherwise the start token is the whole text and there is no end
    token. *)
Theorem split_range_tokens (x : string) :
  (PyStr.contains "–" x = true ->
   exists a b a' b' s e,
     x = (a ++ "–" ++ b)%string /\ PyStr.contains "–" a = false
     /\ x = (a' ++ "–" ++ b')%string /\ PyStr.contains "–" b' = false
     /\ Duration.start_token x = s /\ trimmed a s
     /\ Duration.end_token x = Some e /\ trimmed b' e)
  /\ (PyStr.contains "–" x = false -> PyStr.contains "-" x = true ->
      exists a b a' b' s e,
        x = (a ++ "-" ++ b)%string /\ PyStr.contains "-" a = false
        /\ x = (a' ++ "-" ++ b')%string /\ PyStr.contains "-" b' = false
        /\ Duration.start_token x = s /\ trimmed a s
        /\ Duration.end_token x = Some e /\ trimmed b' e)
  /\ (PyStr.contains "–" x = false -> PyStr.contains "-" x = false ->
      Duration.start_token x = x /\ Duration.end_token x = None).
Proof.
  unfold Duration.start_token, Duration.end_token.
  split; [|split].
  - intro C. rewrite C.
    destruct (range_tokens "–" x en_dash_nonempty en_dash_border_free C)
      as (a & b & a' & b' & E1 & F1 & E2 & F2 & Hf & Hl).
    exists a, b, a', b', (PyStr.strip a), (PyStr.strip b'). rewrite Hf, Hl.
    pose proof (strip_trims a). pose proof (strip_trims b'). tauto.
  - intros C1 C2. rewrite C1, C2.
    destruct (range_tokens "-" x hyphen_nonempty hyphen_border_free C2)
      as (a & b & a' & b' & E1 & F1 & E2 & F2 & Hf & Hl).
    exists a, b, a', b', (PyStr.strip a), (PyStr.strip b'). rewrite Hf, Hl.
    pose proof (strip_trims a). pose proof (strip_trims b'). tauto.
  - intros C1 C2. rewrite C1, C2. split; reflexivity.
Qed.

(** ** The date-token parser and the month count *)

Lemma mem_string_In (s : string) (l : list string) :
  Duration.mem_string s l = true <-> In s l.
Proof.
  induction l as [|t l IH]; simpl; [split; [discriminate|tauto]|].
  rewrite orb_true_iff, IH, String.eqb_eq. split; intros [H|H]; auto.
Qed.

(** C7.  [parse_date] maps a token that, once trimmed and put in lower
    case, is [present], [running] or [current] to the current date, and
    maps the empty text and a missing value to an unresolved date. *)
Theorem parse_date_literal_tokens (now : datetime) :
  (forall s,
      In (PyStr.lower (PyStr.strip s)) ["present"; "running"; "current"] ->
      Duration.parse_date now (Some s) = Some now)
  /\ Duration.parse_date now (Some "") = None
  /\ Duration.parse_date now None = None.
Proof.
  split; [|split; reflexivity].
  intros s H. unfold Duration.parse_date.
  destruct (String.eqb_spec s "") as [->|_].
  - simpl in H. repeat (destruct H as [H|H]; [discriminate|]). contradiction.
  - apply mem_string_In in H. now rewrite H.
Qed.

Section FrameFacts.

Import Frame.

Lemma combine_map {A B C : Type} (f : A -> B) (g : A -> C) (l : list A) :
  combine (map f l) (map g l) = map (fun x => (f x, g x)) l.
Proof. induction l as [|x l IH]; [reflexivity|]. cbn. now rewrite IH. Qed.

(** The row of a text cell in the three columns. *)
Lemma frame_row (now : datetime) (durations : list string) (i : nat) (x : string) :
  nth_error durations i = Some x ->
  let cell_of (dated : bool) (r : option datetime) :=
    match r with
    | Some d => Date d
    | None => if dated then NaT else CNone
    end in
  let start := cell_of (is_datetime64 (map (Duration.Start_Date now) durations))
                 (Duration.Start_Date now x) in
  let end_ := cell_of (is_datetime64 (map (Duration.End_Date now) durations))
                (Duration.End_Date now x) in
  nth_error (process_duration_column now durations) i
  = Some (start, end_, fillna (calculate_duration_in_months now start end_)).
Proof.
  intros H cell_of start end_. unfold process_duration_column, to_column.
  rewrite !map_map, combine_map, map_map.
  rewrite (map_nth_error _ _ _ H). cbn [fst snd].
  subst start end_ cell_of. cbv beta.
  destruct (Duration.Start_Date now x), (Duration.End_Date now x);
    destruct (is_datetime64 (map (Duration.Start_Date now) durations)),
             (is_datetime64 (map (Duration.End_Date now) durations));
    reflexivity.
Qed.

(** The month count of a row, in terms of what [parse_date] returned for
    its two tokens. *)
Lemma frame_row_value (now : datetime) (durations : list string) (i : nat)
  (x : string) :
  nth_error durations i = Some x ->
  nth_error (map snd (process_duration_column now durations)) i
  = Some match Duration.Start_Date now x, Duration.End_Date now x with
         | None, _ => 0%Z
         | Some s, Some e => ((year e - year s) * 12 + (month e - month s))%Z
         | Some s, None =>
             if is_datetime64 (map (Duration.End_Date now) durations)
             then 0%Z
             else ((year now - year s) * 12 + (month now - month s))%Z
         end.
Proof.
  intro H. rewrite (map_nth_error _ _ _ (frame_row now durations i x H)).
  cbn [snd]. f_equal.
  destruct (Duration.Start_Date now x) as [s|], (Duration.End_Date now x) as [e|];
    destruct (is_datetime64 (map (Duration.Start_Date now) durations)),
             (is_datetime64 (map (Duration.End_Date now) durations));
    reflexivity.
Qed.

End FrameFacts.

(** C4.  [calculate_duration_in_months] replaces an end that is [None] by
    the current date, but the end of a row reaches it as [None] only when
    no row of the frame has a resolved end: beside a row whose end is
    resolved, the unresolved end of the row ["2019"] is [NaT], the count is
    [nan] and line 254 stores 0, where the frame of this row alone, and the
    function on [None], count the 94 months to the current date. *)
Theorem unresolved_end_beside_a_resolved_end :
  Frame.process_duration_column sample_now ["2019"; "Jan 2020 - Dec 2020"]
  = [ (Frame.Date {| year := 2019; month := 1; day := 1 |}, Frame.NaT, 0%Z);
      (Frame.Date {| year := 2020; month := 1; day := 1 |},
       Frame.Date {| year := 2020; month := 12; day := 1 |}, 11%Z) ]
  /\ Frame.process_duration_column sample_now ["2019"]
     = [ (Frame.Date {| year := 2019; month := 1; day := 1 |}, Frame.CNone, 94%Z) ]
  /\ Duration.calculate_duration_in_months sample_now
       (Some {| year := 2019; month := 1; day := 1 |}) None = 94%Z
  /\ Frame.calculate_duration_in_months sample_now
       (Frame.Date {| year := 2019; month := 1; day := 1 |}) Frame.CNone
     = Frame.Int 94
  /\ Frame.calculate_duration_in_months sample_now
       (Frame.Date {| year := 2019; month := 1; day := 1 |}) Frame.NaT
     = Frame.NaN.
Proof. repeat split; vm_compute; reflexivity. Qed.

(** ** Hyphens and the year-month formats *)

Lemma lower_char_hyphen (a : ascii) :
  Ascii.eqb (PyStr.lower_char a) (PyStr.lower_char "-") = Ascii.eqb a "-".
Proof.
  destruct a as [[] [] [] [] [] [] [] []]; reflexivity.
Qed.

Lemma contains_hyphen_cons (c : ascii) (s : string) :
  PyStr.contains "-" (String c s) = Ascii.eqb c "-" || PyStr.contains "-" s.
Proof.
  rewrite contains_cons, prefix_cons_cons, Ascii.eqb_sym.
  now destruct s; rewrite andb_true_r.
Qed.


Lemma first_some_none {A B : Type} (k : A -> option B) (l : list A) :
  (forall a, In a l -> k a = None) -> Strptime.first_some k l = None.
Proof.
  induction l as [|a l IH]; intro H; [reflexivity|].
  simpl. rewrite (H a (or_introl eq_refl)). apply IH.
  intros b Hb. apply H. now right.
Qed.

Lemma literal_hyphen_fails (rest : list Strptime.item) (f : Strptime.fields)
  (r : string) :
  PyStr.contains "-" r = false ->
  Strptime.match_items (Strptime.I_lit "-" :: rest) f r = None.
Proof.
  intro H. destruct r as [|a r]; [reflexivity|].
  rewrite contains_hyphen_cons in H. apply orb_false_iff in H. destruct H as [H _].
  cbn [Strptime.match_items Strptime.candidates].
  now rewrite lower_char_hyphen, H.
Qed.

Lemma two_rest (p q : ascii -> bool) (s : string) (k : Z) (r : string) :
  In (k, r) (Strptime.two p q s) -> r = PyStr.drop 2 s.
Proof.
  unfold Strptime.two. destruct s as [|a [|b s]]; try contradiction.
  destruct (p a && q b); [|contradiction].
  intros [H|[]]. now inversion H.
Qed.

Lemma one_rest (p : ascii -> bool) (s : string) (k : Z) (r : string) :
  In (k, r) (Strptime.one p s) -> r = PyStr.drop 1 s.
Proof.
  unfold Strptime.one. destruct s as [|a s]; try contradiction.
  destruct (p a); [|contradiction].
  intros [H|[]]. now inversion H.
Qed.

Lemma month_number_rest (s : string) (k : Z) (r : string) :
  In (k, r) (Strptime.month_number s) -> exists n, r = PyStr.drop n s.
Proof.
  unfold Strptime.month_number. rewrite !in_app_iff.
  intros [H|[H|H]].
  - exists 2%nat. eapply two_rest, H.
  - exists 2%nat. eapply two_rest, H.
  - exists 1%nat. eapply one_rest, H.
Qed.

Lemma year_number_rest (s : string) (k : Z) (r : string) :
  In (k, r) (Strptime.year_number s) -> r = PyStr.drop 4 s.
Proof.
  unfold Strptime.year_number.
  destruct s as [|a [|b [|c [|d s]]]]; try contradiction.
  destruct (PyStr.is_digit a && PyStr.is_digit b && PyStr.is_digit c && PyStr.is_digit d);
    [|contradiction].
  intros [H|[]]. now inversion H.
Qed.

Lemma contains_drop_false (sep : string) (n : nat) (s : string) :
  PyStr.contains sep s = false -> PyStr.contains sep (PyStr.drop n s) = false.
Proof.
  intro H. destruct (PyStr.contains sep (PyStr.drop n s)) eqn:C; [|reflexivity].
  apply contains_drop in C. congruence.
Qed.

Lemma match_items_cons (it : Strptime.item) (rest : list Strptime.item)
  (f : Strptime.fields) (s : string) :
  Strptime.match_items (it :: rest) f s
  = Strptime.first_some (fun '(f', s') => Strptime.match_items rest f' s')
      (Strptime.candidates it f s).
Proof. reflexivity. Qed.

(** A text without a hyphen is parsed by neither year-month format. *)
Lemma year_month_formats_need_hyphen (t : string) :
  PyStr.contains "-" t = false ->
  Strptime.strptime t "%Y-%m" = None /\ Strptime.strptime t "%m-%Y" = None.
Proof.
  intro H. unfold Strptime.strptime.
  change (Strptime.compile "%Y-%m")
    with [Strptime.I_Y; Strptime.I_lit "-"; Strptime.I_m].
  change (Strptime.compile "%m-%Y")
    with [Strptime.I_m; Strptime.I_lit "-"; Strptime.I_Y].
  split.
  - rewrite match_items_cons, first_some_none; [reflexivity|].
    intros [f r] Hin. cbn [Strptime.candidates] in Hin.
    apply in_map_iff in Hin. destruct Hin as ([k r'] & E & Hin).
    inversion E; subst. apply year_number_rest in Hin. subst r.
    apply literal_hyphen_fails. now apply contains_drop_false.
  - rewrite match_items_cons, first_some_none; [reflexivity|].
    intros [f r] Hin. cbn [Strptime.candidates] in Hin.
    apply in_map_iff in Hin. destruct Hin as ([k r'] & E & Hin).
    inversion E; subst. apply month_number_rest in Hin. destruct Hin as [n ->].
    apply literal_hyphen_fails. now apply contains_drop_false.
Qed.


(** ** Aggregation *)

Lemma in_dropna (py_format : json -> string) (df : list Main.row) (r : Main.row) :
  In r df -> Main.is_na (Main.Mobile r) = false -> In r (Main.dropna df).
Proof.
  intros H N. unfold Main.dropna. apply filter_In. now rewrite N.
Qed.

(** A row whose mobile is text stays in the frame that is grouped, whatever
    the text: its key is the digits of the text, the empty text when there
    is none. *)
Lemma text_mobile_is_kept (py_format : json -> string) (df : list Main.row)
  (r : Main.row) (s : string) :
  In r df -> Main.Mobile r = JStr s ->
  In (Main.set_Mobile r (JStr (PyStr.filter PyStr.is_digit s)))
     (Main.clean_mobile py_format df).
Proof.
  intros H E. unfold Main.clean_mobile.
  apply (in_dropna py_format); [|reflexivity].
  apply in_map_iff. exists r. split; [|exact H].
  now rewrite E.
Qed.

(** C3, at the inputs that decide it.  The mobiles [987-654-3210] and
    [9876543210] get the same key and their durations are summed in one
    entry.  A row whose mobile has no digit is not dropped: it gets the
    empty text as key, so the rows of two records without a mobile form
    one group, whose total both rows carry. *)
Theorem empty_mobile_rows_are_grouped (py_format : json -> string) :
  let stint_of name mobile months :=
    {| Main.Name := JStr name; Main.Mobile := mobile; Main.Email := JStr "";
       Main.Graduation := ""; Main.Company := JStr ""; Main.Role := JStr "";
       Main.Calculated_Duration := months |} in
  (Main.flatten_mobile py_format (JStr "987-654-3210") = JStr "9876543210"
   /\ Main.flatten_mobile py_format (JStr "9876543210") = JStr "9876543210"
   /\ Main.overall_exp py_format
        [stint_of "Asha" (JStr "987-654-3210") 12%Z;
         stint_of "Asha" (JStr "9876543210") 30%Z]
      = inr [(JStr "9876543210", 42%Z)])
  /\ (Main.flatten_mobile py_format (JStr "") = JStr ""
      /\ Main.flatten_mobile py_format (JStr "n/a") = JStr ""
      /\ Main.clean_mobile py_format
           [stint_of "Bo" (JStr "") 5%Z; stint_of "Cy" (JStr "n/a") 7%Z]
         = [stint_of "Bo" (JStr "") 5%Z; stint_of "Cy" (JStr "") 7%Z]
      /\ Main.overall_exp py_format
           [stint_of "Bo" (JStr "") 5%Z; stint_of "Cy" (JStr "n/a") 7%Z]
         = inr [(JStr "", 12%Z)]
      /\ Main.aggregate py_format
           [stint_of "Bo" (JStr "") 5%Z; stint_of "Cy" (JStr "n/a") 7%Z]
         = inr [ {| Main.stint := stint_of "Bo" (JStr "") 5%Z;
                    Main.Total_Experience := 12%Z |};
                 {| Main.stint := stint_of "Cy" (JStr "") 7%Z;
                    Main.Total_Experience := 12%Z |} ]).
Proof. repeat split. Qed.

(** ** Persistence *)

Section PersistenceFacts.

Import Database.

Lemma placeholders_select : placeholders (sql SelectOlder) = 2%nat.
Proof. vm_compute. reflexivity. Qed.

Lemma placeholders_insert : placeholders (sql InsertResume) = 9%nat.
Proof. vm_compute. reflexivity. Qed.

Lemma placeholders_update : placeholders (sql UpdateResume) = 8%nat.
Proof. vm_compute. reflexivity. Qed.

Lemma count_zero_iff_none {A : Type} (f : A -> bool) (l : list A) :
  (Z.of_nat (List.length (List.filter f l)) =? 0)%Z = negb (existsb f l).
Proof.
  induction l as [|a l IH]; [reflexivity|].
  simpl. destruct (f a); simpl; [reflexivity|exact IH].
Qed.

Lemma item_found (row : series) (label : string) (v : value) (w : world) :
  lookup_label row label = Some v -> item row label w = (w, Ok v).
Proof. intro H. unfold item. now rewrite H. Qed.

Lemma execute_select (m today : value) (table : list resume) (out : list message) :
  execute SelectOlder [m; today] {| conn := Some table; stdout := out |}
  = ({| conn := Some table; stdout := out |},
     Ok [VInt (Z.of_nat (List.length
            (List.filter (fun old => sql_eq (mobile old) m
                                     && sql_lt (created_at old) today) table)))]).
Proof.
  unfold execute. cbn [conn stdout]. rewrite placeholders_select. reflexivity.
Qed.

Lemma execute_insert (n m e g c r cd te ca : value) (table : list resume)
  (out : list message) :
  execute InsertResume [n; m; e; g; c; r; cd; te; ca]
    {| conn := Some table; stdout := out |}
  = if same_mobile m table
    then ({| conn := Some table; stdout := out |},
          Raise (IntegrityError "UNIQUE constraint failed: resumes.mobile"))
    else ({| conn := Some (table ++ [ {| name := text_affinity n;
                                         mobile := text_affinity m;
                                         email := text_affinity e;
                                         graduation := text_affinity g;
                                         company := text_affinity c;
                                         role := text_affinity r;
                                         calculated_duration := cd;
                                         total_experience := te;
                                         created_at := ca |} ]);
             stdout := out |}, Ok []).
Proof.
  unfold execute, same_mobile. cbn [conn stdout]. rewrite placeholders_insert.
  cbn [List.length Nat.eqb run].
  now destruct (existsb _ table).
Qed.

Lemma execute_update_nine (n e g c r cd te m ca : value) (w : world) :
  exists err,
    execute UpdateResume [n; e; g; c; r; cd; te; m; ca] w = (w, Raise err)
    /\ is_sqlite_error err = true
    /\ (conn w <> None ->
        err = ProgrammingError "Incorrect number of bindings supplied.").
Proof.
  unfold execute. destruct (conn w) as [table|].
  - rewrite placeholders_update. cbn [List.length Nat.eqb].
    eexists. repeat split.
  - eexists. repeat split. congruence.
Qed.


(** C9.  [update_resume] leaves the database as it was, for every row and
    every state: its UPDATE statement has 8 placeholders and is executed
    with 9 values, so, for a row with the nine labels on a database that
    holds the table, the statement raises the error of the binding count,
    which the function catches and prints; no record is modified. *)
Theorem update_resume_changes_nothing (row : series) (w : world) :
  conn (fst (update_resume row w)) = conn w
  /\ placeholders (sql UpdateResume) = 8%nat
  /\ (forall n e g c r cd te m ca,
        lookup_label row "Name" = Some n ->
        lookup_label row "Email" = Some e ->
        lookup_label row "Graduation" = Some g ->
        lookup_label row "Company" = Some c ->
        lookup_label row "Role" = Some r ->
        lookup_label row "Calculated_Duration" = Some cd ->
        lookup_label row "Total_Experience" = Some te ->
        lookup_label row "Mobile" = Some m ->
        lookup_label row "created_at" = Some ca ->
        conn w <> None ->
        List.length [n; e; g; c; r; cd; te; m; ca] = 9%nat
        /\ execute UpdateResume [n; e; g; c; r; cd; te; m; ca] w
           = (w, Raise (ProgrammingError "Incorrect number of bindings supplied."))
        /\ update_resume row w
           = ({| conn := conn w;
                 stdout := stdout w ++ [ErrorUpdatingResume
                   (ProgrammingError "Incorrect number of bindings supplied.")] |},
              Ok tt)).
Proof.
  split; [|split; [exact placeholders_update|]].
  - unfold update_resume, try_except_sqlite, bind, item.
    repeat match goal with
           | |- context [lookup_label row ?l] =>
               destruct (lookup_label row l); [|reflexivity]
           end.
    cbv beta iota delta [ret raise].
    match goal with
    | |- context [execute UpdateResume ?ps w] =>
        destruct (execute_update_nine
                    (nth 0 ps VNull) (nth 1 ps VNull) (nth 2 ps VNull)
                    (nth 3 ps VNull) (nth 4 ps VNull) (nth 5 ps VNull)
                    (nth 6 ps VNull) (nth 7 ps VNull) (nth 8 ps VNull) w)
          as (err & E & S & _)
    end.
    cbn [nth] in E. rewrite E, S. reflexivity.
  - intros n e g c r cd te m ca Hn He Hg Hc Hr Hcd Hte Hm Hca Hconn.
    destruct (execute_update_nine n e g c r cd te m ca w) as (err & E & S & P).
    specialize (P Hconn). subst err.
    split; [reflexivity|]. split; [exact E|].
    unfold update_resume, try_except_sqlite, bind.
    rewrite (item_found _ _ _ _ Hn), (item_found _ _ _ _ He),
      (item_found _ _ _ _ Hg), (item_found _ _ _ _ Hc),
      (item_found _ _ _ _ Hr), (item_found _ _ _ _ Hcd),
      (item_found _ _ _ _ Hte), (item_found _ _ _ _ Hm),
      (item_found _ _ _ _ Hca).
    rewrite E. reflexivity.
Qed.

End PersistenceFacts.

(** ** The examples of the specification, evaluated *)

Example parse_date_examples (now : datetime) :
  Duration.parse_date now (Some "Mar 2019") = Some {| year := 2019; month := 3; day := 1 |}
  /\ Duration.parse_date now (Some "March 2019") = Some {| year := 2019; month := 3; day := 1 |}
  /\ Duration.parse_date now (Some "2019") = Some {| year := 2019; month := 1; day := 1 |}
  /\ Duration.parse_date now (Some "March. 2018") = Some {| year := 2018; month := 3; day := 1 |}
  /\ Duration.parse_date now (Some "since sept2019") = Some {| year := 2019; month := 9; day := 1 |}
  /\ Duration.parse_date now (Some "31 Feb 2019") = Some {| year := 2019; month := 2; day := 1 |}
  /\ Duration.parse_date now (Some "Running") = Some now
  /\ Duration.parse_date now (Some "soon") = None.
Proof. repeat split. Qed.

Example split_range_examples (now : datetime) :
  Duration.start_token "Jan 2019 – Present" = "Jan 2019"
  /\ Duration.end_token "Jan 2019 – Present" = Some "Present"
  /\ Duration.Calculated_Duration now "Jan 2019 – Present"
     = ((year now - 2019) * 12 + (month now - 1))%Z
  /\ Duration.start_token "2020-2022" = "2020"
  /\ Duration.end_token "2020-2022" = Some "2022"
  /\ Duration.Calculated_Duration now "2020-2022" = 24%Z
  /\ Duration.start_token "2018 - 2019 - 2021" = "2018"
  /\ Duration.end_token "2018 - 2019 - 2021" = Some "2021"
  /\ PyStr.split "–" "a–b––c–" = ["a"; "b"; ""; "c"; ""].
Proof. repeat split. Qed.

(** The mobile of a row is compared with the keys as text: the integer 123
    meets the key ['123'] of an earlier day and is skipped, and on an empty
    table it is stored as the text. *)
Example integer_mobile_is_compared_as_text :
  Database.insert_resume_data sample_now
    (("Mobile", Database.VInt 123) :: sample_row)
    {| Database.conn :=
         Some [stored_record "2026-11-03"
                 (Database.VText "Asha Rao") (Database.VText "123")
                 Database.VNull Database.VNull Database.VNull Database.VNull
                 (Database.VInt 6) (Database.VInt 6)];
       Database.stdout := [] |}
  = ({| Database.conn :=
          Some [stored_record "2026-11-03"
                  (Database.VText "Asha Rao") (Database.VText "123")
                  Database.VNull Database.VNull Database.VNull Database.VNull
                  (Database.VInt 6) (Database.VInt 6)];
        Database.stdout := [Database.SkippingInsertion (Database.VInt 123)] |},
     Database.Ok false)
  /\ Database.mobile
       (hd (sample_record "")
          (stored (fst (Database.insert_resume_data sample_now
                          (("Mobile", Database.VInt 123) :: sample_row)
                          {| Database.conn := Some []; Database.stdout := [] |}))))
     = Database.VText "123".
Proof. split; vm_compute; reflexivity. Qed.

(** White space beyond the ASCII range is trimmed as well: a no-break
    space (U+00A0) before the en-dash and an ideographic space (U+3000)
    behind the end. *)
Example split_range_trims_unicode_space :
  Duration.start_token ("2019" ++ PyStr.bytes [194; 160] ++ "– 2021" ++ PyStr.bytes [227; 128; 128])
  = "2019"
  /\ Duration.end_token ("2019" ++ PyStr.bytes [194; 160] ++ "– 2021" ++ PyStr.bytes [227; 128; 128])
     = Some "2021".
Proof. split; vm_compute; reflexivity. Qed.

(** ** Counterexamples to the claims as the specification words them *)

(** Against C2 as stated: an entry of [Work Experiences] that is text makes
    the flattener raise; the row of the entry before it is kept, the entry
    behind it is not read. *)
Lemma flatten_raises_on_text_entry :
  ResumeProcessor.flatten (fun _ => "")
    [("Name", JStr "Asha");
     ("Work Experiences",
      JList [JDict [("Company", JStr "Acme")];
             JStr "Initech, 2019-2021";
             JDict [("Company", JStr "Globex")]])]
    []
  = ([ {| ResumeProcessor.Name := JStr "Asha";
          ResumeProcessor.Mobile := JStr "";
          ResumeProcessor.Email := JStr "";
          ResumeProcessor.Graduation := "";
          ResumeProcessor.Company := JStr "Acme";
          ResumeProcessor.Role := JStr "";
          ResumeProcessor.Duration := JStr "" |} ],
     Some (AttributeError "'str' object has no attribute 'get'")).
Proof. reflexivity. Qed.

(** Against C5 as stated: the hyphen that ends the Institution is removed
    with the separator, so the text is not the two parts joined. *)
Lemma graduation_str_strips_part :
  ResumeProcessor.graduation_str (fun _ => "")
    [("Graduation",
      JDict [("Degree", JStr "B.Tech"); ("Institution", JStr "IIT Delhi, 2019 -")])]
  = "B.Tech - IIT Delhi, 2019"
  /\ ResumeProcessor.graduation_str (fun _ => "")
       [("Graduation",
         JDict [("Degree", JStr "B.Tech"); ("Institution", JStr "IIT Delhi, 2019 -")])]
     <> join_nonempty "B.Tech" "IIT Delhi, 2019 -".
Proof. split; [reflexivity|discriminate]. Qed.

(** ** The theorems at concrete inputs *)

Lemma flatten_row_count_witness :
  well_formed
    [("Name", JStr "Asha"); ("Mobile", JStr "987-654-3210");
     ("Work Experiences",
      JList [JDict [("Company", JStr "Acme"); ("Duration", JStr "Jan 2019 – Present")];
             JDict [("Company", JStr "Globex"); ("Role", JStr "Engineer")]])]
  /\ exists rows,
       ResumeProcessor.flatten (fun _ => "")
         [("Name", JStr "Asha"); ("Mobile", JStr "987-654-3210");
          ("Work Experiences",
           JList [JDict [("Company", JStr "Acme"); ("Duration", JStr "Jan 2019 – Present")];
                  JDict [("Company", JStr "Globex"); ("Role", JStr "Engineer")]])]
         []
       = ([] ++ rows, None)
       /\ List.length rows = 2%nat.
Proof.
  assert (W : well_formed
    [("Name", JStr "Asha"); ("Mobile", JStr "987-654-3210");
     ("Work Experiences",
      JList [JDict [("Company", JStr "Acme"); ("Duration", JStr "Jan 2019 – Present")];
             JDict [("Company", JStr "Globex"); ("Role", JStr "Engineer")]])]).
  { simpl. repeat constructor. }
  split; [exact W|].
  destruct (flatten_row_count (fun _ => "") _ [] W) as (rows & E & _ & L & _).
  exists rows. split; [exact E|]. apply L. discriminate.
Defined.

Lemma flatten_raises_unless_objects_witness :
  ResumeProcessor.endswith (PyStr.lower "CV_01.JSON") ".json"
    || ResumeProcessor.endswith (PyStr.lower "CV_01.JSON") ".jsonl" = true
  /\ PyStr.strip " {} " <> ""
  /\ ResumeProcessor.process_file (fun _ => "")
       (fun _ => inr (JDict [("Work Experiences", JInt 3)]))
       ([], []) ("CV_01.JSON", " {} ")
     = ([], [ {| ResumeProcessor.filename := "CV_01.JSON";
                 ResumeProcessor.error_type := "TypeError";
                 ResumeProcessor.error_message := "'int' object is not iterable" |} ]).
Proof.
  assert (N : PyStr.strip " {} " <> "") by (vm_compute; discriminate).
  split; [reflexivity|]. split; [exact N|].
  exact (proj2 (proj2 (proj2 (flatten_raises_unless_objects (fun _ => "")
                         (fun _ => inr (JDict [("Work Experiences", JInt 3)]))
                         [("Work Experiences", JInt 3)] [])))
           "CV_01.JSON" " {} " [] eq_refl N eq_refl).
Defined.

Lemma graduation_str_clean_parts_witness :
  clean "B.Sc" /\ clean ""
  /\ ResumeProcessor.graduation_str (fun _ => "")
       [("Graduation", JDict [("Degree", JStr "B.Sc")])]
     = "B.Sc".
Proof.
  assert (Hd : clean "B.Sc") by (split; reflexivity).
  assert (Hi : clean "") by (split; reflexivity).
  split; [exact Hd|]. split; [exact Hi|].
  exact (proj1 (proj2 (graduation_str_clean_parts (fun _ => "")
                         [("Graduation", JDict [("Degree", JStr "B.Sc")])]))
           Hd Hi).
Defined.

Lemma split_range_tokens_witness :
  PyStr.contains "–" "Jan 2019 – Present" = true
  /\ (exists a b a' b' s e,
        "Jan 2019 – Present" = (a ++ "–" ++ b)%string
        /\ PyStr.contains "–" a = false
        /\ "Jan 2019 – Present" = (a' ++ "–" ++ b')%string
        /\ PyStr.contains "–" b' = false
        /\ Duration.start_token "Jan 2019 – Present" = s /\ trimmed a s
        /\ Duration.end_token "Jan 2019 – Present" = Some e /\ trimmed b' e)
  /\ PyStr.contains "–" "2020-2022" = false
  /\ PyStr.contains "-" "2020-2022" = true
  /\ (exists a b a' b' s e,
        "2020-2022" = (a ++ "-" ++ b)%string
        /\ PyStr.contains "-" a = false
        /\ "2020-2022" = (a' ++ "-" ++ b')%string
        /\ PyStr.contains "-" b' = false
        /\ Duration.start_token "2020-2022" = s /\ trimmed a s
        /\ Duration.end_token "2020-2022" = Some e /\ trimmed b' e)
  /\ PyStr.contains "-" "March 2021" = false
  /\ Duration.start_token "March 2021" = "March 2021"
  /\ Duration.end_token "March 2021" = None.
Proof.
  split; [reflexivity|].
  split; [exact (proj1 (split_range_tokens "Jan 2019 – Present") eq_refl)|].
  split; [reflexivity|]. split; [reflexivity|].
  split; [exact (proj1 (proj2 (split_range_tokens "2020-2022")) eq_refl eq_refl)|].
  split; [reflexivity|].
  exact (proj2 (proj2 (split_range_tokens "March 2021")) eq_refl eq_refl).
Defined.

Lemma parse_date_literal_tokens_witness :
  In (PyStr.lower (PyStr.strip "  Present ")) ["present"; "running"; "current"]
  /\ Duration.parse_date {| year := 2026; month := 11; day := 4 |} (Some "  Present ")
     = Some {| year := 2026; month := 11; day := 4 |}.
Proof.
  split; [left; reflexivity|].
  apply (proj1 (parse_date_literal_tokens {| year := 2026; month := 11; day := 4 |})).
  left. reflexivity.
Defined.


(** Inside a range written with an en-dash, a hyphenated date is one token. *)
Example en_dash_range_of_hyphenated_dates :
  PyStr.contains "–" "03-2019 – 05-2020" = true
  /\ Duration.Start_Date sample_now "03-2019 – 05-2020"
     = Some {| year := 2019; month := 3; day := 1 |}
  /\ Duration.End_Date sample_now "03-2019 – 05-2020"
     = Some {| year := 2020; month := 5; day := 1 |}.
Proof. repeat split. Qed.


Lemma update_resume_changes_nothing_witness :
  Database.lookup_label (sample_row ++ [("created_at", Database.VText "2026-11-03")])
    "created_at" = Some (Database.VText "2026-11-03")
  /\ Database.update_resume
       (sample_row ++ [("created_at", Database.VText "2026-11-03")])
       {| Database.conn := Some [sample_record "2026-11-03"]; Database.stdout := [] |}
     = ({| Database.conn := Some [sample_record "2026-11-03"];
           Database.stdout :=
             [Database.ErrorUpdatingResume
                (Database.ProgrammingError "Incorrect number of bindings supplied.")] |},
        Database.Ok tt).
Proof.
  split; [reflexivity|].
  assert (C : Database.conn
                {| Database.conn := Some [sample_record "2026-11-03"];
                   Database.stdout := [] |} <> None) by discriminate.
  exact (proj2 (proj2 (proj2 (proj2 (update_resume_changes_nothing
           (sample_row ++ [("created_at", Database.VText "2026-11-03")])
           {| Database.conn := Some [sample_record "2026-11-03"];
              Database.stdout := [] |}))
           _ _ _ _ _ _ _ _ _
           eq_refl eq_refl eq_refl eq_refl eq_refl eq_refl eq_refl eq_refl eq_refl C))).
Defined.

(** * Properties beyond the claims *)

(** ** Stripping, again *)

Lemma lstrip_by_idempotent (p : ascii -> bool) (s : string) :
  PyStr.lstrip_by p (PyStr.lstrip_by p s) = PyStr.lstrip_by p s.
Proof.
  induction s as [|c s IH]; [reflexivity|].
  simpl. destruct (p c) eqn:E; [exact IH|]. simpl. now rewrite E.
Qed.

Lemma rstrip_by_cons (p : ascii -> bool) (c : ascii) (t : string) :
  PyStr.rstrip_by p (String c t)
  = match PyStr.rstrip_by p t with
    | EmptyString => if p c then EmptyString else String c EmptyString
    | r => String c r
    end.
Proof. reflexivity. Qed.

Lemma rstrip_by_idempotent (p : ascii -> bool) (s : string) :
  PyStr.rstrip_by p (PyStr.rstrip_by p s) = PyStr.rstrip_by p s.
Proof.
  induction s as [|c s IH]; [reflexivity|].
  rewrite rstrip_by_cons. destruct (PyStr.rstrip_by p s) as [|d r] eqn:E.
  - destruct (p c) eqn:P; [reflexivity|]. simpl. now rewrite P.
  - rewrite rstrip_by_cons, IH. reflexivity.
Qed.

Lemma lstrip_by_rstrip_by (p : ascii -> bool) (t : string) :
  PyStr.lstrip_by p t = t ->
  PyStr.lstrip_by p (PyStr.rstrip_by p t) = PyStr.rstrip_by p t.
Proof.
  destruct t as [|c t]; [reflexivity|].
  intro H. apply lstrip_by_fixed_head in H.
  rewrite rstrip_by_cons. destruct (PyStr.rstrip_by p t); rewrite ?H; simpl;
    now rewrite H.
Qed.

Lemma strip_by_fixed (p : ascii -> bool) (s : string) :
  PyStr.lstrip_by p (PyStr.strip_by p s) = PyStr.strip_by p s
  /\ PyStr.rstrip_by p (PyStr.strip_by p s) = PyStr.strip_by p s.
Proof.
  unfold PyStr.strip_by. split.
  - apply lstrip_by_rstrip_by, lstrip_by_idempotent.
  - apply rstrip_by_idempotent.
Qed.

(** ** The flattener *)

Section FlattenerMore.

Import ResumeProcessor.

Variable py_format : json -> string.
Variable json_loads : string -> string + json.

(** X1.  For a list of objects, the rows follow the entries in their
    order: row i has the Company, Role and Duration of entry i, the empty
    text standing for an absent field, next to the identity fields of the
    record. *)
Theorem flatten_rows_follow_entries (resume_data : dict) (entries : list dict)
  (all_resumes : list resume_row) :
  entries <> [] ->
  lookup "Work Experiences" resume_data = Some (JList (map JDict entries)) ->
  flatten py_format resume_data all_resumes
  = (all_resumes
     ++ map (fun e =>
               {| Name := get resume_data "Name" (JStr "");
                  Mobile := get resume_data "Mobile" (JStr "");
                  Email := get resume_data "Email" (JStr "");
                  Graduation := graduation_str py_format resume_data;
                  Company := get e "Company" (JStr "");
                  Role := get e "Role" (JStr "");
                  Duration := get e "Duration" (JStr "") |})
            entries,
     None).
Proof.
  intros N L. unfold flatten, get. rewrite L.
  destruct entries as [|e0 entries]; [congruence|]. clear N L.
  change (truthy (JList (map JDict (e0 :: entries)))) with true. cbv iota.
  change (py_iter (JList (map JDict (e0 :: entries))))
    with (@inr exn _ (map JDict (e0 :: entries))).
  cbv iota. generalize (e0 :: entries) as l. clear e0 entries.
  intro l. revert all_resumes.
  induction l as [|e l IH]; intro all_resumes.
  - simpl. now rewrite app_nil_r.
  - cbn [map experience_loop]. rewrite IH, <- app_assoc. reflexivity.
Qed.

(** X2.  The Graduation text of a row never begins or ends with a space or
    a hyphen, whatever the record holds. *)
Theorem graduation_str_is_stripped (resume_data : dict) :
  clean (graduation_str py_format resume_data).
Proof.
  unfold graduation_str, PyStr.strip_chars, clean.
  apply (strip_by_fixed separator_char).
Qed.

Lemma py_iter_truthy (v : json) (l : list json) :
  truthy v = true -> py_iter v = inr l -> l <> [].
Proof.
  destruct v as [| b | z | s | l' | d]; simpl; try discriminate.
  - destruct s; [discriminate|]. intros _ H. inversion H. discriminate.
  - destruct l'; [discriminate|]. intros _ H. inversion H. discriminate.
  - destruct d; [discriminate|]. intros _ H. inversion H. discriminate.
Qed.

Lemma flatten_raises_rows (resume_data : dict) (all_resumes : list resume_row) :
  exists rows,
    fst (flatten py_format resume_data all_resumes) = all_resumes ++ rows
    /\ (snd (flatten py_format resume_data all_resumes) = None -> rows <> []).
Proof.
  unfold flatten.
  destruct (truthy (get resume_data "Work Experiences" JNull)) eqn:T.
  - destruct (py_iter (get resume_data "Work Experiences" JNull))
      as [e|experiences] eqn:I.
    + exists []. simpl. rewrite app_nil_r. split; [reflexivity|discriminate].
    + destruct (experience_loop_rows py_format resume_data experiences all_resumes)
        as (rows & E & _ & Hok & Hbad).
      exists rows. split; [exact E|]. intro S.
      destruct (forallb is_dict experiences) eqn:F.
      * destruct (Hok eq_refl) as [_ Len].
        pose proof (py_iter_truthy _ _ T I) as NE.
        destruct rows; [|discriminate].
        destruct experiences; [congruence|discriminate].
      * now destruct (Hbad eq_refl).
  - eexists. split; [reflexivity|]. discriminate.
Qed.

Lemma process_file_step (st : list resume_row * list error_entry)
  (file : string * string) :
  let json_name :=
    endswith (PyStr.lower (fst file)) ".json"
    || endswith (PyStr.lower (fst file)) ".jsonl" in
  exists rows entries,
    process_file py_format json_loads st file = (fst st ++ rows, snd st ++ entries)
    /\ Forall (fun e => filename e = fst file) entries
    /\ (json_name = false -> rows = [] /\ entries = [])
    /\ (json_name = true ->
        (entries = [] /\ rows <> []) \/ List.length entries = 1%nat).
Proof.
  destruct st as [all_resumes error_log]. destruct file as [fname text].
  cbn [fst snd]. cbv zeta. unfold process_file.
  destruct (endswith (PyStr.lower fname) ".json"
            || endswith (PyStr.lower fname) ".jsonl").
  - destruct (String.eqb (PyStr.strip text) "").
    + exists [], [ {| filename := fname; error_type := "Empty File";
                      error_message := "JSON file is empty" |} ].
      rewrite app_nil_r. repeat split; try discriminate.
      * repeat constructor.
      * now right.
    + destruct (json_loads (PyStr.strip text)) as [msg|v].
      * eexists [], [_]. rewrite app_nil_r. repeat split; try discriminate.
        -- repeat constructor.
        -- now right.
      * destruct v as [| b | z | s | l | resume_data];
          try (eexists [], [_]; rewrite app_nil_r; repeat split;
               try discriminate; [repeat constructor | now right]).
        destruct (flatten_raises_rows resume_data all_resumes) as (rows & E & O).
        rewrite (surjective_pairing (flatten _ _ _)), E.
        destruct (snd (flatten py_format resume_data all_resumes)) as [e|].
        -- eexists rows, [_]. repeat split; try discriminate.
           ++ repeat constructor.
           ++ now right.
        -- exists rows, []. rewrite app_nil_r. repeat split; try discriminate.
           ++ constructor.
           ++ intros _. left. split; [reflexivity|]. now apply O.
  - exists [], []. rewrite !app_nil_r.
    split; [reflexivity|]. split; [constructor|]. split; [now split|discriminate].
Qed.

(** X3.  One file of the folder never removes a row or a log entry, and a
    file whose name does not end in .json or .jsonl changes nothing.  A
    file with such a name is accounted for: it adds exactly one log entry,
    under its own name, or it adds at least one row and no log entry. *)
Theorem process_file_accounts_for_file (st : list resume_row * list error_entry)
  (file : string * string) :
  exists rows entries,
    process_file py_format json_loads st file = (fst st ++ rows, snd st ++ entries)
    /\ Forall (fun e => filename e = fst file) entries
    /\ (endswith (PyStr.lower (fst file)) ".json"
          || endswith (PyStr.lower (fst file)) ".jsonl" = false ->
        rows = [] /\ entries = [])
    /\ (endswith (PyStr.lower (fst file)) ".json"
          || endswith (PyStr.lower (fst file)) ".jsonl" = true ->
        (entries = [] /\ rows <> []) \/ List.length entries = 1%nat).
Proof. exact (process_file_step st file). Qed.

Lemma fold_process_file (folder : list (string * string)) :
  forall st,
  exists rows entries,
    fold_left (process_file py_format json_loads) folder st
    = (fst st ++ rows, snd st ++ entries)
    /\ Forall (fun e => exists file, In file folder /\ filename e = fst file) entries
    /\ (List.length entries
        <= List.length
             (List.filter
                (fun file => endswith (PyStr.lower (fst file)) ".json"
                             || endswith (PyStr.lower (fst file)) ".jsonl")
                folder)
        <= List.length entries + List.length rows)%nat.
Proof.
  induction folder as [|file folder IH]; intro st.
  - exists [], []. simpl. rewrite !app_nil_r.
    split; [now destruct st|]. split; [constructor|lia].
  - cbn [fold_left].
    destruct (process_file_step st file) as (rows1 & entries1 & E1 & F1 & Hno & Hyes).
    rewrite E1.
    destruct (IH (fst st ++ rows1, snd st ++ entries1))
      as (rows2 & entries2 & E2 & F2 & B2).
    cbn [fst snd] in E2.
    exists (rows1 ++ rows2), (entries1 ++ entries2).
    rewrite E2, !app_assoc. split; [reflexivity|]. split.
    + apply Forall_app. split.
      * eapply Forall_impl; [|exact F1]. intros e He.
        exists file. split; [now left|exact He].
      * eapply Forall_impl; [|exact F2]. intros e (f & Hin & He).
        exists f. split; [now right|exact He].
    + cbn [List.filter]. rewrite !length_app.
      destruct (endswith (PyStr.lower (fst file)) ".json"
                || endswith (PyStr.lower (fst file)) ".jsonl") eqn:J.
      * cbn [List.length].
        destruct (Hyes eq_refl) as [[-> NE]| L1].
        -- destruct rows1; [congruence|]. simpl. lia.
        -- lia.
      * destruct (Hno eq_refl) as [-> ->]. simpl. lia.
Qed.

(** X4.  In a batch, every file whose name ends in .json or .jsonl is
    accounted for by a log entry or by rows: the log has at most one entry
    per such file, each under the name of a file of the folder, and the
    entries and rows together are at least as many as these files. *)
Theorem batch_accounts_for_every_file (folder : list (string * string)) :
  let out := process_resume_json_files py_format json_loads folder in
  let json_files :=
    List.filter (fun file => endswith (PyStr.lower (fst file)) ".json"
                             || endswith (PyStr.lower (fst file)) ".jsonl")
                folder in
  Forall (fun e => exists file, In file folder /\ filename e = fst file) (snd out)
  /\ (List.length (snd out) <= List.length json_files
      <= List.length (snd out) + List.length (fst out))%nat.
Proof.
  intros out json_files. subst out. unfold process_resume_json_files.
  destruct (fold_process_file folder ([], [])) as (rows & entries & E & F & B).
  rewrite E. cbn [fst snd app]. split; [exact F|exact B].
Qed.

(** X5.  The rows and the log of a batch only grow with the folder: what
    the first files gave stays, in its order, in front of what the later
    files add. *)
Theorem batch_is_monotone (folder more : list (string * string)) :
  exists rows entries,
    process_resume_json_files py_format json_loads (folder ++ more)
    = (fst (process_resume_json_files py_format json_loads folder) ++ rows,
       snd (process_resume_json_files py_format json_loads folder) ++ entries).
Proof.
  unfold process_resume_json_files. rewrite fold_left_app.
  destruct (fold_process_file more
              (fold_left (process_file py_format json_loads) folder ([], [])))
    as (rows & entries & E & _).
  now exists rows, entries.
Qed.

End FlattenerMore.

(** ** [clean_json_files] *)

Section CleanJsonFacts.

Import CleanJson.

Lemma mem_char_app (c : ascii) (a b : string) :
  PyStr.mem_char c (a ++ b) = PyStr.mem_char c a || PyStr.mem_char c b.
Proof.
  induction a as [|d a IH]; [reflexivity|].
  simpl. now rewrite IH, orb_assoc.
Qed.

Lemma writelines_app (l1 l2 : list string) :
  writelines (l1 ++ l2) = (writelines l1 ++ writelines l2)%string.
Proof.
  induction l1 as [|l l1 IH]; [reflexivity|].
  simpl. now rewrite IH, append_assoc.
Qed.

Lemma writelines_readlines_from (s : string) :
  forall cur, writelines (readlines_from cur s) = (cur ++ s)%string.
Proof.
  induction s as [|c s IH]; intro cur; cbn [readlines_from].
  - destruct (String.eqb_spec cur "") as [->|_]; [reflexivity|].
    simpl. reflexivity.
  - destruct (Ascii.eqb c LF).
    + cbn [writelines]. rewrite IH, append_assoc. reflexivity.
    + rewrite IH, append_assoc. reflexivity.
Qed.

Lemma readlines_from_complete (s : string) :
  forall cur, PyStr.mem_char LF cur = false ->
  Forall complete (removelast (readlines_from cur s)).
Proof.
  induction s as [|c s IH]; intros cur H; cbn [readlines_from].
  - destruct (String.eqb cur ""); constructor.
  - destruct (Ascii.eqb_spec c LF) as [->|N].
    + specialize (IH EmptyString eq_refl).
      destruct (readlines_from "" s) as [|x R] eqn:E; [constructor|].
      change (removelast ((cur ++ String LF "")%string :: x :: R))
        with ((cur ++ String LF "")%string :: removelast (x :: R)).
      constructor; [|exact IH]. now exists cur.
    + apply IH. rewrite mem_char_app, H. cbn [PyStr.mem_char orb].
      rewrite orb_false_r. apply Ascii.eqb_neq. congruence.
Qed.

Lemma readlines_from_line (b s : string) :
  PyStr.mem_char LF b = false ->
  forall cur,
    readlines_from cur (b ++ String LF s)
    = (cur ++ b ++ String LF "")%string :: readlines_from "" s.
Proof.
  induction b as [|c b IH]; intros H cur.
  - cbn [append readlines_from]. now rewrite Ascii.eqb_refl.
  - cbn [PyStr.mem_char] in H. apply orb_false_iff in H. destruct H as [Hc Hb].
    change (String c b ++ String LF s)%string with (String c (b ++ String LF s)).
    cbn [readlines_from]. rewrite Ascii.eqb_sym, Hc.
    rewrite (IH Hb), append_assoc. reflexivity.
Qed.

Lemma readlines_writelines (ls : list string) :
  Forall complete ls -> readlines (writelines ls) = ls.
Proof.
  induction 1 as [|l ls (b & -> & Hb) _ IH]; [reflexivity|].
  unfold readlines in *. cbn [writelines].
  rewrite append_assoc. change (String LF "" ++ writelines ls)%string
    with (String LF (writelines ls)).
  rewrite (readlines_from_line b _ Hb). now rewrite IH.
Qed.

Lemma in_removelast_tl {A : Type} (x : A) (l : list A) :
  In x (removelast (tl l)) -> In x (removelast l).
Proof.
  destruct l as [|a l]; [tauto|]. cbn [tl].
  destruct l as [|b l]; [tauto|].
  intro H. change (removelast (a :: b :: l)) with (a :: removelast (b :: l)).
  now right.
Qed.

(** X6.  On a text of more than two lines, [clean_json_files] removes
    exactly the first and the last line: the text is the first line, the new
    text and the last line, and the lines of the new text are the old lines
    in between.  A text of at most two lines is left as it is. *)
Theorem clean_text_removes_first_and_last_line (text : string) :
  ((2 < List.length (readlines text))%nat ->
   exists first last,
     text = (first ++ clean_text text ++ last)%string
     /\ readlines text = first :: readlines (clean_text text) ++ [last])
  /\ ((List.length (readlines text) <= 2)%nat -> clean_text text = text).
Proof.
  unfold clean_text. split.
  - intro L. apply Nat.ltb_lt in L. rewrite L.
    pose proof (writelines_readlines_from text EmptyString) as W.
    fold (readlines text) in W. cbn [append] in W.
    assert (C : Forall complete (inner_lines (readlines text))).
    { apply Forall_forall. intros x Hx.
      pose proof (readlines_from_complete text EmptyString eq_refl) as F.
      rewrite Forall_forall in F. apply F. now apply in_removelast_tl. }
    apply Nat.ltb_lt in L.
    destruct (readlines text) as [|first rest] eqn:E; [simpl in L; lia|].
    assert (NE : rest <> []) by (destruct rest; [simpl in L; lia|discriminate]).
    pose proof (app_removelast_last EmptyString NE) as D.
    exists first, (List.last rest EmptyString).
    unfold inner_lines in *. cbn [tl] in *.
    rewrite (readlines_writelines _ C). split.
    + rewrite <- W. cbn [writelines]. f_equal.
      rewrite D at 1. rewrite writelines_app. cbn [writelines].
      now rewrite append_nil_r.
    + now rewrite <- D.
  - intro L. apply Nat.ltb_ge in L. now rewrite L.
Qed.

End CleanJsonFacts.

(** ** The date-token parser, again *)

Lemma make_datetime_valid (y m d : Z) (dt : datetime) :
  Strptime.make_datetime y m d = Some dt -> valid_date dt.
Proof.
  unfold Strptime.make_datetime, valid_date.
  destruct ((1 <=? y) && (y <=? 9999) && (1 <=? m) && (m <=? 12)
            && (1 <=? d) && (d <=? Strptime.days_in_month y m))%Z eqn:E;
    [|discriminate].
  intro H. inversion H; subst; clear H. cbn [year month day].
  repeat (apply andb_true_iff in E; destruct E as [E ?]).
  repeat match goal with
         | H : (_ <=? _)%Z = true |- _ => apply Z.leb_le in H
         end.
  lia.
Qed.

Lemma strptime_valid (data_string format : string) (dt : datetime) :
  Strptime.strptime data_string format = Some dt -> valid_date dt.
Proof.
  unfold Strptime.strptime.
  destruct (Strptime.match_items _ _ _) as [[[[y m] d] [|c r]]|];
    try discriminate.
  apply make_datetime_valid.
Qed.

Lemma try_formats_valid (date_str : string) (formats : list string) (dt : datetime) :
  Duration.try_formats date_str formats = Some dt -> valid_date dt.
Proof.
  induction formats as [|fmt formats IH]; [discriminate|].
  cbn [Duration.try_formats].
  destruct (Strptime.strptime date_str fmt) as [d|] eqn:E; [|exact IH].
  intro H. inversion H; subst. eapply strptime_valid, E.
Qed.

(** X7.  When the current date is a date of the calendar, so is every date
    that [parse_date] returns: the year is between 1 and 9999, the month
    between 1 and 12, and the day exists in that month. *)
Theorem parse_date_returns_calendar_dates (now : datetime)
  (date_str : option string) (dt : datetime) :
  valid_date now ->
  Duration.parse_date now date_str = Some dt ->
  valid_date dt.
Proof.
  intro V. unfold Duration.parse_date.
  destruct date_str as [s|]; [|discriminate].
  destruct (String.eqb s ""); [discriminate|].
  destruct (Duration.mem_string _ _).
  - intro H. now inversion H; subst.
  - destruct (Duration.try_formats _ _) as [d|] eqn:E.
    + intro H. inversion H; subst. eapply try_formats_valid, E.
    + unfold Duration.regex_fallback.
      destruct (Fallback.search _) as [[month_str year_str]|]; [|discriminate].
      apply make_datetime_valid.
Qed.

Lemma lower_char_idempotent (c : ascii) :
  PyStr.lower_char (PyStr.lower_char c) = PyStr.lower_char c.
Proof. destruct c as [[] [] [] [] [] [] [] []]; reflexivity. Qed.

Lemma lower_idempotent (s : string) : PyStr.lower (PyStr.lower s) = PyStr.lower s.
Proof.
  induction s as [|c s IH]; [reflexivity|].
  cbn [PyStr.lower]. now rewrite lower_char_idempotent, IH.
Qed.

Lemma lower_append (s t : string) :
  PyStr.lower (s ++ t) = (PyStr.lower s ++ PyStr.lower t)%string.
Proof. induction s as [|x s IH]; [reflexivity|]. simpl. now rewrite IH. Qed.

Lemma lower_append_inv (t a b : string) :
  PyStr.lower t = (a ++ b)%string ->
  exists a' b', t = (a' ++ b')%string /\ PyStr.lower a' = a /\ PyStr.lower b' = b.
Proof.
  revert t. induction a as [|x a IH]; intros t E.
  - exists EmptyString, t. now repeat split.
  - destruct t as [|y t]; [discriminate|].
    cbn [PyStr.lower append] in E. injection E as Ex E.
    destruct (IH t E) as (a' & b' & -> & <- & <-).
    exists (String y a'), b'. cbn [PyStr.lower append]. now rewrite Ex.
Qed.

Lemma lower_char_fixed (c b : ascii) :
  PyStr.lower_char c = b -> PyStr.is_lower b = false -> c = b.
Proof.
  intros <-. destruct c as [[] [] [] [] [] [] [] []]; cbn; intro H;
    first [reflexivity|discriminate H].
Qed.

Lemma lower_fixed (a w : string) :
  forallb (fun c => negb (PyStr.is_lower c)) (list_ascii_of_string w) = true ->
  PyStr.lower a = w -> a = w.
Proof.
  revert a. induction w as [|b w IH]; intros a F E.
  - now destruct a.
  - destruct a as [|c a]; [discriminate|].
    cbn [PyStr.lower] in E. injection E as Ec E.
    cbn [list_ascii_of_string forallb] in F. apply andb_true_iff in F.
    destruct F as [Fb F]. apply negb_true_iff in Fb.
    now rewrite (lower_char_fixed c b Ec Fb), (IH a F E).
Qed.

(** No byte of a white-space character is a letter. *)
Lemma whitespace_lower (a w : string) :
  In w PyStr.whitespace -> PyStr.lower a = w -> a = w.
Proof.
  intro H. apply lower_fixed.
  assert (B : forallb (fun w => forallb (fun c => negb (PyStr.is_lower c))
                                  (list_ascii_of_string w)) PyStr.whitespace = true)
    by (vm_compute; reflexivity).
  rewrite forallb_forall in B. exact (B w H).
Qed.

Lemma whitespace_lower_id (w : string) :
  In w PyStr.whitespace -> PyStr.lower w = w.
Proof.
  intro H.
  assert (B : forallb (fun w => String.eqb (PyStr.lower w) w) PyStr.whitespace = true)
    by (vm_compute; reflexivity).
  rewrite forallb_forall in B. now apply String.eqb_eq, B.
Qed.

Lemma white_lower (l : string) : white l -> PyStr.lower l = l.
Proof.
  induction 1 as [|w s H W IH]; [reflexivity|].
  now rewrite lower_append, (whitespace_lower_id w H), IH.
Qed.

Lemma tight_lower (t : string) : tight t -> tight (PyStr.lower t).
Proof.
  intros T w u H. split; intro Q;
    destruct (lower_append_inv _ _ _ Q) as (a' & b' & E & Ea & Eb).
  - rewrite (whitespace_lower a' w H Ea) in E. exact (proj1 (T w b' H) E).
  - rewrite (whitespace_lower b' w H Eb) in E. exact (proj2 (T w a' H) E).
Qed.

Lemma strip_lower (s : string) :
  PyStr.strip (PyStr.lower s) = PyStr.lower (PyStr.strip s).
Proof.
  destruct (strip_trims s) as (l & r & E & Wl & Wr & T).
  apply trimmed_strip. exists l, r.
  split; [|split; [exact Wl|split; [exact Wr|now apply tight_lower]]].
  rewrite E at 1. now rewrite !lower_append, (white_lower l Wl), (white_lower r Wr).
Qed.

(** X8.  Letter case and the white space around a token never matter to
    [parse_date]: a token and its trimmed, lower-case form are parsed
    alike. *)
Theorem parse_date_ignores_case_and_padding (now : datetime) (s : string) :
  Duration.parse_date now (Some s)
  = Duration.parse_date now (Some (PyStr.lower (PyStr.strip s))).
Proof.
  assert (F : PyStr.lower (PyStr.strip (PyStr.lower (PyStr.strip s)))
              = PyStr.lower (PyStr.strip s)).
  { now rewrite strip_lower, lower_idempotent, strip_idempotent. }
  unfold Duration.parse_date. rewrite F.
  destruct (String.eqb_spec s "") as [->|_]; [reflexivity|].
  destruct (String.eqb_spec (PyStr.lower (PyStr.strip s)) "") as [E|_];
    [|reflexivity].
  now rewrite E.
Qed.

(** X9.  The month count between two dates of the calendar is the number
    of month boundaries between them: it is 0 exactly for dates of the same
    month, positive when the end is in a later month and negative when it
    is in an earlier one; swapping the dates changes the sign, and counts
    over adjoining stints add up. *)
Theorem calculate_duration_in_months_order (now a b c : datetime) :
  (1 <= month a <= 12)%Z -> (1 <= month b <= 12)%Z ->
  let months x y := Duration.calculate_duration_in_months now (Some x) (Some y) in
  (months a b = 0%Z <-> year a = year b /\ month a = month b)
  /\ ((0 < months a b)%Z
      <-> (year a < year b \/ (year a = year b /\ month a < month b))%Z)
  /\ months b a = (- months a b)%Z
  /\ (months a b + months b c)%Z = months a c.
Proof.
  intros Ha Hb months. subst months. unfold Duration.calculate_duration_in_months.
  repeat split; try lia.
Qed.

(** ** Tokens made of digits and month names *)

Lemma digit_visible (a : ascii) : PyStr.is_digit a = true -> visible a = true.
Proof.
  destruct a as [[] [] [] [] [] [] [] []]; intro H;
    first [reflexivity|discriminate H].
Qed.

Lemma digit_not_space (a : ascii) :
  PyStr.is_digit a = true -> PyStr.is_space a = false.
Proof. destruct a as [[] [] [] [] [] [] [] []]; (discriminate || reflexivity). Qed.

Lemma digit_lower_char (a : ascii) :
  PyStr.is_digit a = true -> PyStr.lower_char a = a.
Proof. destruct a as [[] [] [] [] [] [] [] []]; (discriminate || reflexivity). Qed.

Lemma is_digit_lower_char (c : ascii) :
  PyStr.is_digit (PyStr.lower_char c) = PyStr.is_digit c.
Proof. destruct c as [[] [] [] [] [] [] [] []]; reflexivity. Qed.

Lemma digit_value_range (a : ascii) :
  PyStr.is_digit a = true -> (0 <= Strptime.digit_value a <= 9)%Z.
Proof.
  unfold PyStr.is_digit, Strptime.digit_value. intro H.
  apply andb_true_iff in H. destruct H as [H1 H2].
  apply Nat.leb_le in H1, H2. lia.
Qed.

Lemma digit_neq (a c : ascii) :
  PyStr.is_digit a = true -> PyStr.is_digit c = false -> Ascii.eqb a c = false.
Proof.
  intros Ha Hc. apply Ascii.eqb_neq. intros ->. congruence.
Qed.

Lemma digit_neq_lower (a c : ascii) :
  PyStr.is_digit a = true -> PyStr.is_digit c = false ->
  Ascii.eqb (PyStr.lower_char a) (PyStr.lower_char c) = false.
Proof.
  intros Ha Hc. rewrite (digit_lower_char a Ha).
  apply digit_neq; [exact Ha|]. now rewrite is_digit_lower_char.
Qed.

Lemma make_datetime_first_day (y m : Z) :
  (1 <= y <= 9999)%Z -> (1 <= m <= 12)%Z ->
  Strptime.make_datetime y m 1 = Some {| year := y; month := m; day := 1 |}.
Proof.
  intros Hy Hm. unfold Strptime.make_datetime.
  assert (D : (1 <= Strptime.days_in_month y m)%Z).
  { unfold Strptime.days_in_month.
    destruct (m =? 2)%Z; [destruct (Strptime.is_leap y); lia|].
    destruct ((m =? 4) || (m =? 6) || (m =? 9) || (m =? 11))%Z; lia. }
  replace (1 <=? y)%Z with true by (symmetry; apply Z.leb_le; lia).
  replace (y <=? 9999)%Z with true by (symmetry; apply Z.leb_le; lia).
  replace (1 <=? m)%Z with true by (symmetry; apply Z.leb_le; lia).
  replace (m <=? 12)%Z with true by (symmetry; apply Z.leb_le; lia).
  replace (1 <=? Strptime.days_in_month y m)%Z with true
    by (symmetry; apply Z.leb_le; lia).
  reflexivity.
Qed.

Section YearText.

(** A text of four digits. *)
Variables a b c d : ascii.
Hypothesis Ha : PyStr.is_digit a = true.
Hypothesis Hb : PyStr.is_digit b = true.
Hypothesis Hc : PyStr.is_digit c = true.
Hypothesis Hd : PyStr.is_digit d = true.

Lemma year_text_range : (0 <= Strptime.int_of (year_text a b c d) <= 9999)%Z.
Proof.
  unfold year_text, Strptime.int_of. cbn [Strptime.int_acc].
  pose proof (digit_value_range a Ha). pose proof (digit_value_range b Hb).
  pose proof (digit_value_range c Hc). pose proof (digit_value_range d Hd).
  lia.
Qed.

Lemma year_text_number :
  Strptime.year_number (year_text a b c d) = [(Strptime.int_of (year_text a b c d), EmptyString)].
Proof. unfold year_text, Strptime.year_number. now rewrite Ha, Hb, Hc, Hd. Qed.

Lemma year_text_tight : tight (year_text a b c d).
Proof.
  apply (tight_visible_ends _ (String b (String c (String d "")))
           (String a (String b (String c ""))) a d);
    try reflexivity; now apply digit_visible.
Qed.

Lemma year_text_strip : PyStr.strip (year_text a b c d) = (year_text a b c d).
Proof. apply strip_tight, year_text_tight. Qed.

Lemma year_text_lower : PyStr.lower (year_text a b c d) = (year_text a b c d).
Proof.
  unfold year_text. cbn [PyStr.lower].
  now rewrite (digit_lower_char a Ha), (digit_lower_char b Hb),
    (digit_lower_char c Hc), (digit_lower_char d Hd).
Qed.

Lemma year_text_no_hyphen : PyStr.contains "-" (year_text a b c d) = false.
Proof.
  unfold year_text. rewrite !contains_hyphen_cons.
  rewrite (digit_neq a "-" Ha eq_refl), (digit_neq b "-" Hb eq_refl),
    (digit_neq c "-" Hc eq_refl), (digit_neq d "-" Hd eq_refl).
  reflexivity.
Qed.

(** Behind a month name and white space, the year ends the match. *)
Lemma space_then_year (f : Strptime.fields) :
  Strptime.match_items [Strptime.I_space; Strptime.I_Y] f (String " " (year_text a b c d))
  = Some (Strptime.set_year f (Strptime.int_of (year_text a b c d)), EmptyString).
Proof.
  rewrite match_items_cons.
  assert (S : Strptime.candidates Strptime.I_space f (String " " (year_text a b c d))
              = [(f, (year_text a b c d))]).
  { cbn [Strptime.candidates]. unfold year_text at 1.
    change (Strptime.spaces (String " " (String a (String b (String c (String d ""))))))
      with (Strptime.spaces (String a (String b (String c (String d ""))))
            ++ [String a (String b (String c (String d "")))]).
    cbn [Strptime.spaces]. now rewrite (digit_not_space a Ha). }
  rewrite S. cbn [Strptime.first_some].
  rewrite match_items_cons. cbn [Strptime.candidates].
  rewrite year_text_number. reflexivity.
Qed.

End YearText.

Lemma try_formats_skip (s : string) (failing rest : list string) :
  Forall (fun fmt => Strptime.strptime s fmt = None) failing ->
  Duration.try_formats s (failing ++ rest) = Duration.try_formats s rest.
Proof.
  induction 1 as [|fmt failing E _ IH]; [reflexivity|].
  cbn [app Duration.try_formats]. now rewrite E.
Qed.

Lemma month_name_digit (a : ascii) (r : string) :
  PyStr.is_digit a = true ->
  Strptime.month_name Strptime.month_abbr 1 (String a r) = []
  /\ Strptime.month_name Strptime.month_full 1 (String a r) = [].
Proof.
  destruct a as [[] [] [] [] [] [] [] []]; try discriminate; intros _;
    split; reflexivity.
Qed.

Lemma day_number_digits (a b c d : ascii) (k : Z) (r : string) :
  PyStr.is_digit a = true ->
  In (k, r) (Strptime.day_number (year_text a b c d)) ->
  r = String c (String d "") \/ r = String b (String c (String d "")).
Proof.
  intros Ha. unfold Strptime.day_number. rewrite !in_app_iff.
  intros [H|[H|[H|[H|H]]]].
  - left. now apply two_rest in H.
  - left. now apply two_rest in H.
  - left. now apply two_rest in H.
  - right. now apply one_rest in H.
  - exfalso. revert H. unfold year_text.
    destruct a as [[] [] [] [] [] [] [] []]; try discriminate Ha; exact (fun H => H).
Qed.

Section BareYear.

Variables a b c d : ascii.
Hypothesis Ha : PyStr.is_digit a = true.
Hypothesis Hb : PyStr.is_digit b = true.
Hypothesis Hc : PyStr.is_digit c = true.
Hypothesis Hd : PyStr.is_digit d = true.

Lemma month_first_fails (fmt : string) (rest : list Strptime.item) :
  Strptime.compile fmt = Strptime.I_b :: rest
  \/ Strptime.compile fmt = Strptime.I_B :: rest ->
  Strptime.strptime (year_text a b c d) fmt = None.
Proof.
  destruct (month_name_digit a (String b (String c (String d ""))) Ha) as [A B].
  unfold Strptime.strptime. intros [-> | ->];
    rewrite match_items_cons; cbn [Strptime.candidates];
    fold (year_text a b c d) in A, B; rewrite ?A, ?B; reflexivity.
Qed.

Lemma day_first_fails (fmt : string) (rest : list Strptime.item) :
  Strptime.compile fmt = Strptime.I_d :: Strptime.I_space :: rest ->
  Strptime.strptime (year_text a b c d) fmt = None.
Proof.
  unfold Strptime.strptime. intros ->.
  rewrite match_items_cons, first_some_none; [reflexivity|].
  intros [f r] Hin. cbn [Strptime.candidates] in Hin.
  apply in_map_iff in Hin. destruct Hin as ([k r'] & E & Hin).
  inversion E; subst.
  rewrite match_items_cons.
  destruct (day_number_digits a b c d k r Ha Hin) as [-> | ->];
    cbn [Strptime.candidates Strptime.spaces];
    rewrite ?(digit_not_space c Hc), ?(digit_not_space b Hb); reflexivity.
Qed.

Lemma year_format_succeeds :
  (1 <= Strptime.int_of (year_text a b c d))%Z ->
  Strptime.strptime (year_text a b c d) "%Y"
  = Some {| year := Strptime.int_of (year_text a b c d); month := 1; day := 1 |}.
Proof.
  intro P. pose proof (year_text_range a b c d Ha Hb Hc Hd) as R.
  unfold Strptime.strptime.
  change (Strptime.compile "%Y") with [Strptime.I_Y].
  rewrite match_items_cons. cbn [Strptime.candidates].
  rewrite (year_text_number a b c d Ha Hb Hc Hd).
  cbn [map Strptime.first_some Strptime.match_items Strptime.set_year
       Strptime.start_fields].
  apply make_datetime_first_day; lia.
Qed.

Lemma parse_date_year_text (now : datetime) :
  (1 <= Strptime.int_of (year_text a b c d))%Z ->
  Duration.parse_date now (Some (year_text a b c d))
  = Some {| year := Strptime.int_of (year_text a b c d); month := 1; day := 1 |}.
Proof.
  intro P. unfold Duration.parse_date.
  change (String.eqb (year_text a b c d) "") with false. cbv iota.
  rewrite (year_text_strip a b c d Ha Hd), (year_text_lower a b c d Ha Hb Hc Hd).
  assert (M : Duration.mem_string (year_text a b c d)
                ["present"; "running"; "current"] = false).
  { unfold year_text. cbn [Duration.mem_string String.eqb].
    now rewrite (digit_neq a "p" Ha eq_refl), (digit_neq a "r" Ha eq_refl),
      (digit_neq a "c" Ha eq_refl). }
  rewrite M.
  change Duration.date_formats
    with (["%b %Y"; "%B %Y"; "%Y-%m"; "%m-%Y"; "%b. %Y"; "%B. %Y";
           "%d %b %Y"; "%d %B %Y"; "%b %d, %Y"; "%B %d, %Y"]
          ++ ["%Y"; "%m/%Y"; "%Y/%m"]).
  rewrite try_formats_skip.
  - cbn [Duration.try_formats]. now rewrite (year_format_succeeds P).
  - destruct (year_month_formats_need_hyphen _
                (year_text_no_hyphen a b c d Ha Hb Hc Hd)) as [Y1 Y2].
    repeat constructor; try assumption;
      try (eapply month_first_fails; (left; reflexivity) || (right; reflexivity));
      eapply day_first_fails; reflexivity.
Qed.

(** X10.  A token of four digits other than 0000 is the January of that
    year. *)
Theorem parse_date_bare_year (now : datetime) :
  (1 <= Strptime.int_of (year_text a b c d))%Z ->
  Duration.parse_date now (Some (year_text a b c d))
  = Some {| year := Strptime.int_of (year_text a b c d); month := 1; day := 1 |}.
Proof. exact (parse_date_year_text now). Qed.

End BareYear.

Section MonthAndYear.

Variables a b c d : ascii.
Hypothesis Ha : PyStr.is_digit a = true.
Hypothesis Hb : PyStr.is_digit b = true.
Hypothesis Hc : PyStr.is_digit c = true.
Hypothesis Hd : PyStr.is_digit d = true.
Hypothesis positive : (1 <= Strptime.int_of (year_text a b c d))%Z.

(** A format made of a month name, white space and the year, on a token
    whose month name the format reads. *)
Lemma month_year_succeeds (it : Strptime.item) (fmt token : string) (k : Z) :
  Strptime.compile fmt = [it; Strptime.I_space; Strptime.I_Y] ->
  Strptime.candidates it Strptime.start_fields token
  = [(Strptime.set_month Strptime.start_fields k, String " " (year_text a b c d))] ->
  (1 <= k <= 12)%Z ->
  Strptime.strptime token fmt
  = Some {| year := Strptime.int_of (year_text a b c d); month := k; day := 1 |}.
Proof.
  intros C E K. pose proof (year_text_range a b c d Ha Hb Hc Hd) as R.
  unfold Strptime.strptime. rewrite C, match_items_cons, E.
  cbn [Strptime.first_some].
  rewrite (space_then_year a b c d Ha Hb Hc Hd).
  cbn [Strptime.set_year Strptime.set_month Strptime.start_fields].
  apply make_datetime_first_day; lia.
Qed.

(** The same format on a token whose month name is longer than the name
    the format reads. *)
Lemma month_year_fails (it : Strptime.item) (fmt token : string)
  (f : Strptime.fields) (x : ascii) (r : string) :
  Strptime.compile fmt = [it; Strptime.I_space; Strptime.I_Y] ->
  Strptime.candidates it Strptime.start_fields token = [(f, String x r)] ->
  PyStr.is_space x = false ->
  Strptime.strptime token fmt = None.
Proof.
  intros C E S. unfold Strptime.strptime. rewrite C, match_items_cons, E.
  cbn [Strptime.first_some]. rewrite match_items_cons.
  cbn [Strptime.candidates Strptime.spaces]. now rewrite S.
Qed.

Lemma month_year_token (name m : string) (x : ascii) :
  name = String x m ->
  visible x = true ->
  PyStr.lower name = name ->
  PyStr.lower (PyStr.strip (name ++ " " ++ year_text a b c d))
  = (name ++ " " ++ year_text a b c d)%string.
Proof.
  intros N V W. rewrite strip_tight.
  - rewrite !lower_append, W, (year_text_lower a b c d Ha Hb Hc Hd). reflexivity.
  - apply (tight_visible_ends _ (m ++ " " ++ year_text a b c d)
             (name ++ " " ++ String a (String b (String c ""))) x d).
    + now rewrite N.
    + unfold year_text. now rewrite !append_assoc.
    + exact V.
    + now apply digit_visible.
Qed.

(** X11.  A month name of the calendar, abbreviated or in full, then a
    space and a year of four digits other than 0000, is the first day of
    that month. *)
Theorem parse_date_month_and_year (now : datetime) (k : nat) (name : string) :
  nth_error Strptime.month_abbr k = Some name
  \/ nth_error Strptime.month_full k = Some name ->
  Duration.parse_date now (Some (name ++ " " ++ year_text a b c d)%string)
  = Some {| year := Strptime.int_of (year_text a b c d);
            month := Z.of_nat k + 1; day := 1 |}.
Proof.
  intro H.
  assert (T : PyStr.lower (PyStr.strip (name ++ " " ++ year_text a b c d)%string)
              = (name ++ " " ++ year_text a b c d)%string
              /\ String.eqb (name ++ " " ++ year_text a b c d)%string "" = false
              /\ Duration.mem_string (name ++ " " ++ year_text a b c d)%string
                   ["present"; "running"; "current"] = false
              /\ (Strptime.strptime (name ++ " " ++ year_text a b c d)%string "%b %Y"
                  = Some {| year := Strptime.int_of (year_text a b c d);
                            month := Z.of_nat k + 1; day := 1 |}
                  \/ (Strptime.strptime (name ++ " " ++ year_text a b c d)%string "%b %Y" = None
                      /\ Strptime.strptime (name ++ " " ++ year_text a b c d)%string "%B %Y"
                         = Some {| year := Strptime.int_of (year_text a b c d);
                                   month := Z.of_nat k + 1; day := 1 |}))).
  { do 12 (destruct k as [|k];
           [destruct H as [H|H]; inversion H; subst name;
            (split; [eapply month_year_token; reflexivity|]);
            (split; [reflexivity|]); (split; [reflexivity|]);
            first
              [ left; eapply (month_year_succeeds Strptime.I_b);
                [reflexivity|reflexivity|cbn; lia]
              | right; split;
                [ eapply (month_year_fails Strptime.I_b);
                  [reflexivity|reflexivity|reflexivity]
                | eapply (month_year_succeeds Strptime.I_B);
                  [reflexivity|reflexivity|cbn; lia] ] ]
           |]).
    destruct H as [H|H]; destruct k; discriminate H. }
  destruct T as (T1 & T2 & T3 & T4).
  unfold Duration.parse_date. rewrite T2, T1, T3.
  unfold Duration.date_formats. cbn [Duration.try_formats].
  destruct T4 as [-> | [-> ->]]; reflexivity.
Qed.

End MonthAndYear.

(** ** Tokens without a digit *)

Lemma has_digit_drop (n : nat) (s : string) :
  has_digit s = false -> has_digit (PyStr.drop n s) = false.
Proof.
  revert s. induction n as [|n IH]; intros s H; [exact H|].
  destruct s as [|x s]; [reflexivity|].
  simpl in H. apply orb_false_iff in H. cbn [PyStr.drop]. now apply IH.
Qed.

Lemma has_digit_lower (s : string) : has_digit (PyStr.lower s) = has_digit s.
Proof.
  induction s as [|x s IH]; [reflexivity|].
  cbn [PyStr.lower has_digit]. now rewrite is_digit_lower_char, IH.
Qed.

Lemma has_digit_app (s t : string) :
  has_digit (s ++ t) = has_digit s || has_digit t.
Proof.
  induction s as [|x s IH]; [reflexivity|].
  cbn [append has_digit]. now rewrite IH, orb_assoc.
Qed.

Lemma has_digit_strip (s : string) :
  has_digit s = false -> has_digit (PyStr.strip s) = false.
Proof.
  intro H. destruct (strip_trims s) as (l & r & E & _).
  rewrite E, !has_digit_app in H.
  apply orb_false_iff in H. destruct H as [_ H].
  now apply orb_false_iff in H.
Qed.

Lemma month_name_rest (names : list string) (s : string) :
  forall k k' r, In (k', r) (Strptime.month_name names k s) ->
  exists n, r = PyStr.drop n s.
Proof.
  induction names as [|name names IH]; intros k k' r H; [contradiction|].
  cbn [Strptime.month_name] in H. apply in_app_iff in H.
  destruct H as [H|H]; [|eapply IH, H].
  destruct (prefix name (PyStr.lower s)); [|contradiction].
  destruct H as [H|[]]. inversion H. now exists (length name).
Qed.

Lemma spaces_rest (s r : string) :
  In r (Strptime.spaces s) -> exists n, r = PyStr.drop n s.
Proof.
  induction s as [|x s IH]; [contradiction|].
  cbn [Strptime.spaces]. destruct (PyStr.is_space x); [|contradiction].
  intro H. apply in_app_iff in H. destruct H as [H|[H|[]]].
  - destruct (IH H) as [n ->]. now exists (S n).
  - subst r. now exists 1%nat.
Qed.

Lemma day_number_rest (s : string) (k : Z) (r : string) :
  In (k, r) (Strptime.day_number s) -> exists n, r = PyStr.drop n s.
Proof.
  unfold Strptime.day_number. rewrite !in_app_iff.
  intros [H|[H|[H|[H|H]]]].
  - exists 2%nat. eapply two_rest, H.
  - exists 2%nat. eapply two_rest, H.
  - exists 2%nat. eapply two_rest, H.
  - exists 1%nat. eapply one_rest, H.
  - destruct s as [|x s]; [contradiction|].
    exists 2%nat.
    destruct x as [[] [] [] [] [] [] [] []]; try contradiction.
    now apply one_rest in H.
Qed.

Lemma candidates_rest (it : Strptime.item) (f f' : Strptime.fields) (s r : string) :
  In (f', r) (Strptime.candidates it f s) -> exists n, r = PyStr.drop n s.
Proof.
  destruct it; cbn [Strptime.candidates]; intro H;
    try (apply in_map_iff in H; destruct H as ([k r'] & E & H);
         inversion E; subst).
  - eapply month_name_rest, H.
  - eapply month_name_rest, H.
  - exists 4%nat. eapply year_number_rest, H.
  - eapply month_number_rest, H.
  - eapply day_number_rest, H.
  - apply in_map_iff in H. destruct H as (r' & E & H). inversion E; subst.
    eapply spaces_rest, H.
  - destruct s as [|x s]; [contradiction|].
    destruct (Ascii.eqb _ _); [|contradiction].
    destruct H as [H|[]]. inversion H. now exists 1%nat.
  - contradiction.
Qed.

Lemma year_number_needs_digit (s : string) :
  has_digit s = false -> Strptime.year_number s = [].
Proof.
  unfold Strptime.year_number.
  destruct s as [|x [|y [|z [|w s]]]]; try reflexivity.
  cbn [has_digit]. intro H. apply orb_false_iff in H. destruct H as [-> _].
  reflexivity.
Qed.

Lemma match_items_needs_digit (items : list Strptime.item) :
  In Strptime.I_Y items ->
  forall f s, has_digit s = false -> Strptime.match_items items f s = None.
Proof.
  induction items as [|it items IH]; [contradiction|].
  intros H f s D. rewrite match_items_cons.
  destruct H as [-> | H].
  - cbn [Strptime.candidates]. now rewrite (year_number_needs_digit s D).
  - apply first_some_none. intros [f' r] Hin.
    destruct (candidates_rest _ _ _ _ _ Hin) as [n ->].
    apply (IH H). now apply has_digit_drop.
Qed.

Lemma try_formats_need_digit (s : string) :
  has_digit s = false -> Duration.try_formats s Duration.date_formats = None.
Proof.
  intro D.
  assert (F : Forall (fun fmt => In Strptime.I_Y (Strptime.compile fmt))
                Duration.date_formats).
  { apply Forall_forall. intros fmt Hfmt.
    assert (B : forallb
                  (fun fmt =>
                     existsb (fun it => match it with
                                        | Strptime.I_Y => true
                                        | _ => false
                                        end)
                             (Strptime.compile fmt))
                  Duration.date_formats = true) by (vm_compute; reflexivity).
    rewrite forallb_forall in B. specialize (B fmt Hfmt).
    apply existsb_exists in B. destruct B as (it & Hin & Hit).
    destruct it; try discriminate. exact Hin. }
  induction F as [|fmt formats Y _ IH]; [reflexivity|].
  cbn [Duration.try_formats]. unfold Strptime.strptime.
  now rewrite (match_items_needs_digit _ Y _ _ D).
Qed.

Lemma runs_rest (p : ascii -> bool) (s w r : string) :
  In (w, r) (Fallback.runs p s) -> exists n, r = PyStr.drop n s.
Proof.
  revert w. induction s as [|x s IH]; intros w H; [contradiction|].
  cbn [Fallback.runs] in H. destruct (p x); [|contradiction].
  apply in_app_iff in H. destruct H as [H|[H|[]]].
  - apply in_map_iff in H. destruct H as ([w' r'] & E & H).
    inversion E; subst. destruct (IH _ H) as [n ->]. now exists (S n).
  - inversion H. now exists 1%nat.
Qed.

Lemma match_here_needs_digit (s : string) :
  has_digit s = false -> Fallback.match_here s = None.
Proof.
  intro D. unfold Fallback.match_here.
  apply first_some_none. intros [word r] Hw.
  destruct (runs_rest _ _ _ _ Hw) as [n ->].
  apply first_some_none. intros [sp r'] Hs.
  assert (D' : has_digit r' = false).
  { apply in_app_iff in Hs. destruct Hs as [Hs|[Hs|[]]].
    - destruct (runs_rest _ _ _ _ Hs) as [m ->].
      now apply has_digit_drop, has_digit_drop.
    - inversion Hs. now apply has_digit_drop. }
  destruct r' as [|x [|y [|z [|v r']]]]; try reflexivity.
  cbn [has_digit] in D'. apply orb_false_iff in D'. destruct D' as [-> _].
  reflexivity.
Qed.

Lemma search_needs_digit (s : string) :
  has_digit s = false -> Fallback.search s = None.
Proof.
  induction s as [|x s IH]; intro D.
  - reflexivity.
  - cbn [Fallback.search]. rewrite (match_here_needs_digit _ D).
    apply IH. cbn [has_digit] in D. now apply orb_false_iff in D.
Qed.

(** X12.  A token of ASCII characters without a digit is unresolved,
    unless it is one of the words present, running and current; a row whose
    start token is such a token counts 0 months, in every frame. *)
Theorem parse_date_needs_digit (now : datetime) :
  (forall s,
      ascii_text s = true ->
      has_digit s = false ->
      ~ In (PyStr.lower (PyStr.strip s)) ["present"; "running"; "current"] ->
      Duration.parse_date now (Some s) = None)
  /\ (forall durations i x,
        nth_error durations i = Some x ->
        ascii_text (Duration.start_token x) = true ->
        has_digit (Duration.start_token x) = false ->
        ~ In (PyStr.lower (PyStr.strip (Duration.start_token x)))
             ["present"; "running"; "current"] ->
        nth_error (map snd (Frame.process_duration_column now durations)) i
        = Some 0%Z).
Proof.
  assert (P : forall s,
             has_digit s = false ->
             ~ In (PyStr.lower (PyStr.strip s)) ["present"; "running"; "current"] ->
             Duration.parse_date now (Some s) = None).
  { intros s D L. unfold Duration.parse_date.
    destruct (String.eqb s ""); [reflexivity|].
    destruct (Duration.mem_string _ _) eqn:M.
    - apply mem_string_In in M. contradiction.
    - assert (D' : has_digit (PyStr.lower (PyStr.strip s)) = false)
        by (rewrite has_digit_lower; now apply has_digit_strip).
      rewrite (try_formats_need_digit _ D').
      unfold Duration.regex_fallback. now rewrite (search_needs_digit _ D'). }
  split; [intros s _; apply P|].
  intros durations i x H _ D L. rewrite (frame_row_value now durations i x H).
  unfold Duration.Start_Date. now rewrite (P _ D L).
Qed.

(** ** The aggregation, again *)

Section AggregationFacts.

Import Main.

Variable py_format : json -> string.

Lemma filter_idempotent (p : ascii -> bool) (s : string) :
  PyStr.filter p (PyStr.filter p s) = PyStr.filter p s.
Proof.
  induction s as [|c s IH]; [reflexivity|].
  cbn [PyStr.filter]. destruct (p c) eqn:E; [|exact IH].
  cbn [PyStr.filter]. now rewrite E, IH.
Qed.

(** X13.  Normalising a mobile twice is the same as normalising it once;
    and a mobile that is a text of ASCII characters, or a list that begins
    with one, comes out as a text of digits only. *)
Theorem flatten_mobile_idempotent (mobile : json) :
  flatten_mobile py_format (flatten_mobile py_format mobile)
  = flatten_mobile py_format mobile
  /\ (forall s t,
        mobile = JStr s \/ (exists rest, mobile = JList (JStr s :: rest)) ->
        ascii_text s = true ->
        flatten_mobile py_format mobile = JStr t ->
        PyStr.filter PyStr.is_digit t = t).
Proof.
  split.
  - destruct mobile as [| b | z | s | l | d]; cbn [flatten_mobile];
      try reflexivity.
    + now rewrite filter_idempotent.
    + destruct l as [|m0 l]; [reflexivity|].
      cbn [flatten_mobile]. now rewrite filter_idempotent.
  - intros s t [->|[rest ->]] _ H; cbn [flatten_mobile ResumeProcessor.py_str] in H;
      inversion H; apply filter_idempotent.
Qed.

Lemma key_eqb_class (a b : json) :
  key_eqb a b = true <-> key_class a <> None /\ key_class a = key_class b.
Proof.
  destruct a as [| x | x | x | x | x], b as [| y | y | y | y | y];
    cbn [key_eqb key_class];
    try (split; [discriminate | intros [N E]; congruence]).
  - destruct x, y; cbn; split; try discriminate; try (intros _; split; congruence);
      intros [_ E]; discriminate E.
  - split.
    + intro H. apply Z.eqb_eq in H. subst. split; congruence.
    + intros [_ E]. inversion E. apply Z.eqb_refl.
  - split.
    + intro H. apply Z.eqb_eq in H. subst. split; congruence.
    + intros [_ E]. inversion E. apply Z.eqb_refl.
  - split.
    + intro H. apply Z.eqb_eq in H. subst. split; congruence.
    + intros [_ E]. inversion E. apply Z.eqb_refl.
  - split.
    + intro H. apply String.eqb_eq in H. subst. split; congruence.
    + intros [_ E]. inversion E. apply String.eqb_refl.
Qed.

Lemma key_eqb_refl (a : json) : key_class a <> None -> key_eqb a a = true.
Proof. intro H. apply key_eqb_class. now split. Qed.

Lemma key_eqb_sym (a b : json) : key_eqb a b = key_eqb b a.
Proof.
  destruct (key_eqb a b) eqn:E; symmetry.
  - apply key_eqb_class in E. apply key_eqb_class. destruct E as [N E].
    split; congruence.
  - destruct (key_eqb b a) eqn:F; [|reflexivity].
    apply key_eqb_class in F. destruct F as [N F].
    assert (key_eqb a b = true) by (apply key_eqb_class; split; congruence).
    congruence.
Qed.

Lemma key_eqb_trans (a b c : json) :
  key_eqb a b = true -> key_eqb c b = key_eqb c a.
Proof.
  intro H. apply key_eqb_class in H. destruct H as [N E].
  destruct (key_eqb c a) eqn:F.
  - apply key_eqb_class in F. apply key_eqb_class. destruct F. split; congruence.
  - destruct (key_eqb c b) eqn:G; [|reflexivity].
    apply key_eqb_class in G. destruct G as [G1 G2].
    assert (key_eqb c a = true) by (apply key_eqb_class; split; congruence).
    congruence.
Qed.

Lemma held_add (k' k : json) (v : Z) (groups : list (json * Z)) :
  held k' (add_to_group k v groups)
  = (held k' groups + (if key_eqb k' k then v else 0))%Z.
Proof.
  unfold held. induction groups as [|[k0 t] groups IH].
  - cbn. destruct (key_eqb k' k); cbn; lia.
  - cbn [add_to_group]. destruct (key_eqb k k0) eqn:E.
    + cbn [List.filter fst]. rewrite (key_eqb_trans _ _ k' E).
      destruct (key_eqb k' k); cbn [sum_totals snd]; lia.
    + cbn [List.filter fst]. destruct (key_eqb k' k0); cbn [sum_totals snd];
        rewrite IH; lia.
Qed.

Lemma sum_totals_add (k : json) (v : Z) (groups : list (json * Z)) :
  sum_totals (add_to_group k v groups) = (sum_totals groups + v)%Z.
Proof.
  induction groups as [|[k0 t] groups IH]; [cbn; lia|].
  cbn [add_to_group]. destruct (key_eqb k k0); cbn [sum_totals snd]; [lia|].
  rewrite IH. lia.
Qed.

Lemma classes_add (k : json) (v : Z) (groups : list (json * Z)) :
  map (fun kt => key_class (fst kt)) (add_to_group k v groups)
  = if existsb (fun kt => key_eqb k (fst kt)) groups
    then map (fun kt => key_class (fst kt)) groups
    else map (fun kt => key_class (fst kt)) groups ++ [key_class k].
Proof.
  induction groups as [|[k0 t] groups IH]; [reflexivity|].
  cbn [add_to_group existsb fst]. destruct (key_eqb k k0); [reflexivity|].
  cbn [map orb fst]. rewrite IH.
  now destruct (existsb _ groups).
Qed.

Lemma existsb_class (k : json) (groups : list (json * Z)) :
  key_class k <> None ->
  existsb (fun kt => key_eqb k (fst kt)) groups = true
  <-> In (key_class k) (map (fun kt => key_class (fst kt)) groups).
Proof.
  intro N. rewrite existsb_exists, in_map_iff. split.
  - intros (kt & H & E). exists kt. apply key_eqb_class in E.
    split; [symmetry; tauto|exact H].
  - intros (kt & E & H). exists kt. split; [exact H|].
    apply key_eqb_class. split; congruence.
Qed.

Lemma NoDup_snoc {A : Type} (l : list A) (x : A) :
  NoDup l -> ~ In x l -> NoDup (l ++ [x]).
Proof.
  induction 1 as [|y l Hy _ IH]; intro H.
  - repeat constructor. exact (fun F => F).
  - cbn [app]. constructor.
    + rewrite in_app_iff. cbn [In]. intros [I|[E|[]]]; [tauto|].
      subst. apply H. now left.
    + apply IH. intro I. apply H. now right.
Qed.

(** The groups built from rows with proper keys: no two entries have the
    same key, every entry has the key of a row, every row has an entry, and
    the entry of a key holds the months of its rows. *)
Lemma fold_groups (df : list row) :
  forall groups,
    Forall (fun r => key_class (Mobile r) <> None) df ->
    NoDup (map (fun kt => key_class (fst kt)) groups) ->
    let out := fold_left
                 (fun groups r =>
                    add_to_group (Mobile r) (Calculated_Duration r) groups)
                 df groups in
    NoDup (map (fun kt => key_class (fst kt)) out)
    /\ (forall c, In c (map (fun kt => key_class (fst kt)) out)
                  <-> In c (map (fun kt => key_class (fst kt)) groups)
                      \/ In c (map (fun r => key_class (Mobile r)) df))
    /\ (forall k, held k out = (held k groups + sum_for k df)%Z)
    /\ sum_totals out = (sum_totals groups + sum_months df)%Z.
Proof.
  induction df as [|r df IH]; intros groups F N; cbv zeta.
  - cbn [fold_left map In sum_for sum_months].
    split; [exact N|]. split; [tauto|]. split; [intro k|]; lia.
  - inversion F as [|? ? Hr F']; subst. cbn [fold_left].
    assert (N' : NoDup (map (fun kt => key_class (fst kt))
                          (add_to_group (Mobile r) (Calculated_Duration r) groups))).
    { rewrite classes_add.
      destruct (existsb _ groups) eqn:E; [exact N|].
      apply NoDup_snoc; [exact N|].
      intro I. apply (existsb_class _ _ Hr) in I. congruence. }
    pose proof (IH _ F' N') as IH'. cbv zeta in IH'.
    destruct IH' as (N2 & C2 & H2 & S2).
    split; [exact N2|]. split; [|split].
    + intro c. rewrite C2, classes_add. cbn [map In].
      destruct (existsb _ groups) eqn:E.
      * apply (existsb_class _ _ Hr) in E. split; [tauto|].
        intros [H|[H|H]]; try tauto. subst c. tauto.
      * rewrite in_app_iff. cbn [In]. tauto.
    + intro k. rewrite H2, held_add. cbn [sum_for].
      rewrite (key_eqb_sym (Mobile r) k). lia.
    + rewrite S2, sum_totals_add. cbn [sum_months]. lia.
Qed.

Lemma proper_key (v : json) :
  is_na v = false -> unhashable v = false -> key_class v <> None.
Proof. destruct v; cbn; congruence. Qed.

Lemma clean_mobile_proper (df : list row) :
  existsb (fun r => unhashable (Mobile r)) (clean_mobile py_format df) = false ->
  Forall (fun r => key_class (Mobile r) <> None) (clean_mobile py_format df).
Proof.
  intro U. apply Forall_forall. intros r Hr.
  apply proper_key.
  - unfold clean_mobile, dropna in Hr. apply filter_In in Hr.
    destruct Hr as [_ Hr]. now destruct (is_na (Mobile r)).
  - destruct (unhashable (Mobile r)) eqn:E; [|reflexivity].
    assert (existsb (fun r => unhashable (Mobile r)) (clean_mobile py_format df) = true)
      by (apply existsb_exists; eauto).
    congruence.
Qed.

Lemma overall_exp_groups (df : list row) (groups : list (json * Z)) :
  overall_exp py_format df = inr groups ->
  existsb (fun r => unhashable (Mobile r)) (clean_mobile py_format df) = false
  /\ groups = fold_left
                (fun groups r =>
                   add_to_group (Mobile r) (Calculated_Duration r) groups)
                (clean_mobile py_format df) [].
Proof.
  unfold overall_exp, groupby_sum.
  destruct (existsb _ (clean_mobile py_format df)); [discriminate|].
  intro H. inversion H. now split.
Qed.

(** X14.  Grouping gives exactly one entry per distinct key: no two
    entries have the same key, every row that is grouped has an entry under
    its key, and every entry has the key of such a row. *)
Theorem overall_exp_one_entry_per_key (df : list row) (groups : list (json * Z)) :
  overall_exp py_format df = inr groups ->
  NoDup (map (fun kt => key_class (fst kt)) groups)
  /\ (forall r, In r (clean_mobile py_format df) ->
                exists kt, In kt groups /\ key_eqb (Mobile r) (fst kt) = true)
  /\ (forall kt, In kt groups ->
                 exists r, In r (clean_mobile py_format df)
                           /\ key_eqb (Mobile r) (fst kt) = true).
Proof.
  intro H. destruct (overall_exp_groups df groups H) as [U ->].
  pose proof (clean_mobile_proper df U) as F.
  pose proof (fold_groups (clean_mobile py_format df) [] F (NoDup_nil _)) as G.
  cbv zeta in G. destruct G as (N & C & _ & _).
  split; [exact N|]. split.
  - intros r Hr.
    assert (I : In (key_class (Mobile r))
                  (map (fun r => key_class (Mobile r)) (clean_mobile py_format df)))
      by (apply in_map_iff; eauto).
    assert (I' := proj2 (C _) (or_intror I)).
    apply in_map_iff in I'. destruct I' as (kt & E & Hkt).
    exists kt. split; [exact Hkt|]. apply key_eqb_class.
    rewrite Forall_forall in F. split; [now apply F|congruence].
  - intros kt Hkt.
    assert (I : In (key_class (fst kt))
                  (map (fun kt => key_class (fst kt))
                     (fold_left
                        (fun groups r =>
                           add_to_group (Mobile r) (Calculated_Duration r) groups)
                        (clean_mobile py_format df) [])))
      by (apply in_map_iff; eauto).
    apply C in I. destruct I as [[]|I].
    apply in_map_iff in I. destruct I as (r & E & Hr).
    exists r. split; [exact Hr|]. apply key_eqb_class.
    rewrite Forall_forall in F. split; [now apply F|congruence].
Qed.

(** X15.  Grouping loses no month: the totals of the entries add up to the
    months of the rows that are grouped, and the entries under a key hold
    the months of the rows with that key. *)
Theorem overall_exp_conserves_months (df : list row) (groups : list (json * Z)) :
  overall_exp py_format df = inr groups ->
  sum_totals groups = sum_months (clean_mobile py_format df)
  /\ (forall k, held k groups = sum_for k (clean_mobile py_format df)).
Proof.
  intro H. destruct (overall_exp_groups df groups H) as [U ->].
  pose proof (clean_mobile_proper df U) as F.
  pose proof (fold_groups (clean_mobile py_format df) [] F (NoDup_nil _)) as G.
  cbv zeta in G. destruct G as (_ & _ & Hh & S).
  split; [rewrite S; cbn; lia|].
  intro k. rewrite Hh. cbn. lia.
Qed.

Lemma filter_key_none (k : json) (groups : list (json * Z)) :
  ~ In (key_class k) (map (fun kt => key_class (fst kt)) groups) ->
  List.filter (fun kt => key_eqb k (fst kt)) groups = [].
Proof.
  induction groups as [|kt groups IH]; intro H; [reflexivity|].
  cbn [List.filter]. destruct (key_eqb k (fst kt)) eqn:E.
  - apply key_eqb_class in E. exfalso. apply H. left. symmetry. tauto.
  - apply IH. intro I. apply H. now right.
Qed.

Lemma filter_key_single (k : json) (groups : list (json * Z)) :
  NoDup (map (fun kt => key_class (fst kt)) groups) ->
  key_class k <> None ->
  In (key_class k) (map (fun kt => key_class (fst kt)) groups) ->
  exists kt, List.filter (fun kt => key_eqb k (fst kt)) groups = [kt].
Proof.
  induction groups as [|kt groups IH]; intros N P I; [contradiction|].
  cbn [map] in N. inversion N as [|? ? Hn N']; subst.
  cbn [List.filter]. destruct (key_eqb k (fst kt)) eqn:E.
  - exists kt. f_equal. apply filter_key_none.
    apply key_eqb_class in E. destruct E as [_ E]. now rewrite E.
  - apply IH; [exact N'|exact P|].
    destruct I as [I|I]; [|exact I].
    exfalso. assert (key_eqb k (fst kt) = true)
      by (apply key_eqb_class; split; congruence).
    congruence.
Qed.

(** X16.  When no mobile is an object, the merge neither loses nor
    repeats a row: the frame that is shown and saved is the frame that was
    grouped, row by row in its order, each row with the months of all the
    rows that have its key. *)
Theorem aggregate_totals (df : list row) :
  existsb (fun r => unhashable (Mobile r)) (clean_mobile py_format df) = false ->
  aggregate py_format df
  = inr (map (fun r =>
                {| stint := r;
                   Total_Experience :=
                     sum_for (Mobile r) (clean_mobile py_format df) |})
             (clean_mobile py_format df)).
Proof.
  intro U. unfold aggregate, overall_exp, groupby_sum. rewrite U. f_equal.
  pose proof (clean_mobile_proper df U) as F.
  pose proof (fold_groups (clean_mobile py_format df) [] F (NoDup_nil _)) as G.
  cbv zeta in G. destruct G as (N & C & Hh & _).
  set (groups := fold_left _ (clean_mobile py_format df) []) in *.
  assert (M : forall rows,
             (forall r, In r rows -> In r (clean_mobile py_format df)) ->
             merge rows groups
             = map (fun r =>
                      {| stint := r;
                         Total_Experience :=
                           sum_for (Mobile r) (clean_mobile py_format df) |})
                   rows).
  { induction rows as [|r rows IH]; intro Sub; [reflexivity|].
    unfold merge in *. cbn [flat_map map].
    rewrite IH by (intros r' Hr'; apply Sub; now right).
    assert (Hr : In r (clean_mobile py_format df)) by (apply Sub; now left).
    rewrite Forall_forall in F.
    destruct (filter_key_single (Mobile r) groups N (F r Hr)) as [kt E].
    { apply C. right. apply in_map_iff. eauto. }
    rewrite E. cbn [map app]. f_equal. f_equal.
    specialize (Hh (Mobile r)). unfold held in Hh. rewrite E in Hh.
    cbn in Hh. lia. }
  apply M. auto.
Qed.

(** X17.  A row whose mobile is null or an empty list (and no other row)
    is dropped before the grouping: the aggregate is the same with and
    without it. *)
Theorem null_mobile_is_dropped (mobile : json) :
  (flatten_mobile py_format mobile = JNull <-> mobile = JNull \/ mobile = JList [])
  /\ (forall before r after,
        Mobile r = mobile ->
        flatten_mobile py_format mobile = JNull ->
        clean_mobile py_format (before ++ r :: after)
        = clean_mobile py_format (before ++ after)
        /\ aggregate py_format (before ++ r :: after)
           = aggregate py_format (before ++ after)).
Proof.
  split.
  - destruct mobile as [| b | z | s | [|m0 l] | d]; cbn [flatten_mobile];
      split; try discriminate; try tauto; intros [H|H]; discriminate H.
  - intros before r after E N.
    assert (Cl : clean_mobile py_format (before ++ r :: after)
                 = clean_mobile py_format (before ++ after)).
    { unfold clean_mobile, dropna.
      rewrite !map_app, !filter_app. cbn [map List.filter].
      cbn [set_Mobile Mobile]. now rewrite E, N. }
    split; [exact Cl|].
    unfold aggregate, overall_exp. now rewrite Cl.
Qed.

End AggregationFacts.

(** ** The date stamp *)





(** ** Persistence, again *)

Section PersistenceMore.

Import Database.

Lemma sql_eq_sym (x y : value) : sql_eq x y = sql_eq y x.
Proof.
  unfold sql_eq. destruct (text_affinity x), (text_affinity y);
    try reflexivity. apply String.eqb_sym.
Qed.

Lemma text_affinity_idempotent (x : value) :
  text_affinity (text_affinity x) = text_affinity x.
Proof. now destruct x. Qed.

Lemma sql_eq_affinity_r (x y : value) : sql_eq x (text_affinity y) = sql_eq x y.
Proof. unfold sql_eq. now rewrite text_affinity_idempotent. Qed.



Lemma same_mobile_affinity (m : value) (table : list resume) :
  same_mobile (text_affinity m) table = same_mobile m table.
Proof.
  unfold same_mobile. induction table as [|old table IH]; [reflexivity|].
  cbn [existsb]. now rewrite sql_eq_affinity_r, IH.
Qed.


Lemma same_mobile_app (m : value) (t1 t2 : list resume) :
  same_mobile m (t1 ++ t2) = same_mobile m t1 || same_mobile m t2.
Proof. unfold same_mobile. apply existsb_app. Qed.



Lemma bind_item_found {A : Type} (row : series) (label : string) (v : value)
  (k : value -> M A) (w : world) :
  lookup_label row label = Some v -> bind (item row label) k w = k v w.
Proof. intro H. unfold bind, item. now rewrite H. Qed.

Lemma bind_item_missing {A : Type} (row : series) (label : string)
  (k : value -> M A) (w : world) :
  lookup_label row label = None ->
  bind (item row label) k w = (w, Raise (KeyError label)).
Proof. intro H. unfold bind, item. now rewrite H. Qed.

(** The three ways in which [insert_resume_data] ends: a label is missing
    and its [KeyError] leaves the function, the world untouched; or nothing
    is stored and [False] is returned; or the record of the row is appended
    and [True] is returned. *)
Lemma insert_outcome (now : datetime) (row : series) (c : db) (out : list message) :
  let w := {| conn := c; stdout := out |} in
  (exists label,
      lookup_label row label = None
      /\ insert_resume_data now row w = (w, Raise (KeyError label)))
  \/ (exists out',
         insert_resume_data now row w = ({| conn := c; stdout := out' |}, Ok false))
  \/ (exists table n m e g cc r cd te,
         c = Some table
         /\ insertable row n m e g cc r cd te
         /\ older_record (VText (strftime_ymd now)) m table = false
         /\ same_mobile m table = false
         /\ insert_resume_data now row w
            = ({| conn := Some (table ++ [stored_record (strftime_ymd now)
                                            n m e g cc r cd te]);
                  stdout := out |}, Ok true)).
Proof.
  intro w. subst w.
  destruct (lookup_label row "Mobile") as [m|] eqn:Hm.
  2:{ left. exists "Mobile". split; [exact Hm|].
      unfold insert_resume_data, try_except_sqlite.
      now rewrite (bind_item_missing _ _ _ _ Hm). }
  destruct c as [table|].
  2:{ right. left. eexists.
      unfold insert_resume_data, try_except_sqlite.
      rewrite (bind_item_found _ _ _ _ _ Hm). reflexivity. }
  destruct (older_record (VText (strftime_ymd now)) m table) eqn:Old.
  { right. left. eexists.
    unfold insert_resume_data, try_except_sqlite.
    rewrite (bind_item_found _ _ _ _ _ Hm). unfold bind at 1.
    rewrite execute_select. unfold count_is_zero. rewrite count_zero_iff_none.
    fold (older_record (VText (strftime_ymd now)) m table). rewrite Old.
    cbn [negb]. rewrite (bind_item_found _ _ _ _ _ Hm). reflexivity. }
  assert (Start : forall k : M bool,
             try_except_sqlite
               (m0 <- item row "Mobile" ;;
                fetched <- execute SelectOlder [m0; VText (strftime_ymd now)] ;;
                if count_is_zero fetched then k
                else m1 <- item row "Mobile" ;;
                     _ <- print (SkippingInsertion m1) ;; ret false)
               (fun e => _ <- print (ErrorProcessingData e) ;; ret false)
               {| conn := Some table; stdout := out |}
             = try_except_sqlite k
                 (fun e => _ <- print (ErrorProcessingData e) ;; ret false)
                 {| conn := Some table; stdout := out |}).
  { intro k. unfold try_except_sqlite.
    rewrite (bind_item_found _ _ _ _ _ Hm). unfold bind at 1.
    rewrite execute_select. unfold count_is_zero. rewrite count_zero_iff_none.
    fold (older_record (VText (strftime_ymd now)) m table). now rewrite Old. }
  unfold insert_resume_data. rewrite Start. clear Start.
  unfold try_except_sqlite.
  destruct (lookup_label row "Name") as [n|] eqn:Hn.
  2:{ left. exists "Name". split; [exact Hn|].
      now rewrite (bind_item_missing _ _ _ _ Hn). }
  rewrite (bind_item_found _ _ _ _ _ Hn), (bind_item_found _ _ _ _ _ Hm).
  destruct (lookup_label row "Email") as [e|] eqn:He.
  2:{ left. exists "Email". split; [exact He|].
      now rewrite (bind_item_missing _ _ _ _ He). }
  rewrite (bind_item_found _ _ _ _ _ He).
  destruct (lookup_label row "Graduation") as [g|] eqn:Hg.
  2:{ left. exists "Graduation". split; [exact Hg|].
      now rewrite (bind_item_missing _ _ _ _ Hg). }
  rewrite (bind_item_found _ _ _ _ _ Hg).
  destruct (lookup_label row "Company") as [cc|] eqn:Hc.
  2:{ left. exists "Company". split; [exact Hc|].
      now rewrite (bind_item_missing _ _ _ _ Hc). }
  rewrite (bind_item_found _ _ _ _ _ Hc).
  destruct (lookup_label row "Role") as [r|] eqn:Hr.
  2:{ left. exists "Role". split; [exact Hr|].
      now rewrite (bind_item_missing _ _ _ _ Hr). }
  rewrite (bind_item_found _ _ _ _ _ Hr).
  destruct (lookup_label row "Calculated_Duration") as [cd|] eqn:Hcd.
  2:{ left. exists "Calculated_Duration". split; [exact Hcd|].
      now rewrite (bind_item_missing _ _ _ _ Hcd). }
  rewrite (bind_item_found _ _ _ _ _ Hcd).
  destruct (lookup_label row "Total_Experience") as [te|] eqn:Hte.
  2:{ left. exists "Total_Experience". split; [exact Hte|].
      now rewrite (bind_item_missing _ _ _ _ Hte). }
  rewrite (bind_item_found _ _ _ _ _ Hte).
  unfold bind. rewrite execute_insert.
  destruct (same_mobile m table) eqn:Same.
  - right. left. eexists. reflexivity.
  - right. right. exists table, n, m, e, g, cc, r, cd, te.
    repeat split; assumption || reflexivity.
Qed.

End PersistenceMore.

Section PersistenceExtras.

Import Database.

(** X19.  [insert_resume_data] never changes or removes a stored record
    and never creates or drops the table: the records afterwards are the
    records before, in their order, followed by at most one new record, and
    the function returns [True] exactly when it stored one. *)
Theorem insert_keeps_records (now : datetime) (row : series) (w : world) :
  exists extra,
    stored (fst (insert_resume_data now row w)) = stored w ++ extra
    /\ (List.length extra <= 1)%nat
    /\ (snd (insert_resume_data now row w) = Ok true <-> extra <> [])
    /\ (conn (fst (insert_resume_data now row w)) = None <-> conn w = None).
Proof.
  destruct w as [c out].
  destruct (insert_outcome now row c out)
    as [(label & _ & E) | [(out' & E) | (table & n & m & e & g & cc & r & cd & te
                                         & -> & _ & _ & _ & E)]];
    rewrite E; cbn [fst snd].
  - exists []. rewrite app_nil_r. repeat split; try (cbn; lia); try tauto;
      try discriminate; intro H; now elim H.
  - exists []. unfold stored. cbn [conn]. rewrite app_nil_r.
    repeat split; try (cbn; lia); try tauto; try discriminate;
      intro H; now elim H.
  - eexists [_]. unfold stored. cbn [conn].
    repeat split; try (cbn; lia); try discriminate.
Qed.

Lemma keys_unique_snoc (table : list resume) (rec : resume) :
  keys_unique table -> same_mobile (mobile rec) table = false ->
  keys_unique (table ++ [rec]).
Proof.
  induction table as [|old table IH]; intros U S.
  - cbn. split; [reflexivity|exact I].
  - destruct U as [U1 U2]. unfold same_mobile in S. cbn [existsb] in S.
    apply orb_false_iff in S. destruct S as [S1 S2].
    cbn [app keys_unique]. split; [|now apply IH].
    rewrite same_mobile_app, U1. unfold same_mobile. cbn [existsb].
    now rewrite sql_eq_sym, S1.
Qed.

Lemma same_mobile_filter (m : value) (p : resume -> bool) (table : list resume) :
  same_mobile m table = false -> same_mobile m (List.filter p table) = false.
Proof.
  unfold same_mobile. induction table as [|old table IH]; [reflexivity|].
  cbn [existsb List.filter]. intro H. apply orb_false_iff in H.
  destruct H as [H1 H2]. destruct (p old); [cbn [existsb]; rewrite H1|];
    now apply IH.
Qed.

Lemma keys_unique_filter (p : resume -> bool) (table : list resume) :
  keys_unique table -> keys_unique (List.filter p table).
Proof.
  induction table as [|old table IH]; [exact (fun H => H)|].
  intros [U1 U2]. cbn [List.filter]. destruct (p old); [|now apply IH].
  split; [now apply same_mobile_filter|now apply IH].
Qed.

Lemma placeholders_delete : placeholders (sql DeleteResume) = 1%nat.
Proof. reflexivity. Qed.

Lemma placeholders_create : placeholders (sql CreateTable) = 0%nat.
Proof. vm_compute. reflexivity. Qed.

Lemma delete_resume_result (m : value) (w : world) :
  delete_resume m w
  = match conn w with
    | Some table =>
        ({| conn := Some (List.filter (fun old => negb (sql_eq (mobile old) m)) table);
            stdout := stdout w |}, Ok tt)
    | None =>
        ({| conn := None;
            stdout := stdout w ++ [ErrorDeletingResume
                                     (OperationalError "no such table: resumes")] |},
         Ok tt)
    end.
Proof.
  destruct w as [[table|] out]; reflexivity.
Qed.

Lemma create_table_result (w : world) :
  create_table w
  = ({| conn := Some (stored w); stdout := stdout w |}, Ok tt).
Proof.
  destruct w as [[table|] out]; unfold create_table, try_except_sqlite, bind,
    execute, stored; cbn [conn stdout]; [|reflexivity].
  rewrite placeholders_create. reflexivity.
Qed.

Lemma update_resume_conn (row : series) (w : world) :
  conn (fst (update_resume row w)) = conn w.
Proof.
  unfold update_resume, try_except_sqlite, bind, item.
  repeat match goal with
         | |- context [lookup_label row ?l] =>
             destruct (lookup_label row l); [|reflexivity]
         end.
  cbv beta iota delta [ret raise].
  match goal with
  | |- context [execute UpdateResume ?ps w] =>
      destruct (execute_update_nine
                  (nth 0 ps VNull) (nth 1 ps VNull) (nth 2 ps VNull)
                  (nth 3 ps VNull) (nth 4 ps VNull) (nth 5 ps VNull)
                  (nth 6 ps VNull) (nth 7 ps VNull) (nth 8 ps VNull) w)
        as (err & E & S & _)
  end.
  cbn [nth] in E. rewrite E, S. reflexivity.
Qed.

(** X20.  The primary key holds in every state the functions of the
    module can reach: when no two stored records have the same mobile, none
    have after [create_table], [insert_resume_data], [update_resume] or
    [delete_resume]. *)
Theorem primary_key_is_kept (now : datetime) (row : series) (m : value)
  (w : world) :
  keys_unique (stored w) ->
  keys_unique (stored (fst (create_table w)))
  /\ keys_unique (stored (fst (insert_resume_data now row w)))
  /\ keys_unique (stored (fst (update_resume row w)))
  /\ keys_unique (stored (fst (delete_resume m w))).
Proof.
  intro U. split; [|split; [|split]].
  - now rewrite create_table_result.
  - destruct w as [c out].
    destruct (insert_outcome now row c out)
      as [(label & _ & E) | [(out' & E) | (table & n & m' & e & g & cc & r & cd & te
                                           & -> & _ & _ & S & E)]];
      rewrite E; cbn [fst]; try exact U.
    unfold stored in *. cbn [conn] in *. apply keys_unique_snoc; [exact U|].
    unfold stored_record. cbn [mobile]. now rewrite same_mobile_affinity.
  - unfold stored. now rewrite update_resume_conn.
  - rewrite delete_resume_result. unfold stored in *.
    destruct (conn w) as [table|]; cbn [fst conn]; [|exact I].
    now apply keys_unique_filter.
Qed.



End PersistenceExtras.

Section UploadFacts.

Import Database.
Import Upload.










End UploadFacts.

Section RangeFacts.

Lemma dash_free_app (a b : string) :
  dash_free (a ++ b) = dash_free a && dash_free b.
Proof.
  induction a as [|c a IH]; [reflexivity|].
  cbn [append dash_free]. rewrite IH. now rewrite andb_assoc.
Qed.

Lemma dash_free_no_hyphen (s : string) :
  dash_free s = true -> PyStr.contains "-" s = false.
Proof.
  induction s as [|c s IH]; [reflexivity|].
  cbn [dash_free]. intro H. apply andb_true_iff in H. destruct H as [H1 H2].
  apply andb_true_iff in H1. destruct H1 as [H1 _].
  rewrite contains_hyphen_cons, (IH H2).
  apply negb_true_iff in H1. now rewrite H1.
Qed.

Lemma en_dash_head (c : ascii) (s : string) :
  Ascii.eqb c "226" = false -> prefix "–" (String c s) = false.
Proof.
  intro H. rewrite prefix_cons_cons, Ascii.eqb_sym, H. reflexivity.
Qed.

(** Before a text that does not begin with the first byte of an en-dash,
    a text free of dashes holds no en-dash. *)
Lemma contains_en_dash_app (a r : string) :
  dash_free a = true ->
  PyStr.contains "–" (a ++ r) = PyStr.contains "–" r.
Proof.
  induction a as [|c a IH]; [reflexivity|].
  cbn [dash_free]. intro H. apply andb_true_iff in H. destruct H as [H1 H2].
  apply andb_true_iff in H1. destruct H1 as [_ H1]. apply negb_true_iff in H1.
  change (String c a ++ r)%string with (String c (a ++ r)).
  rewrite contains_cons, (en_dash_head c _ H1), (IH H2). reflexivity.
Qed.

Lemma dash_free_no_en_dash (s : string) :
  dash_free s = true -> PyStr.contains "–" s = false.
Proof.
  intro H. rewrite <- (append_nil_r s). now rewrite contains_en_dash_app.
Qed.

Lemma before_first_head (sep r : string) :
  text_before_first sep (sep ++ r) = EmptyString.
Proof.
  pose proof (prefix_app sep r) as P.
  destruct (sep ++ r)%string; cbn [text_before_first]; now rewrite P.
Qed.

Lemma before_first_hyphen (a r : string) :
  dash_free a = true -> text_before_first "-" (a ++ "-" ++ r) = a.
Proof.
  induction a as [|c a IH].
  - intros _. apply (before_first_head "-" r).
  - cbn [dash_free]. intro H. apply andb_true_iff in H. destruct H as [H1 H2].
    apply andb_true_iff in H1. destruct H1 as [H1 _]. apply negb_true_iff in H1.
    change (String c a ++ "-" ++ r)%string with (String c (a ++ "-" ++ r)).
    cbn [text_before_first]. rewrite prefix_cons_cons, Ascii.eqb_sym, H1.
    cbn [andb]. now rewrite (IH H2).
Qed.

Lemma before_first_en_dash (a r : string) :
  dash_free a = true -> text_before_first "–" (a ++ "–" ++ r) = a.
Proof.
  induction a as [|c a IH].
  - intros _. apply (before_first_head "–" r).
  - cbn [dash_free]. intro H. apply andb_true_iff in H. destruct H as [H1 H2].
    apply andb_true_iff in H1. destruct H1 as [_ H1]. apply negb_true_iff in H1.
    change (String c a ++ "–" ++ r)%string with (String c (a ++ "–" ++ r)).
    cbn [text_before_first]. rewrite (en_dash_head c _ H1). now rewrite (IH H2).
Qed.

Lemma drop_app (sep r : string) : PyStr.drop (length sep) (sep ++ r) = r.
Proof. induction sep as [|c sep IH]; [now destruct r|exact IH]. Qed.

Lemma contains_head (sep r : string) : PyStr.contains sep (sep ++ r) = true.
Proof.
  destruct (sep ++ r)%string eqn:E.
  - apply append_empty in E. destruct E as [-> ->]. reflexivity.
  - rewrite <- E. destruct (sep ++ r)%string eqn:E' at 1; [congruence|].
    rewrite <- E'. rewrite E at 1. rewrite contains_cons, <- E, prefix_app.
    reflexivity.
Qed.

Lemma after_last_app (sep a b : string) :
  (forall s, prefix sep s = true ->
     text_after_last sep s
     = (let r := PyStr.drop (length sep) s in
        if PyStr.contains sep r then text_after_last sep r else r)) ->
  PyStr.contains sep b = false ->
  text_after_last sep (a ++ sep ++ b) = b.
Proof.
  intros B F. induction a as [|c a IH].
  - cbn [append]. rewrite (B _ (prefix_app sep b)). cbv zeta.
    now rewrite drop_app, F.
  - change (String c a ++ sep ++ b)%string with (String c (a ++ sep ++ b)).
    cbn [text_after_last].
    now rewrite (contains_app_r sep a _ (contains_head sep b)).
Qed.

(** The tokens of a range of two texts free of dashes. *)
Lemma hyphen_range_tokens (a b : string) :
  dash_free a = true -> dash_free b = true ->
  Duration.start_token (a ++ "-" ++ b) = PyStr.strip a
  /\ Duration.end_token (a ++ "-" ++ b) = Some (PyStr.strip b).
Proof.
  intros Fa Fb. unfold Duration.start_token, Duration.end_token.
  assert (C1 : PyStr.contains "–" (a ++ "-" ++ b) = false).
  { rewrite (contains_en_dash_app a _ Fa).
    change ("-" ++ b)%string with (String "-" b).
    rewrite contains_cons, (en_dash_head "-" b eq_refl).
    now apply dash_free_no_en_dash. }
  assert (C2 : PyStr.contains "-" (a ++ "-" ++ b) = true)
    by apply contains_app_r, contains_head.
  rewrite C1, C2.
  destruct (split_first_last "-" _ hyphen_nonempty hyphen_border_free C2) as [F L].
  rewrite F, L, (before_first_hyphen a b Fa).
  now rewrite (after_last_app "-" a b hyphen_border_free (dash_free_no_hyphen b Fb)).
Qed.

Lemma en_dash_range_tokens (a b : string) :
  dash_free a = true -> dash_free b = true ->
  Duration.start_token (a ++ "–" ++ b) = PyStr.strip a
  /\ Duration.end_token (a ++ "–" ++ b) = Some (PyStr.strip b).
Proof.
  intros Fa Fb. unfold Duration.start_token, Duration.end_token.
  assert (C : PyStr.contains "–" (a ++ "–" ++ b) = true)
    by apply contains_app_r, contains_head.
  rewrite C.
  destruct (split_first_last "–" _ en_dash_nonempty en_dash_border_free C) as [F L].
  rewrite F, L, (before_first_en_dash a b Fa).
  now rewrite (after_last_app "–" a b en_dash_border_free (dash_free_no_en_dash b Fb)).
Qed.



End RangeFacts.


Section YearRange.

Variables a b c d a' b' c' d' : ascii.
Hypothesis Ha : PyStr.is_digit a = true.
Hypothesis Hb : PyStr.is_digit b = true.
Hypothesis Hc : PyStr.is_digit c = true.
Hypothesis Hd : PyStr.is_digit d = true.
Hypothesis Ha' : PyStr.is_digit a' = true.
Hypothesis Hb' : PyStr.is_digit b' = true.
Hypothesis Hc' : PyStr.is_digit c' = true.
Hypothesis Hd' : PyStr.is_digit d' = true.

Lemma digit_dash_free (x : ascii) :
  PyStr.is_digit x = true ->
  negb (Ascii.eqb x "-") && negb (Ascii.eqb x "226") = true.
Proof.
  intro H. now rewrite (digit_neq x "-" H eq_refl), (digit_neq x "226" H eq_refl).
Qed.

Lemma year_text_dash_free (w x y z : ascii) :
  PyStr.is_digit w = true -> PyStr.is_digit x = true ->
  PyStr.is_digit y = true -> PyStr.is_digit z = true ->
  dash_free (year_text w x y z) = true.
Proof.
  intros Hw Hx Hy Hz. unfold year_text. cbn [dash_free].
  now rewrite !digit_dash_free.
Qed.

(** X28.  A range of two years of four digits (other than 0000), written
    with a hyphen or an en-dash and with or without a space on either side,
    counts twelve months per year of difference; with the word Present as
    its end it counts the months from the January of the first year to the
    current month. *)
Theorem year_range_counts_twelve_per_year (now : datetime) (sep : string) :
  (1 <= Strptime.int_of (year_text a b c d))%Z ->
  (1 <= Strptime.int_of (year_text a' b' c' d'))%Z ->
  In sep ["-"; " - "; "–"; " – "] ->
  Duration.Calculated_Duration now (year_text a b c d ++ sep ++ year_text a' b' c' d')
  = ((Strptime.int_of (year_text a' b' c' d') - Strptime.int_of (year_text a b c d)) * 12)%Z
  /\ Duration.Calculated_Duration now (year_text a b c d ++ sep ++ "Present")
     = ((year now - Strptime.int_of (year_text a b c d)) * 12 + (month now - 1))%Z.
Proof.
  intros P P' S.
  pose proof (year_text_dash_free a b c d Ha Hb Hc Hd) as F.
  pose proof (year_text_dash_free a' b' c' d' Ha' Hb' Hc' Hd') as F'.
  assert (G : forall pad : string, pad = "" \/ pad = " " ->
            dash_free (year_text a b c d ++ pad) = true
            /\ PyStr.strip (year_text a b c d ++ pad) = year_text a b c d
            /\ dash_free (pad ++ year_text a' b' c' d') = true
            /\ PyStr.strip (pad ++ year_text a' b' c' d') = year_text a' b' c' d'
            /\ dash_free (pad ++ "Present") = true
            /\ Duration.parse_date now (Some (PyStr.strip (pad ++ "Present")))
               = Some now).
  { intros pad [->| ->].
    - rewrite append_nil_r. cbn [append].
      rewrite !year_text_strip by assumption. now repeat split.
    - rewrite !dash_free_app, F, F'.
      repeat split.
      + apply (strip_padded "" (year_text a b c d) " ");
          [apply white_nil|apply white_space|now apply year_text_tight].
      + rewrite <- (append_nil_r (year_text a' b' c' d')) at 1.
        apply (strip_padded " " (year_text a' b' c' d') "");
          [apply white_space|apply white_nil|now apply year_text_tight]. }
  unfold Duration.Calculated_Duration, Duration.Start_Date, Duration.End_Date.
  assert (R : forall pad : string, pad = "" \/ pad = " " ->
            forall dash : string,
              (forall x y, dash_free x = true -> dash_free y = true ->
                 Duration.start_token (x ++ dash ++ y) = PyStr.strip x
                 /\ Duration.end_token (x ++ dash ++ y) = Some (PyStr.strip y)) ->
              forall e : string,
                dash_free (pad ++ e) = true ->
                Duration.start_token ((year_text a b c d ++ pad) ++ dash ++ pad ++ e)
                = year_text a b c d
                /\ Duration.end_token ((year_text a b c d ++ pad) ++ dash ++ pad ++ e)
                   = Some (PyStr.strip (pad ++ e))).
  { intros pad Hp dash T e Fe.
    destruct (G pad Hp) as (G1 & G2 & _).
    destruct (T _ _ G1 Fe) as [T1 T2]. now rewrite T1, T2, G2. }
  assert (Q : exists pad dash : string,
            (pad = "" \/ pad = " ")
            /\ (forall x y, dash_free x = true -> dash_free y = true ->
                  Duration.start_token (x ++ dash ++ y) = PyStr.strip x
                  /\ Duration.end_token (x ++ dash ++ y) = Some (PyStr.strip y))
            /\ forall e : string,
                (year_text a b c d ++ sep ++ e
                 = (year_text a b c d ++ pad) ++ dash ++ pad ++ e)%string).
  { destruct S as [<-|[<-|[<-|[<-|[]]]]];
      [exists "", "-"|exists " ", "-"|exists "", "–"|exists " ", "–"];
      (split; [tauto|]);
      (split; [first [exact hyphen_range_tokens|exact en_dash_range_tokens]|]);
      intro e; now rewrite ?append_nil_r, ?append_assoc. }
  destruct Q as (pad & dash & Hp & T & E).
  destruct (G pad Hp) as (_ & _ & G3 & G4 & G5 & G6).
  rewrite !E.
  destruct (R pad Hp dash T _ G3) as [S1 S2].
  destruct (R pad Hp dash T _ G5) as [S3 S4].
  rewrite S1, S2, S3, S4, G4, G6.
  rewrite (parse_date_year_text a b c d Ha Hb Hc Hd now P).
  rewrite (parse_date_year_text a' b' c' d' Ha' Hb' Hc' Hd' now P').
  cbn [Duration.calculate_duration_in_months year month].
  split; lia.
Qed.

End YearRange.

Section Escapes.

Import Database.



End Escapes.

(** ** The properties beyond the claims at concrete inputs *)

Lemma flatten_rows_follow_entries_witness :
  exists rows,
    ResumeProcessor.flatten (fun _ => "")
      [("Name", JStr "Asha"); ("Mobile", JStr "987-654-3210");
       ("Work Experiences",
        JList [JDict [("Company", JStr "Acme"); ("Duration", JStr "2019 - 2021")];
               JDict [("Company", JStr "Globex"); ("Role", JStr "Engineer")]])]
      []
    = (rows, None)
    /\ map ResumeProcessor.Company rows = [JStr "Acme"; JStr "Globex"].
Proof.
  eexists. split.
  - apply (flatten_rows_follow_entries (fun _ => "") _
             [[("Company", JStr "Acme"); ("Duration", JStr "2019 - 2021")];
              [("Company", JStr "Globex"); ("Role", JStr "Engineer")]] []).
    + discriminate.
    + reflexivity.
  - reflexivity.
Defined.

Lemma process_file_accounts_for_file_witness :
  exists rows entries,
    ResumeProcessor.process_file (fun _ => "") (fun _ => inl "Expecting value")
      ([], []) ("asha_resume.json", "not json")
    = ([] ++ rows, [] ++ entries)
    /\ ((entries = [] /\ rows <> []) \/ List.length entries = 1%nat).
Proof.
  destruct (process_file_accounts_for_file (fun _ => "")
              (fun _ => inl "Expecting value") ([], [])
              ("asha_resume.json", "not json"))
    as (rows & entries & E & _ & _ & H).
  exists rows, entries. split; [exact E|]. apply H. reflexivity.
Defined.

Lemma clean_text_removes_first_and_last_line_witness :
  (2 < List.length (CleanJson.readlines sample_text))%nat
  /\ exists first last,
       sample_text = (first ++ CleanJson.clean_text sample_text ++ last)%string
       /\ CleanJson.readlines sample_text
          = first :: CleanJson.readlines (CleanJson.clean_text sample_text) ++ [last].
Proof.
  assert (L : (2 < List.length (CleanJson.readlines sample_text))%nat)
    by (vm_compute; lia).
  split; [exact L|].
  exact (proj1 (clean_text_removes_first_and_last_line sample_text) L).
Defined.

Lemma parse_date_returns_calendar_dates_witness :
  valid_date sample_now
  /\ Duration.parse_date sample_now (Some "Feb 2020")
     = Some {| year := 2020; month := 2; day := 1 |}
  /\ valid_date {| year := 2020; month := 2; day := 1 |}.
Proof.
  assert (V : valid_date sample_now) by (unfold valid_date; cbn; lia).
  split; [exact V|]. split; [reflexivity|].
  apply (parse_date_returns_calendar_dates sample_now (Some "Feb 2020") _ V).
  reflexivity.
Defined.

Lemma calculate_duration_in_months_order_witness :
  Duration.calculate_duration_in_months sample_now
    (Some {| year := 2021; month := 3; day := 1 |})
    (Some {| year := 2019; month := 11; day := 1 |})
  = (- Duration.calculate_duration_in_months sample_now
         (Some {| year := 2019; month := 11; day := 1 |})
         (Some {| year := 2021; month := 3; day := 1 |}))%Z.
Proof.
  refine (proj1 (proj2 (proj2
            (calculate_duration_in_months_order sample_now
               {| year := 2019; month := 11; day := 1 |}
               {| year := 2021; month := 3; day := 1 |}
               sample_now _ _)))); cbn; lia.
Defined.

Lemma parse_date_bare_year_witness :
  Duration.parse_date sample_now (Some "2019")
  = Some {| year := 2019; month := 1; day := 1 |}.
Proof.
  apply (parse_date_bare_year "2" "0" "1" "9" eq_refl eq_refl eq_refl eq_refl
           sample_now).
  vm_compute. discriminate.
Defined.

Lemma parse_date_month_and_year_witness :
  Duration.parse_date sample_now (Some "mar 2021")
  = Some {| year := 2021; month := 3; day := 1 |}.
Proof.
  refine (parse_date_month_and_year "2" "0" "2" "1" eq_refl eq_refl eq_refl eq_refl
            _ sample_now 2 "mar" (or_introl eq_refl)).
  vm_compute. discriminate.
Defined.

Lemma parse_date_needs_digit_witness :
  Duration.parse_date sample_now (Some "Till date") = None
  /\ nth_error (map snd (Frame.process_duration_column sample_now
                           ["n/a – Present"; "2019 - 2021"])) 0
     = Some 0%Z.
Proof.
  split.
  - apply (proj1 (parse_date_needs_digit sample_now) "Till date");
      [reflexivity|reflexivity|].
    vm_compute. intros [H|[H|[H|[]]]]; discriminate H.
  - apply (proj2 (parse_date_needs_digit sample_now)
             ["n/a – Present"; "2019 - 2021"] 0%nat "n/a – Present");
      [reflexivity|reflexivity|reflexivity|].
    vm_compute. intros [H|[H|[H|[]]]]; discriminate H.
Defined.

Lemma flatten_mobile_idempotent_witness :
  Main.flatten_mobile (fun _ => "") (JStr "987-654-3210") = JStr "9876543210"
  /\ PyStr.filter PyStr.is_digit "9876543210" = "9876543210".
Proof.
  split; [reflexivity|].
  apply (proj2 (flatten_mobile_idempotent (fun _ => "") (JStr "987-654-3210"))
           "987-654-3210" "9876543210"); [now left|reflexivity|reflexivity].
Defined.

Lemma overall_exp_one_entry_per_key_witness :
  exists groups,
    Main.overall_exp (fun _ => "") sample_frame = inr groups
    /\ NoDup (map (fun kt => key_class (fst kt)) groups).
Proof.
  eexists. split; [vm_compute; reflexivity|].
  apply (overall_exp_one_entry_per_key (fun _ => "") sample_frame).
  reflexivity.
Defined.

Lemma overall_exp_conserves_months_witness :
  exists groups,
    Main.overall_exp (fun _ => "") sample_frame = inr groups
    /\ sum_totals groups = 49%Z.
Proof.
  eexists. split; [vm_compute; reflexivity|].
  apply (proj1 (overall_exp_conserves_months (fun _ => "") sample_frame _ eq_refl)).
Defined.

Lemma aggregate_totals_witness :
  exists merged,
    Main.aggregate (fun _ => "") sample_frame = inr merged
    /\ map Main.Total_Experience merged = [42; 7; 42]%Z.
Proof.
  eexists. split.
  - apply (aggregate_totals (fun _ => "") sample_frame). reflexivity.
  - reflexivity.
Defined.

Lemma null_mobile_is_dropped_witness :
  Main.aggregate (fun _ => "") (sample_frame ++ sample_stray :: [])
  = Main.aggregate (fun _ => "") (sample_frame ++ []).
Proof.
  apply (proj2 (null_mobile_is_dropped (fun _ => "") JNull) sample_frame
           sample_stray []); reflexivity.
Defined.


Lemma primary_key_is_kept_witness :
  keys_unique [sample_record "2026-11-03"]
  /\ keys_unique
       (stored (fst (Database.delete_resume (Database.VText "9876543210")
                       {| Database.conn := Some [sample_record "2026-11-03"];
                          Database.stdout := [] |}))).
Proof.
  assert (U : keys_unique [sample_record "2026-11-03"]) by (cbn; tauto).
  split; [exact U|].
  apply (primary_key_is_kept sample_now sample_row (Database.VText "9876543210")
           {| Database.conn := Some [sample_record "2026-11-03"];
              Database.stdout := [] |} U).
Defined.









Lemma year_range_counts_twelve_per_year_witness :
  Duration.Calculated_Duration sample_now "2019 - 2021" = 24%Z
  /\ Duration.Calculated_Duration sample_now "2019 - Present" = 94%Z.
Proof.
  refine (year_range_counts_twelve_per_year "2" "0" "1" "9" "2" "0" "2" "1"
            eq_refl eq_refl eq_refl eq_refl eq_refl eq_refl eq_refl eq_refl
            sample_now " - " _ _ _).
  - vm_compute. discriminate.
  - vm_compute. discriminate.
  - right. left. reflexivity.
Defined.

